(** * Meeting-room signalling relay: the WebSocket consumer and its channel layer

    A shallow embedding of [meetings/consumers.py] (class [MeetingConsumer]),
    [meetingapp/middleware.py] (class [JWTAuthMiddleware]) and the room
    termination view of [meetings/views.py] ([MeetingEndView.post]), together
    with the properties of the relay that the specification states about
    them; then of the other meeting views of [meetings/views.py] (create,
    join, leave, list participants), the media token of
    [meetings/services.py] and the text filter of [generate_pdf.py], with
    what they guarantee to the relay and to their callers.

    Python values are modelled as the code sees them: a [str] is a sequence of
    code points, a decoded JSON document is a tree, a consumer object is a
    record of its attributes (an attribute that was never assigned is [None]
    of an [option]), and the channel layer is a registry from group names to
    sets of channel names with one queue of pending events per channel. *)

From Stdlib Require Import ZArith NArith List Ascii String DecimalString.
From Stdlib Require DecimalZ DecimalPos.
From Stdlib Require Import Floats.SpecFloat.
From stdpp Require Import base gmap strings list fin_maps.

Open Scope Z_scope.

#[local] Set Warnings "-register-all".

(** ** Python strings *)

Module Py.

(** A Python [str]: a sequence of Unicode code points. *)
Abbreviation pystr := (list N).

(** The [str] written by an ASCII literal of the source. *)
Definition lit (s : string) : pystr :=
  List.map N_of_ascii (list_ascii_of_string s).
Arguments lit : simpl never.

(** [Py_UNICODE_ISSPACE]: the code points removed by [str.strip()]. *)
Definition isspace (c : N) : bool :=
  ((9 <=? c) && (c <=? 13))%N
  || ((28 <=? c) && (c <=? 32))%N
  || (c =? 133)%N || (c =? 160)%N || (c =? 5760)%N
  || ((8192 <=? c) && (c <=? 8202))%N
  || (c =? 8232)%N || (c =? 8233)%N || (c =? 8239)%N
  || (c =? 8287)%N || (c =? 12288)%N.

Fixpoint lstrip (s : pystr) : pystr :=
  match s with
  | c :: s' => if isspace c then lstrip s' else s
  | [] => []
  end.

Definition rstrip (s : pystr) : pystr := rev (lstrip (rev s)).

(** [s.strip()] *)
Definition strip (s : pystr) : pystr := rstrip (lstrip s).

(** [s[:n]] for a non-negative literal [n]. *)
Definition slice_to (n : nat) (s : pystr) : pystr := firstn n s.
Arguments slice_to : simpl never.

(** No whitespace at either end. *)
Definition no_space_ends (s : pystr) : Prop :=
  (forall c s', s = c :: s' -> isspace c = false)
  /\ (forall c s', s = s' ++ [c] -> isspace c = false).

(** [str(i)] for an [int]. *)
Definition str_of_int (i : Z) : pystr :=
  lit (NilZero.string_of_int (Z.to_int i)).

End Py.

Import Py.

(** ** Decoded JSON documents *)

(** What [json.loads] returns: [None], [bool], [int], [float], [str], [list]
    or [dict] (keys are strings, kept in document order). *)
Inductive json : Type :=
| JNull
| JBool (b : bool)
| JInt (i : Z)
| JFloat (f : spec_float)
| JStr (s : pystr)
| JList (items : list json)
| JDict (fields : list (pystr * json)).

(** The exceptions that leave a handler of the consumer. *)
Inductive exn : Type :=
| AttributeError
| TypeError
| ValueError
| RecursionError
| ValidationError.

(** The outcome of [json.loads(text_data)] on a text frame: the call returns
    a document, raises [json.JSONDecodeError] for a text that is not JSON, or
    raises another exception for a text the decoder gives up on
    ([RecursionError] for nesting beyond the recursion limit of the
    interpreter, [ValueError] for an integer literal beyond its digit limit). *)
Inductive loads_result : Type :=
| JSONDecodeError
| LoadsRaised (e : exn)
| Loaded (data : json).

(** Lookup of a key in the fields of a [dict]. *)
Fixpoint dict_lookup (k : pystr) (fields : list (pystr * json)) : option json :=
  match fields with
  | [] => None
  | (k', v) :: rest => if decide (k' = k) then Some v else dict_lookup k rest
  end.

(** [d.get(k, default)] on a [dict]. *)
Definition dict_get (k : pystr) (default : json) (fields : list (pystr * json)) : json :=
  match dict_lookup k fields with
  | Some v => v
  | None => default
  end.

(** Truth value of an object, as [bool(v)] and [not v] compute it. *)
Definition truthy (v : json) : bool :=
  match v with
  | JNull => false
  | JBool b => b
  | JInt i => negb (i =? 0)
  | JFloat (S754_zero _) => false
  | JFloat _ => true
  | JStr s => match s with [] => false | _ => true end
  | JList l => match l with [] => false | _ => true end
  | JDict l => match l with [] => false | _ => true end
  end.

(** [v == "literal"] for a string literal: only an equal [str] compares equal. *)
Definition eq_str (v : json) (s : pystr) : bool :=
  match v with
  | JStr s' => bool_decide (s' = s)
  | _ => false
  end.

(** ** Identities and the persistence layer *)

(** [scope["user"]] as the middleware leaves it: Django's [AnonymousUser]
    (whose [id] is [None] and whose [username] is the empty string) or a row
    of the user table. *)
Inductive principal : Type :=
| AnonymousUser
| User (id : Z) (username : pystr).

(** [u.id] *)
Definition principal_id (u : principal) : json :=
  match u with
  | AnonymousUser => JNull
  | User i _ => JInt i
  end.

(** [u.username] *)
Definition principal_username (u : principal) : pystr :=
  match u with
  | AnonymousUser => []
  | User _ n => n
  end.

(** [isinstance(u, AnonymousUser)] *)
Definition is_anonymous (u : principal) : bool :=
  match u with
  | AnonymousUser => true
  | User _ _ => false
  end.

(** A row of [Meeting] ([models.py]): primary key (a UUID, written as [str]
    writes it), host, liveness, end time. *)
Record Meeting : Type := mkMeeting {
  m_id : pystr;
  m_host_id : Z;
  m_is_active : bool;
  m_ended_at : option Z;
}.

(** A row of [Participant] ([models.py]). *)
Record Participant : Type := mkParticipant {
  p_meeting_id : pystr;
  p_user_id : Z;
  p_is_active : bool;
  p_left_at : option Z;
}.

Record database : Type := mkDatabase {
  users : list (Z * pystr);
  meetings : list Meeting;
  participants : list Participant;
}.

(** [UUIDField.to_python] on a [str], which the queries on [Meeting.id] and
    on [Participant.meeting_id] apply to their argument: [uuid.UUID(hex=s)]
    drops the hyphens and wants 32 hexadecimal digits.  The key is written the
    way [str] writes a UUID, which is how the rows above hold it; [None] stands
    for [ValidationError].  A string the route lets through holds lower-case
    hexadecimal digits and hyphens only, so the prefixes, braces, signs and
    separators that [uuid.UUID] and [int] also tolerate do not occur. *)
Definition hex_digit (c : N) : bool :=
  ((48 <=? c) && (c <=? 57))%N || ((97 <=? c) && (c <=? 102))%N
  || ((65 <=? c) && (c <=? 70))%N.

Definition lower_hex (c : N) : N :=
  if ((65 <=? c) && (c <=? 70))%N then (c + 32)%N else c.

Definition uuid_hex (s : pystr) : pystr :=
  List.filter (fun c => negb (c =? 45)%N) s.

(** [str(u)] for the UUID of 32 hexadecimal digits [hex]. *)
Definition uuid_str (hex : pystr) : pystr :=
  firstn 8 hex ++ [45%N] ++ firstn 4 (skipn 8 hex) ++ [45%N]
  ++ firstn 4 (skipn 12 hex) ++ [45%N] ++ firstn 4 (skipn 16 hex) ++ [45%N]
  ++ skipn 20 hex.

Definition to_uuid (s : pystr) : option pystr :=
  let hex := uuid_hex s in
  if bool_decide (length hex = 32%nat) && forallb hex_digit hex
  then Some (uuid_str (List.map lower_hex hex))
  else None.

(** [User.objects.get(id=i)]; [None] stands for [User.DoesNotExist]. *)
Definition get_user (db : database) (i : Z) : option principal :=
  match List.find (fun u => fst u =? i) (users db) with
  | Some (i', n) => Some (User i' n)
  | None => None
  end.

(** ** The channel layer *)

(** Events travelling through the channel layer, one constructor per
    ["type"] of the dictionaries handed to [group_send]. *)
Inductive event : Type :=
| ParticipantJoined (user_id : json) (username : pystr)
| ParticipantLeft (user_id : json) (username : pystr)
| ChatMessage (user_id : json) (username : pystr) (message : pystr)
| HandRaise (user_id : json) (username : pystr) (raised : bool)
| WebrtcRelay (from_user_id : json) (from_username : pystr) (signal : json)
| MeetingEndedEvent.

(** The registry: group name to member channels, and for every channel the
    events sent to it that its consumer has not handled yet.  This is the
    contract of [group_add], [group_discard] and [group_send] that the consumer
    relies on; the message expiry and the channel capacity of a particular
    backend are outside it, and the check of a group name is
    [valid_group_name] below. *)
Record layer : Type := mkLayer {
  groups : gmap pystr (gset pystr);
  queues : gmap pystr (list event);
}.

Definition members (g : pystr) (L : layer) : gset pystr :=
  default ∅ (groups L !! g).

Definition pending (c : pystr) (L : layer) : list event :=
  default [] (queues L !! c).

(** [channel_layer.group_add(group, channel)] *)
Definition group_add (g c : pystr) (L : layer) : layer :=
  mkLayer (<[g := {[c]} ∪ members g L]> (groups L)) (queues L).

(** [channel_layer.group_discard(group, channel)]: the channel leaves the
    group, and a group left without members is dropped from the registry. *)
Definition group_discard (g c : pystr) (L : layer) : layer :=
  match groups L !! g with
  | Some s =>
      if decide (s = ∅) then L
      else
        let s' := s ∖ {[c]} in
        if decide (s' = ∅) then mkLayer (delete g (groups L)) (queues L)
        else mkLayer (<[g := s']> (groups L)) (queues L)
  | None => L
  end.

(** [channel_layer.group_send(group, message)]: the message is put on the
    queue of every channel that is a member at the time of the call. *)
Definition group_send (g : pystr) (ev : event) (L : layer) : layer :=
  mkLayer (groups L)
          (set_to_map (fun c => (c, pending c L ++ [ev])) (members g L)
             ∪ queues L).

(** ** The consumer object *)

(** What a consumer does on its WebSocket: [self.accept()],
    [self.send(json.dumps(frame))] and [self.close(code)].  A frame is kept as
    the document handed to [json.dumps]. *)
Inductive sockop : Type :=
| Accept
| Send (frame : json)
| Close (code : option Z).

(** An instance of [MeetingConsumer]: its channel name, the part of the
    connection scope it reads, the attributes [connect] assigns ([None] until
    assigned; [user] may be assigned Python's [None]), and the operations it
    has performed on its socket, oldest first. *)
Record consumer : Type := mkConsumer {
  channel_name : pystr;
  scope_meeting_id : pystr;
  scope_user : option principal;
  meeting_id : option pystr;
  group_name : option pystr;
  user : option (option principal);
  user_group : option pystr;
  socket : list sockop;
}.

(** A consumer as the framework instantiates it for a new connection. *)
Definition new_consumer (c mid : pystr) (u : option principal) : consumer :=
  mkConsumer c mid u None None None None [].

Definition set_meeting_id (v : pystr) (s : consumer) : consumer :=
  mkConsumer (channel_name s) (scope_meeting_id s) (scope_user s)
             (Some v) (group_name s) (user s) (user_group s) (socket s).

Definition set_group_name (v : pystr) (s : consumer) : consumer :=
  mkConsumer (channel_name s) (scope_meeting_id s) (scope_user s)
             (meeting_id s) (Some v) (user s) (user_group s) (socket s).

Definition set_user (v : option principal) (s : consumer) : consumer :=
  mkConsumer (channel_name s) (scope_meeting_id s) (scope_user s)
             (meeting_id s) (group_name s) (Some v) (user_group s) (socket s).

Definition set_user_group (v : pystr) (s : consumer) : consumer :=
  mkConsumer (channel_name s) (scope_meeting_id s) (scope_user s)
             (meeting_id s) (group_name s) (user s) (Some v) (socket s).

Definition emit (op : sockop) (s : consumer) : consumer :=
  mkConsumer (channel_name s) (scope_meeting_id s) (scope_user s)
             (meeting_id s) (group_name s) (user s) (user_group s)
             (socket s ++ [op]).

(** The frames a consumer has sent to its client, oldest first. *)
Definition frames (s : consumer) : list json :=
  omap (fun op => match op with Send f => Some f | _ => None end) (socket s).

(** The close codes a consumer has issued. *)
Definition closes (s : consumer) : list (option Z) :=
  omap (fun op => match op with Close c => Some c | _ => None end) (socket s).

(** ** Handlers as state transformers that may raise *)

Inductive outcome (A : Type) : Type :=
| Returned (a : A)
| Raised (e : exn).
Arguments Returned {A} a.
Arguments Raised {A} e.

(** A coroutine of the consumer: it reads and updates the consumer object
    and the channel layer, and returns or raises. *)
Definition M (A : Type) : Type :=
  consumer -> layer -> outcome A * consumer * layer.

#[global] Instance M_ret : MRet M := fun A a s L => (Returned a, s, L).

#[global] Instance M_bind : MBind M := fun A B k m s L =>
  match m s L with
  | (Returned a, s', L') => k a s' L'
  | (Raised e, s', L') => (Raised e, s', L')
  end.

Definition raise {A : Type} (e : exn) : M A := fun s L => (Raised e, s, L).

(** Read of an attribute of [self]; an attribute never assigned raises. *)
Definition attr {A : Type} (field : consumer -> option A) : M A := fun s L =>
  match field s with
  | Some v => (Returned v, s, L)
  | None => (Raised AttributeError, s, L)
  end.

Definition hasattr {A : Type} (field : consumer -> option A) : M bool := fun s L =>
  (Returned (match field s with Some _ => true | None => false end), s, L).

Definition read {A : Type} (field : consumer -> A) : M A := fun s L =>
  (Returned (field s), s, L).

Definition assign (f : consumer -> consumer) : M unit := fun s L =>
  (Returned tt, f s, L).

Definition on_layer (f : layer -> layer) : M unit := fun s L =>
  (Returned tt, s, f L).

(** Attribute access [o.id] / [o.username] on the value of [self.user];
    Python's [None] has neither. *)
Definition dot_id (o : option principal) : M json :=
  match o with
  | Some u => mret (principal_id u)
  | None => raise AttributeError
  end.

Definition dot_username (o : option principal) : M pystr :=
  match o with
  | Some u => mret (principal_username u)
  | None => raise AttributeError
  end.

(** [data.get(key, default)]: only a [dict] has the method. *)
Definition py_get (data : json) (key : pystr) (default : json) : M json :=
  match data with
  | JDict fields => mret (dict_get key default fields)
  | _ => raise AttributeError
  end.

(** ** [MeetingConsumer] *)

Section Consumer.

(** Python's [repr] of a [float], a [list] or a [dict], which is what [str]
    and an f-string produce for them.  The relay's code does not define it
    and no property below depends on its value. *)
Variable py_repr : json -> pystr.

(** The check the channel layer makes of a group name before it does
    anything else ([valid_group_name] of the layer's base class); the layer
    raises [TypeError] for a name that fails it.  The layer is a library of its
    own, so the check is a parameter.  It is applied where the name is made
    from the frame.  The names [self.group_name] and [self.user_group] are made
    by [connect] from a meeting id the route let through and from the key of a
    user row: lower-case letters, digits, hyphens and underscores, 44 and at
    most 25 code points, which the layer accepts. *)
Variable valid_group_name : pystr -> bool.

(** The database the [database_sync_to_async] helpers query. *)
Variable db : database.

(** [str(v)], also the text an f-string substitutes for [{v}]. *)
Definition py_str (v : json) : pystr :=
  match v with
  | JStr s => s
  | JNull => lit "None"
  | JBool true => lit "True"
  | JBool false => lit "False"
  | JInt i => str_of_int i
  | _ => py_repr v
  end.

(** [i == o] for an [int] column against [self.user.id]. *)
Definition eq_int (i : Z) (o : json) : bool :=
  match o with
  | JInt j => i =? j
  | _ => false
  end.

Definition ws_accept : M unit := assign (emit Accept).
Definition ws_send (frame : json) : M unit := assign (emit (Send frame)).
Definition ws_close (code : option Z) : M unit := assign (emit (Close code)).

(** [_send_error] *)
Definition _send_error (message : pystr) : M unit :=
  ws_send (JDict [(lit "type", JStr (lit "error"));
                  (lit "message", JStr message)]).

(** [_check_access]: the meeting exists and is active, and the user is its
    host or one of its active participants.  The filter on [id] converts
    [self.meeting_id] to a UUID and raises when it is none. *)
Definition _check_access : M bool :=
  mid ← attr meeting_id;
  match to_uuid mid with
  | None => raise ValidationError
  | Some key =>
      match List.find (fun m => bool_decide (m_id m = key) && m_is_active m)
                      (meetings db) with
      | None => mret false
      | Some meeting =>
          u ← attr user;
          uid ← dot_id u;
          if eq_int (m_host_id meeting) uid then mret true
          else
            mret (existsb (fun p => bool_decide (p_meeting_id p = m_id meeting)
                                    && eq_int (p_user_id p) uid
                                    && p_is_active p)
                          (participants db))
      end
  end.

(** One entry of [room_state]: [{"user_id": p.user_id, "username":
    p.user.username}], for a row whose user the join finds. *)
Definition participant_entry (p : Participant) : option json :=
  match get_user db (p_user_id p) with
  | Some u => Some (JDict [(lit "user_id", JInt (p_user_id p));
                           (lit "username", JStr (principal_username u))])
  | None => None
  end.

(** [_get_active_participants]: all OTHER active participants of this
    meeting.  The filter on [meeting_id] converts [self.meeting_id] as the one
    of [_check_access] does. *)
Definition _get_active_participants : M (list json) :=
  mid ← attr meeting_id;
  match to_uuid mid with
  | None => raise ValidationError
  | Some key =>
      u ← attr user;
      uid ← dot_id u;
      let parts :=
        List.filter (fun p => bool_decide (p_meeting_id p = key)
                              && p_is_active p
                              && negb (eq_int (p_user_id p) uid))
                    (participants db) in
      mret (omap participant_entry parts)
  end.

(** [connect] *)
Definition connect : M unit :=
  mid ← read scope_meeting_id;
  assign (set_meeting_id mid);;
  mid ← attr meeting_id;
  assign (set_group_name (lit "meeting_" ++ mid));;
  su ← read scope_user;
  assign (set_user su);;
  u ← attr user;
  if match u with None => true | Some p => is_anonymous p end
  then ws_close (Some 4001)
  else
    ok ← _check_access;
    if negb ok then ws_close (Some 4003)
    else
      g ← attr group_name;
      c ← read channel_name;
      on_layer (group_add g c);;
      u ← attr user;
      uid ← dot_id u;
      assign (set_user_group (lit "user_" ++ py_str uid));;
      ug ← attr user_group;
      c ← read channel_name;
      on_layer (group_add ug c);;
      ws_accept;;
      parts ← _get_active_participants;
      ws_send (JDict [(lit "type", JStr (lit "room_state"));
                      (lit "participants", JList parts)]);;
      g ← attr group_name;
      u ← attr user;
      uid ← dot_id u;
      uname ← dot_username u;
      on_layer (group_send g (ParticipantJoined uid uname)).

(** [disconnect] *)
Definition disconnect (close_code : option Z) : M unit :=
  has ← hasattr group_name;
  if negb has then mret tt
  else
    g ← attr group_name;
    u ← attr user;
    uid ← dot_id u;
    uname ← dot_username u;
    on_layer (group_send g (ParticipantLeft uid uname));;
    g ← attr group_name;
    c ← read channel_name;
    on_layer (group_discard g c);;
    has ← hasattr user_group;
    if (has : bool) then
      ug ← attr user_group;
      c ← read channel_name;
      on_layer (group_discard ug c)
    else mret tt.

(** [channel_layer.group_send] under a name made from the frame. *)
Definition group_send_checked (g : pystr) (ev : event) : M unit :=
  if valid_group_name g then on_layer (group_send g ev) else raise TypeError.

(** [receive] *)
Definition receive (text_data : loads_result) : M unit :=
  match text_data with
  | JSONDecodeError => _send_error (lit "invalid JSON")
  | LoadsRaised e => raise e
  | Loaded data =>
      msg_type ← py_get data (lit "type") JNull;
      if eq_str msg_type (lit "chat") then
        m ← py_get data (lit "message") (JStr []);
        let message := slice_to 500 (strip (py_str m)) in
        if negb (truthy (JStr message)) then mret tt
        else
          g ← attr group_name;
          u ← attr user;
          uid ← dot_id u;
          uname ← dot_username u;
          on_layer (group_send g (ChatMessage uid uname message))
      else if eq_str msg_type (lit "hand_raise") then
        g ← attr group_name;
        u ← attr user;
        uid ← dot_id u;
        uname ← dot_username u;
        r ← py_get data (lit "raised") (JBool false);
        on_layer (group_send g (HandRaise uid uname (truthy r)))
      else if eq_str msg_type (lit "webrtc_signal") then
        to_user_id ← py_get data (lit "to") JNull;
        if negb (truthy to_user_id) then mret tt
        else
          u ← attr user;
          uid ← dot_id u;
          uname ← dot_username u;
          signal ← py_get data (lit "signal") JNull;
          group_send_checked (lit "user_" ++ py_str to_user_id)
                             (WebrtcRelay uid uname signal)
      else mret tt
  end.

(** *** Group message handlers *)

Definition participant_joined (user_id : json) (username : pystr) : M unit :=
  ws_send (JDict [(lit "type", JStr (lit "participant_joined"));
                  (lit "user_id", user_id);
                  (lit "username", JStr username)]).

Definition participant_left (user_id : json) (username : pystr) : M unit :=
  ws_send (JDict [(lit "type", JStr (lit "participant_left"));
                  (lit "user_id", user_id);
                  (lit "username", JStr username)]).

Definition chat_message (user_id : json) (username message : pystr) : M unit :=
  ws_send (JDict [(lit "type", JStr (lit "chat"));
                  (lit "user_id", user_id);
                  (lit "username", JStr username);
                  (lit "message", JStr message)]).

Definition hand_raise (user_id : json) (username : pystr) (raised : bool) : M unit :=
  ws_send (JDict [(lit "type", JStr (lit "hand_raise"));
                  (lit "user_id", user_id);
                  (lit "username", JStr username);
                  (lit "raised", JBool raised)]).

Definition webrtc_relay (from_user_id : json) (from_username : pystr)
    (signal : json) : M unit :=
  ws_send (JDict [(lit "type", JStr (lit "webrtc_signal"));
                  (lit "from", from_user_id);
                  (lit "from_username", JStr from_username);
                  (lit "signal", signal)]).

Definition meeting_ended : M unit :=
  ws_send (JDict [(lit "type", JStr (lit "meeting_ended"))]);;
  ws_close None.

(** The framework's dispatch of a channel-layer event to the handler named
    by its ["type"] (dots replaced by underscores). *)
Definition dispatch (ev : event) : M unit :=
  match ev with
  | ParticipantJoined uid n => participant_joined uid n
  | ParticipantLeft uid n => participant_left uid n
  | ChatMessage uid n m => chat_message uid n m
  | HandRaise uid n r => hand_raise uid n r
  | WebrtcRelay uid n sig => webrtc_relay uid n sig
  | MeetingEndedEvent => meeting_ended
  end.

End Consumer.

(** ** [JWTAuthMiddleware] *)

Section Middleware.

(** [AccessToken(token)["user_id"]] of the JWT library; [None] when the
    token does not validate (the call raises). *)
Variable access_token : pystr -> option Z.

Variable db : database.

(** [_get_user]; [token] is [parse_qs(query_string).get("token", [None])[0]]. *)
Definition _get_user (token : option pystr) : principal :=
  match token with
  | None => AnonymousUser
  | Some t =>
      if negb (truthy (JStr t)) then AnonymousUser
      else
        match access_token t with
        | None => AnonymousUser
        | Some uid =>
            match get_user db uid with
            | Some u => u
            | None => AnonymousUser
            end
        end
  end.

End Middleware.

(** ** [MeetingEndView] *)

Inductive response : Type :=
| Response (status : Z) (body : list (pystr * pystr)).

Definition end_meeting_row (now : Z) (mid : pystr) (host : Z) (m : Meeting) : Meeting :=
  if bool_decide (m_id m = mid) && (m_host_id m =? host)
  then mkMeeting (m_id m) (m_host_id m) false (Some now)
  else m.

Definition leave_row (now : Z) (mid : pystr) (p : Participant) : Participant :=
  if bool_decide (p_meeting_id p = mid) && p_is_active p
  then mkParticipant (p_meeting_id p) (p_user_id p) false (Some now)
  else p.

(** [MeetingEndView.post]: host only; marks the meeting ended and every
    active participant as having left.  [now1] and [now2] are the values of its
    two calls of [timezone.now()], in order.  The view reads and writes the
    database and nothing else. *)
Definition MeetingEndView_post (request_user : Z) (mid : pystr) (now1 now2 : Z)
    (db : database) : response * database :=
  match List.find (fun m => bool_decide (m_id m = mid) && (m_host_id m =? request_user))
                  (meetings db) with
  | None =>
      (Response 404 [(lit "error", lit "not found or not your meeting")], db)
  | Some meeting =>
      if negb (m_is_active meeting) then
        (Response 400 [(lit "error", lit "meeting already ended")], db)
      else
        (Response 200 [(lit "status", lit "ended")],
         mkDatabase (users db)
                    (List.map (end_meeting_row now1 mid request_user) (meetings db))
                    (List.map (leave_row now2 mid) (participants db)))
  end.

(** ** The running system *)

(** Where the framework has a consumer instance: still dispatching, stopped
    after its [disconnect] ran, or dead because a handler raised. *)
Inductive status : Type :=
| Running
| Stopped
| Crashed.

Record world : Type := mkWorld {
  w_db : database;
  w_layer : layer;
  w_conns : gmap pystr (consumer * status);
}.

(** What can happen next: a new connection is routed to a fresh consumer, a
    text frame arrives, a consumer takes the next event off its channel, the
    socket of a consumer is gone, the host posts to the end-meeting view, or
    another REST view (register, create, join, leave) rewrites the database. *)
Inductive action : Type :=
| Handshake (c : pystr) (mid : pystr) (token : option pystr)
| Frame (c : pystr) (text_data : loads_result)
| Deliver (c : pystr)
| Disconnected (c : pystr) (close_code : option Z)
| EndMeeting (request_user : Z) (mid : pystr) (now1 now2 : Z)
| RestUpdate (db' : database).

(** [routing.py]: the path [ws/meeting/<meeting_id>/] is routed to the
    consumer when [meeting_id] matches [[0-9a-f-]{36}]. *)
Definition route_char (c : N) : bool :=
  ((48 <=? c) && (c <=? 57))%N || ((97 <=? c) && (c <=? 102))%N || (c =? 45)%N.

Definition routed (mid : pystr) : bool :=
  bool_decide (length mid = 36%nat) && forallb route_char mid.

Definition is_accept (op : sockop) : bool :=
  match op with Accept => true | _ => false end.

Definition is_close (op : sockop) : bool :=
  match op with Close _ => true | _ => false end.

(** The socket is open for inbound frames: accepted and not closed. *)
Definition is_open (s : consumer) : bool :=
  existsb is_accept (socket s) && negb (existsb is_close (socket s)).

Section System.

Variable py_repr : json -> pystr.
Variable valid_group_name : pystr -> bool.
Variable access_token : pystr -> option Z.

(** Commit the effects of a handler run on consumer [c]. *)
Definition settle (w : world) (c : pystr) (after : status)
    (r : outcome unit * consumer * layer) : world :=
  match r with
  | (Returned _, s', L') => mkWorld (w_db w) L' (<[c := (s', after)]> (w_conns w))
  | (Raised _, s', L') => mkWorld (w_db w) L' (<[c := (s', Crashed)]> (w_conns w))
  end.

Definition step (a : action) (w : world) : world :=
  match a with
  | Handshake c mid token =>
      match w_conns w !! c with
      | Some _ => w
      | None =>
          if routed mid then
            let s := new_consumer c mid (Some (_get_user access_token (w_db w) token)) in
            settle w c Running (connect py_repr (w_db w) s (w_layer w))
          else w
      end
  | Frame c text_data =>
      match w_conns w !! c with
      | Some (s, Running) =>
          if is_open s
          then settle w c Running
                      (receive py_repr valid_group_name text_data s (w_layer w))
          else w
      | _ => w
      end
  | Deliver c =>
      match w_conns w !! c with
      | Some (s, Running) =>
          match pending c (w_layer w) with
          | [] => w
          | ev :: rest =>
              let L := mkLayer (groups (w_layer w))
                               (<[c := rest]> (queues (w_layer w))) in
              settle w c Running (dispatch ev s L)
          end
      | _ => w
      end
  | Disconnected c close_code =>
      match w_conns w !! c with
      | Some (s, Running) => settle w c Stopped (disconnect close_code s (w_layer w))
      | _ => w
      end
  | EndMeeting request_user mid now1 now2 =>
      mkWorld (snd (MeetingEndView_post request_user mid now1 now2 (w_db w)))
              (w_layer w) (w_conns w)
  | RestUpdate db' => mkWorld db' (w_layer w) (w_conns w)
  end.

(** A schedule, run from left to right. *)
Definition run (acts : list action) (w : world) : world :=
  fold_left (fun w a => step a w) acts w.

(** The consumer on channel [c], if any. *)
Definition conn (c : pystr) (w : world) : option consumer :=
  fst <$> w_conns w !! c.

(** The frames the client behind channel [c] has been sent. *)
Definition received (c : pystr) (w : world) : list json :=
  match conn c w with
  | Some s => frames s
  | None => []
  end.

(** The groups channel [c] is registered in. *)
Definition registered_in (c : pystr) (L : layer) : gset pystr :=
  dom (filter (fun gs => c ∈ snd gs) (groups L)).

End System.

Definition empty_layer : layer := mkLayer ∅ ∅.

(** ** What the handlers compute, in closed form

    The definitions of this section restate, as plain functions, what the
    coroutines above are proved to compute; the properties are stated with
    them. *)

(** The access rule of [_check_access] for the meeting whose key is [mid]:
    the meeting is active and the user is its host or has an active
    participant row. *)
Definition has_access (db : database) (mid : pystr) (uid : json) : bool :=
  match List.find (fun m => bool_decide (m_id m = mid) && m_is_active m)
                  (meetings db) with
  | None => false
  | Some meeting =>
      eq_int (m_host_id meeting) uid
      || existsb (fun p => bool_decide (p_meeting_id p = m_id meeting)
                           && eq_int (p_user_id p) uid
                           && p_is_active p)
                 (participants db)
  end.

(** The snapshot of [_get_active_participants] for the meeting whose key is
    [mid]. *)
Definition active_others (db : database) (mid : pystr) (uid : json) : list json :=
  omap (participant_entry db)
       (List.filter (fun p => bool_decide (p_meeting_id p = mid)
                              && p_is_active p
                              && negb (eq_int (p_user_id p) uid))
                    (participants db)).

Definition room_state_frame (parts : list json) : json :=
  JDict [(lit "type", JStr (lit "room_state"));
         (lit "participants", JList parts)].

Definition error_frame (message : pystr) : json :=
  JDict [(lit "type", JStr (lit "error")); (lit "message", JStr message)].

Definition meeting_ended_frame : json :=
  JDict [(lit "type", JStr (lit "meeting_ended"))].

(** The frame a consumer sends to its client for an event (the body of the
    group message handlers). *)
Definition frame_of (ev : event) : json :=
  match ev with
  | ParticipantJoined uid n =>
      JDict [(lit "type", JStr (lit "participant_joined"));
             (lit "user_id", uid); (lit "username", JStr n)]
  | ParticipantLeft uid n =>
      JDict [(lit "type", JStr (lit "participant_left"));
             (lit "user_id", uid); (lit "username", JStr n)]
  | ChatMessage uid n m =>
      JDict [(lit "type", JStr (lit "chat"));
             (lit "user_id", uid); (lit "username", JStr n);
             (lit "message", JStr m)]
  | HandRaise uid n r =>
      JDict [(lit "type", JStr (lit "hand_raise"));
             (lit "user_id", uid); (lit "username", JStr n);
             (lit "raised", JBool r)]
  | WebrtcRelay uid n sig =>
      JDict [(lit "type", JStr (lit "webrtc_signal"));
             (lit "from", uid); (lit "from_username", JStr n);
             (lit "signal", sig)]
  | MeetingEndedEvent => meeting_ended_frame
  end.

(** The names of the two groups of a session. *)
Definition room_group (mid : pystr) : pystr := lit "meeting_" ++ mid.

Definition personal_group (py_repr : json -> pystr) (uid : json) : pystr :=
  lit "user_" ++ py_str py_repr uid.

(** The consumer object after a handshake that was refused with [code]. *)
Definition rejected (c mid : pystr) (u : principal) (code : Z) : consumer :=
  mkConsumer c mid (Some u) (Some mid) (Some (room_group mid)) (Some (Some u))
             None [Close (Some code)].

(** The consumer object after a handshake that died in [_check_access]. *)
Definition aborted (c mid : pystr) (u : principal) : consumer :=
  mkConsumer c mid (Some u) (Some mid) (Some (room_group mid)) (Some (Some u))
             None [].

(** The snapshot sent to a session whose routed meeting id is [mid]. *)
Definition snapshot (db : database) (mid : pystr) (uid : json) : list json :=
  match to_uuid mid with
  | Some key => active_others db key uid
  | None => []
  end.

(** The consumer object after a handshake that was accepted. *)
Definition joined (py_repr : json -> pystr) (db : database) (c mid : pystr)
    (u : principal) : consumer :=
  mkConsumer c mid (Some u) (Some mid) (Some (room_group mid)) (Some (Some u))
             (Some (personal_group py_repr (principal_id u)))
             [Accept; Send (room_state_frame (snapshot db mid (principal_id u)))].

(** The text of a chat message as [receive] forwards it. *)
Definition chat_text (py_repr : json -> pystr) (fields : list (pystr * json)) : pystr :=
  slice_to 500 (strip (py_str py_repr (dict_get (lit "message") (JStr []) fields))).

(** The routing decision of [receive] for a decoded object sent by user [u]
    whose room group is [g]: the group addressed and the event sent to it,
    or [None] when nothing is sent. *)
Definition route_frame (py_repr : json -> pystr) (g : pystr) (u : principal)
    (fields : list (pystr * json)) : option (pystr * event) :=
  let msg_type := dict_get (lit "type") JNull fields in
  if eq_str msg_type (lit "chat") then
    match chat_text py_repr fields with
    | [] => None
    | message =>
        Some (g, ChatMessage (principal_id u) (principal_username u) message)
    end
  else if eq_str msg_type (lit "hand_raise") then
    Some (g, HandRaise (principal_id u) (principal_username u)
                       (truthy (dict_get (lit "raised") (JBool false) fields)))
  else if eq_str msg_type (lit "webrtc_signal") then
    let to_user_id := dict_get (lit "to") JNull fields in
    if truthy to_user_id then
      Some (personal_group py_repr to_user_id,
            WebrtcRelay (principal_id u) (principal_username u)
                        (dict_get (lit "signal") JNull fields))
    else None
  else None.

(** The sender identity an event carries. *)
Definition event_sender (ev : event) : option (json * pystr) :=
  match ev with
  | ParticipantJoined uid n | ParticipantLeft uid n
  | ChatMessage uid n _ | HandRaise uid n _ | WebrtcRelay uid n _ => Some (uid, n)
  | MeetingEndedEvent => None
  end.

(** The type tags [receive] recognises. *)
Definition recognised (msg_type : json) : bool :=
  eq_str msg_type (lit "chat") || eq_str msg_type (lit "hand_raise")
  || eq_str msg_type (lit "webrtc_signal").

(** Keys a client could use to claim a sender identity; [receive] reads none
    of them. *)
Definition sender_fields : list pystr :=
  [lit "user_id"; lit "username"; lit "from"; lit "from_username";
   lit "from_user_id"].

(** Two decoded objects that differ at most in sender fields. *)
Definition same_up_to_sender (d d' : list (pystr * json)) : Prop :=
  forall k, k ∉ sender_fields -> dict_lookup k d = dict_lookup k d'.

(** A handler leaves the attributes of the consumer alone and only adds
    operations at the end of its socket log. *)
Definition extends (s s' : consumer) : Prop :=
  channel_name s' = channel_name s
  /\ scope_meeting_id s' = scope_meeting_id s
  /\ scope_user s' = scope_user s
  /\ meeting_id s' = meeting_id s
  /\ group_name s' = group_name s
  /\ user s' = user s
  /\ user_group s' = user_group s
  /\ exists ops, socket s' = socket s ++ ops.

(** ** Invariant of the running system *)

(** Every consumer instance went through [connect]: it is keyed by its own
    channel name and has its room group and its user assigned. *)
Definition wf_conn (c : pystr) (s : consumer) : Prop :=
  channel_name s = c
  /\ is_Some (group_name s)
  /\ exists u, user s = Some (Some u).

(** Group members are channels of consumers that have not completed their
    teardown, registered under one of their own two group names. *)
Definition Inv (w : world) : Prop :=
  (forall c s st, w_conns w !! c = Some (s, st) -> wf_conn c s)
  /\ (forall g c, c ∈ members g (w_layer w) ->
        exists s st, w_conns w !! c = Some (s, st)
                     /\ st <> Stopped
                     /\ (group_name s = Some g \/ user_group s = Some g)).

(** The system before any connection. *)
Definition init (db : database) : world := mkWorld db empty_layer ∅.

(** The decoded object with the sender fields removed. *)
Definition without_sender_fields (d : list (pystr * json)) : list (pystr * json) :=
  List.filter (fun kv => negb (bool_decide (fst kv ∈ sender_fields))) d.

(** The consumer answered the frame with an [error] frame. *)
Definition answers_with_error (s s' : consumer) : Prop :=
  exists message, frames s' = frames s ++ [error_frame message].

(** Nothing reached the connection on channel [c] between [w] and [w']:
    no event was queued for it and no frame was sent to its client. *)
Definition gets_nothing (c : pystr) (w w' : world) : Prop :=
  pending c (w_layer w') = pending c (w_layer w)
  /\ received c w' = received c w.

(** ** A room with two users, for the examples *)

Module Demo.

Definition R1 : pystr := lit "0b9f3c1e-5a7d-4e2b-9c11-2f3a4b5c6d7e".

(** alice (3) hosts [R1]; bob (4) has joined it over REST; carol (5) has not. *)
Definition db0 : database :=
  mkDatabase [(3, lit "alice"); (4, lit "bob"); (5, lit "carol")]
             [mkMeeting R1 3 true None]
             [mkParticipant R1 3 true None; mkParticipant R1 4 true None].

(** Token validation: three tokens are good, every other one is refused. *)
Definition tokens (t : pystr) : option Z :=
  if decide (t = lit "jwt-alice") then Some 3
  else if decide (t = lit "jwt-bob") then Some 4
  else if decide (t = lit "jwt-carol") then Some 5
  else None.

(** The examples format no [float], [list] or [dict]. *)
Definition repr0 (v : json) : pystr := [].

(** The name check of the examples: fewer than 100 code points, one at
    least, all of them ASCII letters, digits, hyphens, underscores or
    periods. *)
Definition name0_char (c : N) : bool :=
  ((48 <=? c) && (c <=? 57))%N || ((65 <=? c) && (c <=? 90))%N
  || ((97 <=? c) && (c <=? 122))%N
  || (c =? 45)%N || (c =? 95)%N || (c =? 46)%N.

Definition names0 (g : pystr) : bool :=
  bool_decide (0 < length g < 100)%nat && forallb name0_char g.

(** The id of [R1] with its last hyphen moved to the end, and a routed id
    that is no UUID. *)
Definition R1_respelled : pystr := lit "0b9f3c1e-5a7d-4e2b-9c112f3a4b5c6d7e-".
Definition hyphens : pystr := lit "------------------------------------".

Definition alice : principal := User 3 (lit "alice").
Definition bob : principal := User 4 (lit "bob").

Definition A : pystr := lit "specific.alice".
Definition B : pystr := lit "specific.bob".
Definition C : pystr := lit "specific.carol".

Definition w0 : world := init db0.

(** alice and bob have connected and every queued event has been handled. *)
Definition w_ab : world :=
  run repr0 names0 tokens
      [Handshake A R1 (Some (lit "jwt-alice")); Deliver A;
       Handshake B R1 (Some (lit "jwt-bob")); Deliver A; Deliver B]
      w0.

Definition offer : json :=
  JDict [(lit "type", JStr (lit "offer")); (lit "sdp", JStr (lit "X"))].

(** [{"type": "webrtc_signal", "to": to, "signal": offer}] *)
Definition signal_to (to : Z) : list (pystr * json) :=
  [(lit "type", JStr (lit "webrtc_signal")); (lit "to", JInt to);
   (lit "signal", offer)].

(** [{"type": "ping"}] *)
Definition ping : list (pystr * json) := [(lit "type", JStr (lit "ping"))].

(** [{"type": "chat", "message": "  hi  "}] and the same frame with a forged
    sender. *)
Definition chat_hi : list (pystr * json) :=
  [(lit "type", JStr (lit "chat")); (lit "message", JStr (lit "  hi  "))].

Definition chat_hi_forged : list (pystr * json) :=
  [(lit "user_id", JInt 3); (lit "type", JStr (lit "chat"));
   (lit "username", JStr (lit "alice")); (lit "message", JStr (lit "  hi  "))].

(** bob's consumer object in [w_ab]: accepted, room state sent, his own
    join echoed back to him. *)
Definition bob_session : consumer :=
  emit (Send (frame_of (ParticipantJoined (JInt 4) (lit "bob"))))
       (joined repr0 db0 B R1 bob).

(** bob sends a frame of an unknown type. *)
Definition w_ping : world :=
  step repr0 names0 tokens (Frame B (Loaded (JDict ping))) w_ab.

(** bob addresses a signal to his own identity. *)
Definition w_self : world :=
  step repr0 names0 tokens (Frame B (Loaded (JDict (signal_to 4)))) w_ab.

(** alice, the host, ends the meeting. *)
Definition w_ended : world :=
  step repr0 names0 tokens (EndMeeting 3 R1 1700000000 1700000001) w_ab.

End Demo.

(** ** Sessions of the running system *)

(** The handshake of a consumer was refused: it holds no personal group and
    all it ever did on its socket is close it with a rejection code. *)
Definition refused (s : consumer) : Prop :=
  user_group s = None
  /\ exists k, socket s = [Close (Some k)] /\ (k = 4001 \/ k = 4003).

(** The handshake of a consumer was accepted for user [i]: its personal
    group is that of [i] and its socket log starts with the accept. *)
Definition accepted_as (py_repr : json -> pystr) (i : Z) (s : consumer) : Prop :=
  (exists n, user s = Some (Some (User i n)))
  /\ user_group s = Some (personal_group py_repr (JInt i))
  /\ exists ops, socket s = Accept :: ops.

(** The handshake of a consumer died in the access check: it holds no
    personal group and never did anything on its socket. *)
Definition died_in_connect (s : consumer) : Prop :=
  user_group s = None /\ socket s = [].

(** What [connect] leaves in every consumer object: the scope values copied
    to the attributes, the room group derived from the routed meeting id, and
    a refusal, a death in the access check or an acceptance. *)
Definition session_ok (py_repr : json -> pystr) (c : pystr) (s : consumer) : Prop :=
  channel_name s = c
  /\ routed (scope_meeting_id s) = true
  /\ meeting_id s = Some (scope_meeting_id s)
  /\ group_name s = Some (room_group (scope_meeting_id s))
  /\ (exists u, user s = Some (Some u))
  /\ (refused s \/ died_in_connect s \/ exists i, accepted_as py_repr i s).

(** The invariant of the running system, with identities: consumers are as
    [connect] left them, group members are accepted sessions that have not
    completed their teardown, and only accepted sessions have events queued. *)
Definition Inv_sessions (py_repr : json -> pystr) (w : world) : Prop :=
  (forall c s st, w_conns w !! c = Some (s, st) -> session_ok py_repr c s)
  /\ (forall g c, c ∈ members g (w_layer w) ->
        exists s st i, w_conns w !! c = Some (s, st)
                       /\ st <> Stopped
                       /\ accepted_as py_repr i s
                       /\ (group_name s = Some g \/ user_group s = Some g))
  /\ (forall c, pending c (w_layer w) <> [] ->
        exists s st i, w_conns w !! c = Some (s, st) /\ accepted_as py_repr i s).

(** The schedule never tears down the consumer on channel [c]. *)
Definition keeps_open (c : pystr) (acts : list action) : bool :=
  forallb (fun a => match a with
                    | Disconnected c' _ => negb (bool_decide (c' = c))
                    | _ => true
                    end) acts.

(** The code points of a group name built from a routed meeting id: the
    lower-case letters, the digits, the hyphen and the underscore. *)
Definition name_char (c : N) : bool :=
  ((48 <=? c) && (c <=? 57))%N || ((97 <=? c) && (c <=? 122))%N
  || (c =? 45)%N || (c =? 95)%N.

(** ** More frames for the examples *)

Module Frames.

(** [{"type": "hand_raise", "raised": 1}] *)
Definition raise_hand : list (pystr * json) :=
  [(lit "type", JStr (lit "hand_raise")); (lit "raised", JInt 1)].

(** [{"type": "webrtc_signal", "to": 0, "signal": offer}] *)
Definition signal_to_zero : list (pystr * json) := Demo.signal_to 0.

(** [{"type": "chat", "message": " \t\n"}] *)
Definition chat_blank : list (pystr * json) :=
  [(lit "type", JStr (lit "chat")); (lit "message", JStr [32; 9; 10]%N)].

(** [{"type": "chat", "message": null}] *)
Definition chat_null : list (pystr * json) :=
  [(lit "type", JStr (lit "chat")); (lit "message", JNull)].

End Frames.

(** ** The REST views over the full tables

    The consumer reads only part of the columns of [Meeting] and
    [Participant]; the views of [meetings/views.py] read and write the others
    too.  A full row carries the columns the consumer reads as its base row. *)

(** A row of [Meeting] with [title], [created_at] and [max_participants]. *)
Record MeetingRow : Type := mkMeetingRow {
  mr_base : Meeting;
  mr_title : pystr;
  mr_created_at : Z;
  mr_max_participants : Z;
}.

(** A row of [Participant] with [role] and [joined_at]. *)
Record ParticipantRow : Type := mkParticipantRow {
  pr_base : Participant;
  pr_role : pystr;
  pr_joined_at : Z;
}.

Record store : Type := mkStore {
  st_users : list (Z * pystr);
  st_meetings : list MeetingRow;
  st_participants : list ParticipantRow;
}.

(** The tables as the consumer sees them. *)
Definition db_of (st : store) : database :=
  mkDatabase (st_users st) (List.map mr_base (st_meetings st))
             (List.map pr_base (st_participants st)).

(** [Model.objects.get(...)]: the one row that matches, or one of the two
    exceptions. *)
Inductive got (A : Type) : Type :=
| GotOne (row : A)
| DoesNotExist
| MultipleObjectsReturned.
Arguments GotOne {A} row.
Arguments DoesNotExist {A}.
Arguments MultipleObjectsReturned {A}.

Definition objects_get {A : Type} (p : A -> bool) (rows : list A) : got A :=
  match List.filter p rows with
  | [] => DoesNotExist
  | [row] => GotOne row
  | _ => MultipleObjectsReturned
  end.

(** What a view does with a request: it answers with a status and a body,
    or an exception it does not catch leaves it; either way the tables are as
    the view left them. *)
Inductive rest_outcome : Type :=
| Answered (status : Z) (body : json) (st : store)
| Unhandled (st : store).

Definition tables (o : rest_outcome) : store :=
  match o with
  | Answered _ _ st => st
  | Unhandled st => st
  end.

Definition status_of (o : rest_outcome) : option Z :=
  match o with
  | Answered status _ _ => Some status
  | Unhandled _ => None
  end.

(** [Participant.ROLE_HOST] and [Participant.ROLE_PARTICIPANT] *)
Definition ROLE_HOST : pystr := lit "host".
Definition ROLE_PARTICIPANT : pystr := lit "participant".

(** The filters of the views, on full rows. *)
Definition in_meeting (mid : pystr) (p : ParticipantRow) : bool :=
  bool_decide (p_meeting_id (pr_base p) = mid).

Definition is_row_of (mid : pystr) (uid : Z) (p : ParticipantRow) : bool :=
  in_meeting mid p && (p_user_id (pr_base p) =? uid).

Definition row_active (p : ParticipantRow) : bool := p_is_active (pr_base p).

(** [.update(is_active=False, left_at=now)] on one row. *)
Definition mark_left (now : Z) (p : ParticipantRow) : ParticipantRow :=
  mkParticipantRow
    (mkParticipant (p_meeting_id (pr_base p)) (p_user_id (pr_base p)) false (Some now))
    (pr_role p) (pr_joined_at p).

(** The rejoin of [MeetingJoinView]: active again, [left_at] cleared,
    [joined_at] reset. *)
Definition mark_rejoined (now : Z) (p : ParticipantRow) : ParticipantRow :=
  mkParticipantRow
    (mkParticipant (p_meeting_id (pr_base p)) (p_user_id (pr_base p)) true None)
    (pr_role p) now.

(** [meeting.is_active = False; meeting.ended_at = now; meeting.save()] *)
Definition mark_ended (now : Z) (m : MeetingRow) : MeetingRow :=
  mkMeetingRow (mkMeeting (m_id (mr_base m)) (m_host_id (mr_base m)) false (Some now))
               (mr_title m) (mr_created_at m) (mr_max_participants m).

(** Apply [f] to the rows that satisfy [p]. *)
Definition update_where {A : Type} (p : A -> bool) (f : A -> A) (rows : list A) : list A :=
  List.map (fun row => if p row then f row else row) rows.

(** *** [services.py] *)

(** The grants and the token [SFUTokenService.generate_token] builds before
    it is signed. *)
Record VideoGrants : Type := mkVideoGrants {
  room_join : bool;
  room : pystr;
  can_publish : bool;
  can_subscribe : bool;
  can_publish_data : bool;
  room_admin : bool;
}.

Record AccessToken : Type := mkAccessToken {
  api_key : pystr;
  api_secret : pystr;
  identity : pystr;
  name : pystr;
  grants : VideoGrants;
}.

Section Rest.

(** [settings.LIVEKIT_API_KEY], [settings.LIVEKIT_API_SECRET] and
    [settings.LIVEKIT_URL], and the signature [to_jwt] of the media
    provider's library. *)
Variable LIVEKIT_API_KEY : pystr.
Variable LIVEKIT_API_SECRET : pystr.
Variable LIVEKIT_URL : pystr.
Variable to_jwt : AccessToken -> pystr.

(** The token [generate_token] hands to [to_jwt]. *)
Definition sfu_access_token (room_name participant_identity participant_name : pystr)
    (is_host : bool) : AccessToken :=
  mkAccessToken LIVEKIT_API_KEY LIVEKIT_API_SECRET
                participant_identity participant_name
                (mkVideoGrants true room_name true true true is_host).

(** [SFUTokenService.generate_token] *)
Definition generate_token (room_name participant_identity participant_name : pystr)
    (is_host : bool) : pystr :=
  to_jwt (sfu_access_token room_name participant_identity participant_name is_host).

(** [SFUTokenService.get_server_url] *)
Definition get_server_url : pystr := LIVEKIT_URL.

(** [MeetingJoinView.post] for the authenticated user [(uid, uname)];
    [now] is the time of the write ([auto_now_add] of a new row, or
    [timezone.now()] of a rejoin). *)
Definition MeetingJoinView_post (uid : Z) (uname : pystr) (mid : pystr) (now : Z)
    (st : store) : rest_outcome :=
  match objects_get (fun m => bool_decide (m_id (mr_base m) = mid)
                              && m_is_active (mr_base m))
                    (st_meetings st) with
  | DoesNotExist =>
      Answered 404 (JDict [(lit "error", JStr (lit "meeting not found"))]) st
  | MultipleObjectsReturned => Unhandled st
  | GotOne meeting =>
      let active_count :=
        length (List.filter (fun p => in_meeting (m_id (mr_base meeting)) p
                                      && row_active p)
                            (st_participants st)) in
      let is_host := m_host_id (mr_base meeting) =? uid in
      if negb is_host && (mr_max_participants meeting <=? Z.of_nat active_count)
      then Answered 403 (JDict [(lit "error", JStr (lit "meeting is full"))]) st
      else
        let role := if is_host then ROLE_HOST else ROLE_PARTICIPANT in
        let answer (st' : store) :=
          Answered 200
            (JDict [(lit "meeting_id", JStr (m_id (mr_base meeting)));
                    (lit "title", JStr (mr_title meeting));
                    (lit "is_host", JBool is_host);
                    (lit "sfu_token",
                     JStr (generate_token (m_id (mr_base meeting)) (str_of_int uid)
                                          uname is_host));
                    (lit "sfu_url", JStr get_server_url)])
            st' in
        match objects_get (is_row_of (m_id (mr_base meeting)) uid)
                          (st_participants st) with
        | MultipleObjectsReturned => Unhandled st
        | DoesNotExist =>
            answer (mkStore (st_users st) (st_meetings st)
                      (st_participants st
                       ++ [mkParticipantRow
                             (mkParticipant (m_id (mr_base meeting)) uid true None)
                             role now]))
        | GotOne _ =>
            answer (mkStore (st_users st) (st_meetings st)
                      (update_where (is_row_of (m_id (mr_base meeting)) uid)
                                    (mark_rejoined now) (st_participants st)))
        end
  end.

End Rest.

(** [MeetingLeaveView.post]; [now1], [now2] and [now3] are the values of its
    three calls of [timezone.now()], in order. *)
Definition MeetingLeaveView_post (uid : Z) (mid : pystr) (now1 now2 now3 : Z)
    (st : store) : rest_outcome :=
  match objects_get (fun m => bool_decide (m_id (mr_base m) = mid)) (st_meetings st) with
  | DoesNotExist =>
      Answered 404 (JDict [(lit "error", JStr (lit "meeting not found"))]) st
  | MultipleObjectsReturned => Unhandled st
  | GotOne meeting =>
      let parts1 :=
        update_where (fun p => is_row_of (m_id (mr_base meeting)) uid p && row_active p)
                     (mark_left now1) (st_participants st) in
      if m_host_id (mr_base meeting) =? uid then
        Answered 200 (JDict [(lit "status", JStr (lit "meeting ended"))])
          (mkStore (st_users st)
             (update_where (fun m => bool_decide (m_id (mr_base m) = m_id (mr_base meeting)))
                           (mark_ended now2) (st_meetings st))
             (update_where (fun p => in_meeting (m_id (mr_base meeting)) p && row_active p)
                           (mark_left now3) parts1))
      else
        Answered 200 (JDict [(lit "status", JStr (lit "left"))])
          (mkStore (st_users st) (st_meetings st) parts1)
  end.

(** One entry of the answer of [MeetingParticipantsView.get], for a row
    whose user the join finds. *)
Definition participant_info (st : store) (p : ParticipantRow) : option json :=
  match get_user (db_of st) (p_user_id (pr_base p)) with
  | Some u => Some (JDict [(lit "user_id", principal_id u);
                           (lit "username", JStr (principal_username u));
                           (lit "role", JStr (pr_role p));
                           (lit "joined_at", JInt (pr_joined_at p))])
  | None => None
  end.

(** [MeetingParticipantsView.get] *)
Definition MeetingParticipantsView_get (uid : Z) (mid : pystr) (st : store)
    : rest_outcome :=
  match objects_get (fun m => bool_decide (m_id (mr_base m) = mid)) (st_meetings st) with
  | DoesNotExist =>
      Answered 404 (JDict [(lit "error", JStr (lit "meeting not found"))]) st
  | MultipleObjectsReturned => Unhandled st
  | GotOne meeting =>
      let is_host := m_host_id (mr_base meeting) =? uid in
      let is_participant :=
        existsb (fun p => is_row_of (m_id (mr_base meeting)) uid p && row_active p)
                (st_participants st) in
      if negb is_host && negb is_participant then
        Answered 403 (JDict [(lit "error", JStr (lit "forbidden"))]) st
      else
        Answered 200
          (JList (omap (participant_info st)
                       (List.filter (fun p => in_meeting (m_id (mr_base meeting)) p
                                              && row_active p)
                                    (st_participants st))))
          st
  end.

(** *** [MeetingListCreateView.post]

    For the authenticated user [uid] and the parsed JSON body [data];
    [new_id] is the string of the [uuid.uuid4()] the new row gets as its
    primary key and [now] the time of the insert.  A body that is no object
    has no [get], a title that is no [str] has no [strip], the database driver
    raises for a title it cannot write, and an insert under a primary key
    already in the table raises [IntegrityError]: the view catches none of
    them. *)

Section Create.

(** Whether the database driver can write a text as the value of a column
    (the driver of the production settings cannot encode a lone surrogate and
    refuses a NUL).  The driver is a library of its own, so this is a
    parameter. *)
Variable writable : pystr -> bool.

Definition MeetingListCreateView_post (uid : Z) (data : json) (new_id : pystr)
    (now : Z) (st : store) : rest_outcome :=
  match data with
  | JDict fields =>
      match dict_get (lit "title") (JStr (lit "Untitled Meeting")) fields with
      | JStr t =>
          let title := slice_to 255 (strip t) in
          if negb (writable title) then Unhandled st
          else if existsb (fun m => bool_decide (m_id (mr_base m) = new_id))
                          (st_meetings st)
          then Unhandled st
          else
            Answered 201
              (JDict [(lit "id", JStr new_id); (lit "title", JStr title)])
              (mkStore (st_users st)
                 (st_meetings st
                  ++ [mkMeetingRow (mkMeeting new_id uid true None) title now 20])
                 (st_participants st))
      | _ => Unhandled st
      end
  | _ => Unhandled st
  end.

End Create.

(** *** Full tables for the examples *)

Module RestDemo.

(** The demo room with room for two: alice (3) hosts and has joined, bob (4)
    has joined, carol (5) has not. *)
Definition store0 : store :=
  mkStore [(3, lit "alice"); (4, lit "bob"); (5, lit "carol")]
          [mkMeetingRow (mkMeeting Demo.R1 3 true None) (lit "Standup") 1699990000 2]
          [mkParticipantRow (mkParticipant Demo.R1 3 true None) ROLE_HOST 1699990001;
           mkParticipantRow (mkParticipant Demo.R1 4 true None) ROLE_PARTICIPANT 1699990002].

(** The same room with room for three. *)
Definition store1 : store :=
  mkStore (st_users store0)
          [mkMeetingRow (mkMeeting Demo.R1 3 true None) (lit "Standup") 1699990000 3]
          (st_participants store0).

(** The driver of the examples writes every text without a NUL and without
    a surrogate. *)
Definition writes0 (t : pystr) : bool :=
  forallb (fun c => (0 <? c)%N && ((c <? 55296)%N || (57343 <? c)%N)) t.

(** Signing is left symbolic in the examples. *)
Definition sign0 (t : AccessToken) : pystr := identity t.

Definition join (uid : Z) (uname : pystr) (now : Z) (st : store) : rest_outcome :=
  MeetingJoinView_post (lit "key") (lit "secret") (lit "wss://sfu") sign0
                       uid uname Demo.R1 now st.

End RestDemo.

(** ** [generate_pdf.py]: text for the core PDF fonts *)

Module Pdf.

(** [s.replace(old, new)] for an [old] of one code point. *)
Definition replace_char (old : N) (new : pystr) (s : pystr) : pystr :=
  flat_map (fun c => if (c =? old)%N then new else [c]) s.

(** The replacements of [S], in the order of the calls. *)
Definition replacements : list (N * pystr) :=
  [(8212, lit "--"); (8211, lit "-"); (8226, lit "*"); (8216, lit "'");
   (8217, lit "'"); (8220, [34]); (8221, [34]); (8230, lit "...");
   (8594, lit "->"); (8592, lit "<-"); (160, lit " "); (9472, lit "-");
   (9552, lit "="); (9474, lit "|"); (9500, lit "+"); (9492, lit "+");
   (9516, lit "+"); (9568, lit "+"); (9608, lit "#"); (183, lit ".");
   (10003, lit "v"); (10008, lit "x"); (9679, lit "*"); (9552, lit "=");
   (9566, lit "+"); (9569, lit "+")]%N.

(** A chain of [replace] calls. *)
Definition replace_all (table : list (N * pystr)) (s : pystr) : pystr :=
  fold_left (fun acc r => replace_char (fst r) (snd r) acc) table s.

(** [S(text)] for a [str]. *)
Definition S (text : pystr) : pystr := replace_all replacements text.

(** The code point is one that a table replaces. *)
Definition replaced_by (table : list (N * pystr)) (c : N) : bool :=
  existsb (fun r => (fst r =? c)%N) table.

(** No replacement text holds a code point that the table replaces. *)
Definition closed (table : list (N * pystr)) : bool :=
  forallb (fun r => forallb (fun c => negb (replaced_by table c)) (snd r)) table.

(** The code point can be encoded in latin-1. *)
Definition latin1 (c : N) : bool := (c <? 256)%N.

End Pdf.

(** Unfolding of the monadic primitives, for the proofs below. *)
Ltac run_handler :=
  unfold mbind, M_bind, mret, M_ret, attr, hasattr, read, assign, on_layer,
    raise, dot_id, dot_username, py_get, ws_send, ws_close, ws_accept,
    group_send_checked in *;
  simpl in *.

(** * Properties *)

(** ** The channel layer *)

#[local] Set Warnings "-clear-no-such-hyp".

Section LayerFacts.
Implicit Types (g c : pystr) (L : layer) (ev : event).

Lemma groups_group_send g ev L : groups (group_send g ev L) = groups L.
Proof. reflexivity. Qed.

Lemma members_group_send g' g ev L : members g' (group_send g ev L) = members g' L.
Proof. reflexivity. Qed.

Lemma pending_group_send g ev L c :
  pending c (group_send g ev L)
  = if decide (c ∈ members g L) then pending c L ++ [ev] else pending c L.
Proof.
  unfold pending at 1, group_send; simpl.
  rewrite lookup_union.
  destruct (decide (c ∈ members g L)) as [Hin|Hout].
  - assert (Hs : (set_to_map (λ c0, (c0, pending c0 L ++ [ev])) (members g L)
                   : gmap pystr (list event)) !! c = Some (pending c L ++ [ev])).
    { apply lookup_set_to_map; [naive_solver|]. exists c. done. }
    rewrite Hs. by destruct (queues L !! c).
  - assert (Hs : (set_to_map (λ c0, (c0, pending c0 L ++ [ev])) (members g L)
                   : gmap pystr (list event)) !! c = None).
    { apply eq_None_not_Some. intros [x Hx].
      apply lookup_set_to_map in Hx; [|naive_solver].
      destruct Hx as (y & Hy & Heq). by simplify_eq. }
    rewrite Hs. by rewrite (left_id None _).
Qed.

Lemma pending_group_add g c L c' : pending c' (group_add g c L) = pending c' L.
Proof. reflexivity. Qed.

Lemma pending_group_discard g c L c' : pending c' (group_discard g c L) = pending c' L.
Proof.
  unfold group_discard. destruct (groups L !! g); [|done].
  repeat case_decide; done.
Qed.

Lemma queues_group_discard g c L : queues (group_discard g c L) = queues L.
Proof.
  unfold group_discard. destruct (groups L !! g); [|done].
  repeat case_decide; done.
Qed.

Lemma members_group_add g' g c L :
  members g' (group_add g c L)
  = if decide (g' = g) then {[c]} ∪ members g L else members g' L.
Proof.
  unfold members at 1, group_add; simpl.
  destruct (decide (g' = g)) as [->|Hne].
  - by rewrite lookup_insert_eq.
  - by rewrite lookup_insert_ne.
Qed.

Lemma members_group_discard g' g c L :
  members g' (group_discard g c L)
  = if decide (g' = g) then members g L ∖ {[c]} else members g' L.
Proof.
  unfold group_discard, members.
  destruct (groups L !! g) as [s|] eqn:Hg.
  - destruct (decide (s = ∅)) as [->|Hs].
    + destruct (decide (g' = g)) as [->|]; [|done].
      rewrite Hg. simpl. set_solver.
    + simpl. destruct (decide (s ∖ {[c]} = ∅)) as [He|Hne]; simpl.
      * destruct (decide (g' = g)) as [->|].
        -- rewrite lookup_delete_eq. simpl. by rewrite He.
        -- by rewrite lookup_delete_ne.
      * destruct (decide (g' = g)) as [->|].
        -- by rewrite lookup_insert_eq.
        -- by rewrite lookup_insert_ne.
  - destruct (decide (g' = g)) as [->|]; [|done].
    rewrite Hg. simpl. set_solver.
Qed.

Lemma not_member_after_discard g c L : c ∉ members g (group_discard g c L).
Proof. rewrite members_group_discard. rewrite decide_True by done. set_solver. Qed.

Lemma group_discard_absent g c L : c ∉ members g L → group_discard g c L = L.
Proof.
  intros Hc. unfold group_discard, members in *.
  destruct (groups L !! g) as [s|] eqn:Hg; [|done]. simpl in Hc.
  destruct (decide (s = ∅)); [done|].
  assert (s ∖ {[c]} = s) as -> by set_solver.
  rewrite decide_False by done.
  destruct L as [gs qs]; simpl in *. f_equal. by apply insert_id.
Qed.
End LayerFacts.

(** The groups a channel is registered in are those it is a member of. *)
Lemma registered_in_spec c g L : g ∈ registered_in c L ↔ c ∈ members g L.
Proof.
  unfold registered_in, members. rewrite elem_of_dom. split.
  - intros [s Hs]. apply map_lookup_filter_Some in Hs as [Hs Hc]. by rewrite Hs.
  - intros Hc. destruct (groups L !! g) as [s|] eqn:Hs; simpl in Hc; [|set_solver].
    exists s. by apply map_lookup_filter_Some.
Qed.

Lemma registered_in_empty c L : registered_in c L = ∅ ↔ ∀ g, c ∉ members g L.
Proof.
  split.
  - intros He g Hc. apply registered_in_spec in Hc. rewrite He in Hc. set_solver.
  - intros Hn. apply set_eq. intros g. rewrite registered_in_spec. set_solver.
Qed.

(** ** The handlers in closed form *)

(** The access check raises for a meeting id that spells no UUID and
    otherwise applies the access rule to the row with that key. *)
Lemma check_access_runs db s L mid u :
  meeting_id s = Some mid → user s = Some (Some u) →
  _check_access db s L =
    match to_uuid mid with
    | Some key => (Returned (has_access db key (principal_id u)), s, L)
    | None => (Raised ValidationError, s, L)
    end.
Proof.
  intros Hm Hu. destruct s as [c smid su mid' gn us ug sock]; simplify_eq/=.
  unfold _check_access, has_access. run_handler.
  destruct (to_uuid mid) as [key|]; [|done].
  destruct (List.find _ _) as [m|]; [|done].
  simpl. by destruct (eq_int _ _).
Qed.

Lemma get_active_participants_runs db s L mid key u :
  meeting_id s = Some mid → user s = Some (Some u) → to_uuid mid = Some key →
  _get_active_participants db s L
  = (Returned (active_others db key (principal_id u)), s, L).
Proof.
  intros Hm Hu Hk. destruct s as [c smid su mid' gn us ug sock]; simplify_eq/=.
  unfold _get_active_participants, active_others. run_handler. by rewrite Hk.
Qed.

(** The four outcomes of [connect] on a new consumer object. *)
Lemma connect_runs py_repr db c mid u L :
  connect py_repr db (new_consumer c mid (Some u)) L =
    if is_anonymous u then (Returned tt, rejected c mid u 4001, L)
    else
      match to_uuid mid with
      | None => (Raised ValidationError, aborted c mid u, L)
      | Some key =>
          if has_access db key (principal_id u) then
            (Returned tt, joined py_repr db c mid u,
             group_send (room_group mid)
               (ParticipantJoined (principal_id u) (principal_username u))
               (group_add (personal_group py_repr (principal_id u)) c
                  (group_add (room_group mid) c L)))
          else (Returned tt, rejected c mid u 4003, L)
      end.
Proof.
  unfold connect. run_handler.
  destruct (is_anonymous u) eqn:Ha; [done|].
  erewrite check_access_runs by (simpl; reflexivity).
  destruct (to_uuid mid) as [key|] eqn:Hk; [|done]. simpl.
  destruct (has_access _ _ _) eqn:Hacc; simpl; [|done].
  unfold _get_active_participants, joined, snapshot, active_others.
  run_handler. by rewrite Hk.
Qed.

Lemma disconnect_runs code s L g u :
  group_name s = Some g → user s = Some (Some u) →
  disconnect code s L =
    (Returned tt, s,
     let L1 := group_discard g (channel_name s)
                 (group_send g (ParticipantLeft (principal_id u) (principal_username u)) L) in
     match user_group s with
     | Some ug => group_discard ug (channel_name s) L1
     | None => L1
     end).
Proof.
  intros Hg Hu. destruct s as [c smid su mid gn us ug sock]; simplify_eq/=.
  unfold disconnect. run_handler. by destruct ug.
Qed.

Lemma receive_invalid_json py_repr valid_group_name s L :
  receive py_repr valid_group_name JSONDecodeError s L
  = (Returned tt, emit (Send (error_frame (lit "invalid JSON"))) s, L).
Proof. reflexivity. Qed.

Lemma receive_loads_raised py_repr valid_group_name e s L :
  receive py_repr valid_group_name (LoadsRaised e) s L = (Raised e, s, L).
Proof. reflexivity. Qed.

(** A decoded object: the routing decision is carried out, unless the frame
    is a signal and the layer refuses the name of the target group. *)
Lemma receive_dict py_repr valid_group_name fields s L g u :
  group_name s = Some g → user s = Some (Some u) →
  receive py_repr valid_group_name (Loaded (JDict fields)) s L =
    match route_frame py_repr g u fields with
    | Some (target, ev) =>
        if eq_str (dict_get (lit "type") JNull fields) (lit "webrtc_signal")
           && negb (valid_group_name target)
        then (Raised TypeError, s, L)
        else (Returned tt, s, group_send target ev L)
    | None => (Returned tt, s, L)
    end.
Proof.
  intros Hg Hu. destruct s as [c smid su mid gn us ug sock]; simplify_eq/=.
  unfold receive, route_frame, chat_text. run_handler.
  destruct (dict_get (lit "type") JNull fields) as [| | | |t| |]; try done.
  unfold eq_str.
  destruct (decide (t = lit "chat")) as [->|Hc].
  { rewrite bool_decide_true by done. simpl.
    destruct (slice_to _ _); [done|].
    replace (bool_decide (lit "chat" = lit "webrtc_signal")) with false
      by (symmetry; by apply bool_decide_eq_false). done. }
  rewrite (bool_decide_false (t = lit "chat")) by done. simpl.
  destruct (decide (t = lit "hand_raise")) as [->|Hh].
  { rewrite bool_decide_true by done. simpl.
    replace (bool_decide (lit "hand_raise" = lit "webrtc_signal")) with false
      by (symmetry; by apply bool_decide_eq_false). done. }
  rewrite (bool_decide_false (t = lit "hand_raise")) by done. simpl.
  destruct (bool_decide (t = lit "webrtc_signal")); simpl; [|done].
  destruct (truthy _); simpl; [|done].
  unfold personal_group. by destruct (valid_group_name _).
Qed.

(** A decoded object that is no signal: the name check plays no part. *)
Lemma receive_dict_room py_repr valid_group_name fields s L g u :
  group_name s = Some g → user s = Some (Some u) →
  eq_str (dict_get (lit "type") JNull fields) (lit "webrtc_signal") = false →
  receive py_repr valid_group_name (Loaded (JDict fields)) s L =
    (Returned tt, s,
     match route_frame py_repr g u fields with
     | Some (target, ev) => group_send target ev L
     | None => L
     end).
Proof.
  intros Hg Hu Ht. rewrite (receive_dict _ _ _ _ _ g u), Ht by done.
  by destruct (route_frame _ _ _ _) as [[]|].
Qed.

(** A signal with a target: relayed when the layer accepts the name of the
    target group, and [TypeError] otherwise. *)
Lemma receive_dict_signal py_repr valid_group_name fields s L g u :
  group_name s = Some g → user s = Some (Some u) →
  dict_get (lit "type") JNull fields = JStr (lit "webrtc_signal") →
  truthy (dict_get (lit "to") JNull fields) = true →
  receive py_repr valid_group_name (Loaded (JDict fields)) s L =
    if valid_group_name (personal_group py_repr (dict_get (lit "to") JNull fields))
    then (Returned tt, s,
          group_send (personal_group py_repr (dict_get (lit "to") JNull fields))
            (WebrtcRelay (principal_id u) (principal_username u)
                         (dict_get (lit "signal") JNull fields)) L)
    else (Raised TypeError, s, L).
Proof.
  intros Hg Hu Ht Hto. rewrite (receive_dict _ _ _ _ _ g u) by done.
  unfold route_frame. rewrite Ht, Hto.
  change (eq_str (JStr (lit "webrtc_signal")) (lit "chat")) with false.
  change (eq_str (JStr (lit "webrtc_signal")) (lit "hand_raise")) with false.
  change (eq_str (JStr (lit "webrtc_signal")) (lit "webrtc_signal")) with true.
  simpl. by destruct (valid_group_name _).
Qed.

Lemma receive_not_dict py_repr valid_group_name data s L :
  (∀ fields, data ≠ JDict fields) →
  receive py_repr valid_group_name (Loaded data) s L = (Raised AttributeError, s, L).
Proof. intros Hd. destruct data; try done. by destruct (Hd fields). Qed.

Lemma dispatch_runs ev s L :
  dispatch ev s L =
    (Returned tt,
     match ev with
     | MeetingEndedEvent => emit (Close None) (emit (Send meeting_ended_frame) s)
     | _ => emit (Send (frame_of ev)) s
     end, L).
Proof. by destruct ev. Qed.

(** ** Steps of the running system *)

Lemma extends_refl s : extends s s.
Proof. repeat split; try done. exists []. by rewrite app_nil_r. Qed.

Lemma extends_trans s1 s2 s3 : extends s1 s2 → extends s2 s3 → extends s1 s3.
Proof.
  intros (?&?&?&?&?&?&?&ops1&Hs1) (?&?&?&?&?&?&?&ops2&Hs2).
  repeat split; try congruence.
  exists (ops1 ++ ops2). by rewrite Hs2, Hs1, app_assoc.
Qed.

Lemma extends_emit op s : extends s (emit op s).
Proof. repeat split; try done. by exists [op]. Qed.

Lemma extends_wf c s s' : extends s s' → wf_conn c s → wf_conn c s'.
Proof.
  intros (Hc&_&_&_&Hg&Hu&_) (?&?&?). unfold wf_conn.
  by rewrite Hc, Hg, Hu.
Qed.

Lemma extends_frames s s' : extends s s' → ∃ fs, frames s' = frames s ++ fs.
Proof.
  intros (_&_&_&_&_&_&_&ops&Hs). exists (frames (mkConsumer [] [] None None None None None ops)).
  unfold frames. rewrite Hs. simpl. by rewrite omap_app.
Qed.

Lemma settle_db w c st r : w_db (settle w c st r) = w_db w.
Proof. by destruct r as [[[]]]. Qed.

Lemma settle_layer w c st r : w_layer (settle w c st r) = r.2.
Proof. by destruct r as [[[]]]. Qed.

Lemma settle_conns w c st r :
  w_conns (settle w c st r)
  = <[c := (r.1.2, match r.1.1 with Returned _ => st | Raised _ => Crashed end)]>
      (w_conns w).
Proof. by destruct r as [[[]]]. Qed.

(** What [receive] does to a consumer that went through [connect]. *)
Lemma receive_wf py_repr valid_group_name text s L c :
  wf_conn c s →
  extends s (receive py_repr valid_group_name text s L).1.2
  ∧ groups (receive py_repr valid_group_name text s L).2 = groups L.
Proof.
  intros (_ & [g Hg] & [u Hu]). destruct text as [|e|data].
  - rewrite receive_invalid_json. simpl. split; [apply extends_emit|done].
  - rewrite receive_loads_raised. simpl. split; [apply extends_refl|done].
  - destruct data;
      try (rewrite receive_not_dict by done; simpl; split; [apply extends_refl|done]).
    rewrite (receive_dict _ _ _ _ _ g u) by done.
    destruct (route_frame _ _ _ _) as [[target ev]|]; [|split; [apply extends_refl|done]].
    destruct (_ && _); simpl; (split; [apply extends_refl|done]).
Qed.

Lemma dispatch_extends ev s L :
  extends s (dispatch ev s L).1.2 ∧ (dispatch ev s L).2 = L.
Proof.
  rewrite dispatch_runs. simpl. split; [|done].
  destruct ev; try apply extends_emit.
  eapply extends_trans; apply extends_emit.
Qed.

(** *** The invariant holds in every reachable state *)

Lemma settle_eq w c st r :
  settle w c st r
  = mkWorld (w_db w) r.2
      (<[c := (r.1.2, match r.1.1 with Returned _ => st | Raised _ => Crashed end)]>
         (w_conns w)).
Proof. by destruct r as [[[]]]. Qed.

Lemma members_groups g L L' : groups L' = groups L → members g L' = members g L.
Proof. unfold members. by intros ->. Qed.

Lemma Inv_init db : Inv (init db).
Proof.
  split.
  - intros c s st H. simpl in H. by rewrite lookup_empty in H.
  - intros g c H. unfold members, init, empty_layer in H. simpl in H.
    rewrite lookup_empty in H. set_solver.
Qed.

Lemma Inv_update w c0 s0 st0 s' st' L' db' :
  Inv w → w_conns w !! c0 = Some (s0, st0) → extends s0 s' → st' ≠ Stopped →
  groups L' = groups (w_layer w) →
  Inv (mkWorld db' L' (<[c0 := (s', st')]> (w_conns w))).
Proof.
  intros [I1 I2] H0 He Hst HL. split; simpl.
  - intros c s st Hc. destruct (decide (c0 = c)) as [->|Hne].
    + rewrite lookup_insert_eq in Hc. simplify_eq.
      eapply extends_wf; [done|]. by eapply I1.
    + rewrite lookup_insert_ne in Hc by done. by eapply I1.
  - intros g c Hin. rewrite (members_groups _ _ _ HL) in Hin.
    destruct (I2 g c Hin) as (s & st & Hc & Hns & Hg).
    destruct (decide (c0 = c)) as [->|Hne].
    + exists s', st'. rewrite lookup_insert_eq. simplify_eq.
      destruct He as (_&_&_&_&Hgn&_&Hug&_). by rewrite Hgn, Hug.
    + exists s, st. by rewrite lookup_insert_ne.
Qed.

Lemma Inv_fresh w c0 s' st' db' :
  Inv w → w_conns w !! c0 = None → wf_conn c0 s' →
  Inv (mkWorld db' (w_layer w) (<[c0 := (s', st')]> (w_conns w))).
Proof.
  intros [I1 I2] H0 Hwf. split; simpl.
  - intros c s st Hc. destruct (decide (c0 = c)) as [->|Hne].
    + rewrite lookup_insert_eq in Hc. by simplify_eq.
    + rewrite lookup_insert_ne in Hc by done. by eapply I1.
  - intros g c Hin. destruct (I2 g c Hin) as (s & st & Hc & Hns & Hg).
    exists s, st. rewrite lookup_insert_ne by congruence. done.
Qed.

Lemma members_after_join g c rg pg ev c0 L :
  c ∈ members g (group_send rg ev (group_add pg c0 (group_add rg c0 L))) →
  (c = c0 ∧ (g = rg ∨ g = pg)) ∨ c ∈ members g L.
Proof.
  rewrite members_group_send, !members_group_add.
  repeat case_decide; subst; set_solver.
Qed.

Lemma members_after_leave g c g0 ug ev c0 L :
  c ∈ members g
        (match ug with
         | Some ug => group_discard ug c0 (group_discard g0 c0 (group_send g0 ev L))
         | None => group_discard g0 c0 (group_send g0 ev L)
         end) →
  c ∈ members g L ∧ ¬ (c = c0 ∧ (g = g0 ∨ Some g = ug)).
Proof.
  destruct ug as [ug|]; rewrite !members_group_discard, ?members_group_send;
    repeat case_decide; subst; set_solver.
Qed.

Section Steps.
Variable py_repr : json → pystr.
Variable valid_group_name : pystr → bool.
Variable access_token : pystr → option Z.

Lemma run_app acts1 acts2 w : run py_repr valid_group_name access_token (acts1 ++ acts2) w = run py_repr valid_group_name access_token acts2 (run py_repr valid_group_name access_token acts1 w).
Proof. unfold run. by rewrite fold_left_app. Qed.

Lemma run_cons a acts w : run py_repr valid_group_name access_token (a :: acts) w = run py_repr valid_group_name access_token acts (step py_repr valid_group_name access_token a w).
Proof. reflexivity. Qed.

(** A step never removes a consumer and never rewrites what it has already
    sent: its socket log only grows. *)
Lemma step_extends a w c s st :
  w_conns w !! c = Some (s, st) → wf_conn c s →
  ∃ s' st', w_conns (step py_repr valid_group_name access_token a w) !! c = Some (s', st') ∧ extends s s'.
Proof.
  intros Hc Hwf.
  assert (Hsame : ∃ s' st', w_conns w !! c = Some (s', st') ∧ extends s s').
  { exists s, st. split; [done|apply extends_refl]. }
  destruct a as [c0 mid tok|c0 text|c0|c0 code|ru mid now1 now2|db']; simpl.
  - destruct (w_conns w !! c0) eqn:H0; [done|].
    destruct (routed mid); [|done].
    rewrite settle_conns, lookup_insert_ne by congruence. done.
  - destruct (w_conns w !! c0) as [[s0 []]|] eqn:H0; try done.
    destruct (is_open s0); [|done].
    rewrite settle_conns. destruct (decide (c0 = c)) as [->|Hne].
    + rewrite lookup_insert_eq. simplify_eq. eexists _, _. split; [done|].
      by eapply receive_wf.
    + by rewrite lookup_insert_ne.
  - destruct (w_conns w !! c0) as [[s0 []]|] eqn:H0; try done.
    destruct (pending c0 (w_layer w)) as [|ev rest]; [done|].
    rewrite settle_conns. destruct (decide (c0 = c)) as [->|Hne].
    + rewrite lookup_insert_eq. simplify_eq. eexists _, _. split; [done|].
      apply dispatch_extends.
    + by rewrite lookup_insert_ne.
  - destruct (w_conns w !! c0) as [[s0 []]|] eqn:H0; try done.
    rewrite settle_conns. destruct (decide (c0 = c)) as [->|Hne].
    + rewrite lookup_insert_eq. simplify_eq. eexists _, _. split; [done|].
      destruct Hwf as (_ & [g Hg] & [u Hu]).
      rewrite (disconnect_runs _ _ _ g u) by done. apply extends_refl.
    + by rewrite lookup_insert_ne.
  - done.
  - done.
Qed.

Lemma run_extends acts w c s st :
  w_conns w !! c = Some (s, st) → wf_conn c s →
  ∃ s' st', w_conns (run py_repr valid_group_name access_token acts w) !! c = Some (s', st') ∧ extends s s'.
Proof.
  revert w s st. induction acts as [|a acts IH]; intros w s st Hc Hwf.
  - exists s, st. split; [done|apply extends_refl].
  - rewrite run_cons.
    destruct (step_extends a w c s st Hc Hwf) as (s1 & st1 & H1 & He1).
    destruct (IH (step py_repr valid_group_name access_token a w) s1 st1 H1 (extends_wf _ _ _ He1 Hwf))
      as (s2 & st2 & H2 & He2).
    exists s2, st2. split; [done|]. by eapply extends_trans.
Qed.

Lemma step_Inv a w : Inv w → Inv (step py_repr valid_group_name access_token a w).
Proof.
  intros HI. pose proof HI as [I1 I2].
  destruct a as [c0 mid tok|c0 text|c0|c0 code|ru mid now1 now2|db']; simpl.
  - destruct (w_conns w !! c0) eqn:H0; [done|].
    destruct (routed mid); [|done].
    rewrite settle_eq, connect_runs.
    set (u := _get_user access_token (w_db w) tok).
    destruct (is_anonymous u); simpl.
    { apply Inv_fresh; try done. repeat split; simpl; eauto. }
    destruct (to_uuid mid) as [key|]; simpl.
    2:{ apply Inv_fresh; try done. repeat split; simpl; eauto. }
    destruct (has_access _ _ _); simpl.
    2:{ apply Inv_fresh; try done. repeat split; simpl; eauto. }
    split; simpl.
    + intros c s st Hc. destruct (decide (c0 = c)) as [->|Hne].
      * rewrite lookup_insert_eq in Hc. simplify_eq. repeat split; simpl; eauto.
      * rewrite lookup_insert_ne in Hc by done. by eapply I1.
    + intros g c Hin. apply members_after_join in Hin as [[-> Hg]|Hin].
      * eexists _, _. rewrite lookup_insert_eq. split; [done|]. split; [done|].
        simpl. destruct Hg as [->| ->]; eauto.
      * destruct (I2 g c Hin) as (s & st & Hc & Hns & Hg).
        exists s, st. rewrite lookup_insert_ne by congruence. done.
  - destruct (w_conns w !! c0) as [[s0 []]|] eqn:H0; try done.
    destruct (is_open s0); [|done].
    rewrite settle_eq.
    destruct (receive_wf py_repr valid_group_name text s0 (w_layer w) c0)
      as [He Hg]; [by eapply I1|].
    eapply Inv_update; try done. by destruct (_.1.1).
  - destruct (w_conns w !! c0) as [[s0 []]|] eqn:H0; try done.
    destruct (pending c0 (w_layer w)) as [|ev rest]; [done|].
    rewrite settle_eq.
    match goal with |- context [dispatch ev s0 ?L] =>
      destruct (dispatch_extends ev s0 L) as [He HL] end.
    eapply Inv_update; try done.
    + by destruct (_.1.1).
    + by rewrite HL.
  - destruct (w_conns w !! c0) as [[s0 []]|] eqn:H0; try done.
    rewrite settle_eq.
    destruct (I1 _ _ _ H0) as (Hcn & [g0 Hg0] & [u Hu]).
    rewrite (disconnect_runs _ _ _ g0 u) by done. simpl. rewrite Hcn.
    split; simpl.
    + intros c s st Hc. destruct (decide (c0 = c)) as [->|Hne].
      * rewrite lookup_insert_eq in Hc. simplify_eq. by eapply I1.
      * rewrite lookup_insert_ne in Hc by done. by eapply I1.
    + intros g c Hin. apply members_after_leave in Hin as [Hin Hnot].
      destruct (I2 g c Hin) as (s & st & Hc & Hns & Hg).
      destruct (decide (c0 = c)) as [->|Hne].
      * exfalso. apply Hnot. split; [done|]. simplify_eq.
        destruct Hg as [Hg|Hg]; [left; congruence|right; congruence].
      * exists s, st. by rewrite lookup_insert_ne.
  - split; simpl; [exact I1|exact I2].
  - split; simpl; [exact I1|exact I2].
Qed.

Lemma run_Inv acts w : Inv w → Inv (run py_repr valid_group_name access_token acts w).
Proof.
  revert w. induction acts as [|a acts IH]; intros w HI; [done|].
  rewrite run_cons. by apply IH, step_Inv.
Qed.

End Steps.

(** ** Handshake *)

Section Handshake.
Variable py_repr : json → pystr.
Variable valid_group_name : pystr → bool.
Variable access_token : pystr → option Z.

(** The four outcomes of a handshake on a fresh channel. *)
Lemma handshake_runs w c mid token :
  w_conns w !! c = None → routed mid = true →
  let u := _get_user access_token (w_db w) token in
  step py_repr valid_group_name access_token (Handshake c mid token) w =
    if is_anonymous u then
      mkWorld (w_db w) (w_layer w) (<[c := (rejected c mid u 4001, Running)]> (w_conns w))
    else
      match to_uuid mid with
      | None =>
          mkWorld (w_db w) (w_layer w) (<[c := (aborted c mid u, Crashed)]> (w_conns w))
      | Some key =>
          if has_access (w_db w) key (principal_id u) then
            mkWorld (w_db w)
              (group_send (room_group mid)
                 (ParticipantJoined (principal_id u) (principal_username u))
                 (group_add (personal_group py_repr (principal_id u)) c
                    (group_add (room_group mid) c (w_layer w))))
              (<[c := (joined py_repr (w_db w) c mid u, Running)]> (w_conns w))
          else
            mkWorld (w_db w) (w_layer w)
                    (<[c := (rejected c mid u 4003, Running)]> (w_conns w))
      end.
Proof.
  intros Hc Hr u. simpl. rewrite Hc, Hr, settle_eq, connect_runs. fold u.
  destruct (is_anonymous u); [done|]. destruct (to_uuid mid); [|done].
  by destruct (has_access _ _ _).
Qed.

(** An accepted handshake is one by an identified user with access to the
    meeting whose key the routed id spells. *)
Lemma handshake_open w c mid token s1 :
  w_conns w !! c = None →
  conn c (step py_repr valid_group_name access_token (Handshake c mid token) w) = Some s1 → is_open s1 = true →
  let u := _get_user access_token (w_db w) token in
  routed mid = true ∧ is_anonymous u = false
  ∧ (∃ key, to_uuid mid = Some key
            ∧ has_access (w_db w) key (principal_id u) = true)
  ∧ s1 = joined py_repr (w_db w) c mid u.
Proof.
  intros Hc Hs Ho u. destruct (routed mid) eqn:Hr.
  - rewrite handshake_runs in Hs by done. fold u in Hs. unfold conn in Hs.
    destruct (is_anonymous u);
      [|destruct (to_uuid mid) as [key|]; [destruct (has_access _ _ _) eqn:Ha|]];
      simpl in Hs; rewrite lookup_insert_eq in Hs; simplify_eq/=; try done.
    repeat split; try done. by exists key.
  - unfold conn in Hs. simpl in Hs. rewrite Hc, Hr, Hc in Hs. done.
Qed.

(** A consumer handling the next event of its channel. *)
Lemma deliver_runs w c s ev rest :
  w_conns w !! c = Some (s, Running) → pending c (w_layer w) = ev :: rest →
  step py_repr valid_group_name access_token (Deliver c) w =
    mkWorld (w_db w)
      (mkLayer (groups (w_layer w)) (<[c := rest]> (queues (w_layer w))))
      (<[c := (match ev with
               | MeetingEndedEvent => emit (Close None) (emit (Send meeting_ended_frame) s)
               | _ => emit (Send (frame_of ev)) s
               end, Running)]> (w_conns w)).
Proof.
  intros Hc Hp. simpl. rewrite Hc, Hp, settle_eq, dispatch_runs. done.
Qed.

(** A running consumer with an open socket receiving a text frame. *)
Lemma frame_runs w c s text :
  w_conns w !! c = Some (s, Running) → is_open s = true →
  step py_repr valid_group_name access_token (Frame c text) w = settle w c Running (receive py_repr valid_group_name text s (w_layer w)).
Proof. intros Hc Ho. simpl. by rewrite Hc, Ho. Qed.

End Handshake.

(** ** Meeting ids the route lets through *)

Lemma route_char_cases c :
  route_char c = true → c = 45%N ∨ (hex_digit c = true ∧ lower_hex c = c ∧ c ≠ 45%N).
Proof.
  unfold route_char, hex_digit, lower_hex. intros H.
  destruct (N.eq_dec c 45%N) as [->|Hne]; [by left|right].
  apply orb_true_iff in H as [H|H]; [|apply N.eqb_eq in H; done].
  apply orb_true_iff in H as [H|H]; apply andb_prop in H as [H1 H2];
    apply N.leb_le in H1, H2.
  - rewrite (proj2 (N.leb_le 48 c)), (proj2 (N.leb_le c 57)) by done. simpl.
    split; [done|]. split; [|done].
    destruct (65 <=? c)%N eqn:E1; [|done]. apply N.leb_le in E1. lia.
  - rewrite (proj2 (N.leb_le 97 c)), (proj2 (N.leb_le c 102)) by done. simpl.
    split; [by rewrite orb_true_r|]. split; [|done].
    destruct (c <=? 70)%N eqn:E1; [|by rewrite andb_false_r].
    apply N.leb_le in E1. lia.
Qed.

(** The digits of a routed id: lower-case hexadecimal, no hyphen. *)
Lemma uuid_hex_routed mid :
  forallb route_char mid = true →
  forallb hex_digit (uuid_hex mid) = true
  ∧ List.map lower_hex (uuid_hex mid) = uuid_hex mid
  ∧ forallb route_char (uuid_hex mid) = true
  ∧ forallb (fun c => negb (c =? 45)%N) (uuid_hex mid) = true.
Proof.
  unfold uuid_hex. induction mid as [|c mid IH]; [done|]. simpl.
  intros H. apply andb_prop in H as [Hc Hm].
  destruct (IH Hm) as (I1 & I2 & I3 & I4).
  destruct (route_char_cases c Hc) as [->|(Hh & Hl & Hne)]; [done|].
  apply N.eqb_neq in Hne. rewrite Hne. simpl.
  rewrite Hne, Hh, Hl, Hc, I1, I2, I3, I4. done.
Qed.

Lemma filter_all {A : Type} (p : A → bool) (l : list A) :
  forallb p l = true → List.filter p l = l.
Proof.
  induction l as [|x l IH]; [done|]. simpl. intros H.
  apply andb_prop in H as [-> H]. by rewrite IH.
Qed.

(** For a routed id the conversion is decided by the number of its digits:
    the id spells a UUID exactly when 32 digits (so four hyphens) make it
    up. *)
Lemma to_uuid_routed mid :
  routed mid = true →
  to_uuid mid = if bool_decide (length (uuid_hex mid) = 32%nat)
                then Some (uuid_str (uuid_hex mid)) else None.
Proof.
  unfold routed, to_uuid. intros H. apply andb_prop in H as [_ H].
  destruct (uuid_hex_routed mid H) as (H1 & H2 & _). rewrite H1, H2.
  by rewrite andb_true_r.
Qed.

(** The key a routed id spells is itself a routed id, and it spells
    itself. *)
Lemma to_uuid_key mid key :
  routed mid = true → to_uuid mid = Some key →
  routed key = true ∧ to_uuid key = Some key.
Proof.
  intros Hr Hk. rewrite (to_uuid_routed mid Hr) in Hk.
  destruct (bool_decide _) eqn:Hlen; [|done]. apply bool_decide_eq_true in Hlen.
  injection Hk as <-.
  unfold routed in Hr. apply andb_prop in Hr as [_ Hr].
  destruct (uuid_hex_routed mid Hr) as (_ & _ & Hrc & Hf).
  set (hex := uuid_hex mid) in *.
  assert (Hre : firstn 8 hex ++ firstn 4 (skipn 8 hex) ++ firstn 4 (skipn 12 hex)
                ++ firstn 4 (skipn 16 hex) ++ skipn 20 hex = hex).
  { replace (skipn 20 hex) with (skipn 4 (skipn 16 hex))
      by (rewrite skipn_skipn; reflexivity).
    rewrite firstn_skipn.
    replace (skipn 16 hex) with (skipn 4 (skipn 12 hex))
      by (rewrite skipn_skipn; reflexivity).
    rewrite firstn_skipn.
    replace (skipn 12 hex) with (skipn 4 (skipn 8 hex))
      by (rewrite skipn_skipn; reflexivity).
    rewrite firstn_skipn. apply firstn_skipn. }
  assert (Hrk : routed (uuid_str hex) = true).
  { unfold routed, uuid_str. apply andb_true_intro. split.
    - apply bool_decide_eq_true.
      rewrite !length_app, !length_firstn, !length_skipn, Hlen. reflexivity.
    - rewrite <- Hre in Hrc. rewrite !forallb_app in Hrc.
      repeat rewrite forallb_app.
      destruct (andb_prop _ _ Hrc) as [R1 Hr1]. destruct (andb_prop _ _ Hr1) as [R2 Hr2].
      destruct (andb_prop _ _ Hr2) as [R3 Hr3]. destruct (andb_prop _ _ Hr3) as [R4 R5].
      rewrite R1, R2, R3, R4, R5. reflexivity. }
  split; [done|]. rewrite (to_uuid_routed _ Hrk).
  assert (Hhex : uuid_hex (uuid_str hex) = hex).
  { unfold uuid_hex, uuid_str. rewrite <- Hre in Hf.
    rewrite !forallb_app in Hf.
    destruct (andb_prop _ _ Hf) as [F1 Hf1]. destruct (andb_prop _ _ Hf1) as [F2 Hf2].
    destruct (andb_prop _ _ Hf2) as [F3 Hf3]. destruct (andb_prop _ _ Hf3) as [F4 F5].
    repeat rewrite List.filter_app.
    rewrite (filter_all _ (firstn 8 hex)), (filter_all _ (firstn 4 (skipn 8 hex))),
      (filter_all _ (firstn 4 (skipn 12 hex))), (filter_all _ (firstn 4 (skipn 16 hex))),
      (filter_all _ (skipn 20 hex)) by done.
    exact Hre. }
  rewrite Hhex, bool_decide_true by done. done.
Qed.

(** ** Rejected handshakes *)

(** C9. A handshake without a valid identity is closed with code 4001; a
    handshake by an identified user for whom the access check answers [False]
    is closed with the different code 4003; and in both cases the channel
    layer is left as it was: the session joins no group.  The access check
    answers [False] exactly when the routed id spells the key of no active
    meeting, or of one the user neither hosts nor has an active row in. *)
Theorem handshake_rejection_codes py_repr valid_group_name access_token w c mid token :
  w_conns w !! c = None → routed mid = true →
  let u := _get_user access_token (w_db w) token in
  let w' := step py_repr valid_group_name access_token (Handshake c mid token) w in
  (is_anonymous u = true →
     w_conns w' !! c = Some (rejected c mid u 4001, Running)
     ∧ w_layer w' = w_layer w)
  ∧ (∀ s L, is_anonymous u = false →
       meeting_id s = Some mid → user s = Some (Some u) →
       _check_access (w_db w) s L = (Returned false, s, L) →
       w_conns w' !! c = Some (rejected c mid u 4003, Running)
       ∧ w_layer w' = w_layer w)
  ∧ (∀ s L, meeting_id s = Some mid → user s = Some (Some u) →
       (_check_access (w_db w) s L = (Returned false, s, L)
        ↔ ∃ key, to_uuid mid = Some key
                 ∧ has_access (w_db w) key (principal_id u) = false))
  ∧ socket (rejected c mid u 4001) = [Close (Some 4001)]
  ∧ socket (rejected c mid u 4003) = [Close (Some 4003)]
  ∧ closes (rejected c mid u 4001) = [Some 4001]
  ∧ closes (rejected c mid u 4003) = [Some 4003]
  ∧ closes (rejected c mid u 4001) ≠ closes (rejected c mid u 4003).
Proof.
  intros Hc Hr u w'. unfold w'. rewrite handshake_runs by done. fold u.
  split; [|split; [|split; [|done]]].
  - intros ->. simpl. by rewrite lookup_insert_eq.
  - intros s L -> Hm Hu. rewrite (check_access_runs _ _ _ mid u) by done.
    destruct (to_uuid mid) as [key|]; [|done]. intros [= ->]. simpl.
    by rewrite lookup_insert_eq.
  - intros s L Hm Hu. rewrite (check_access_runs _ _ _ mid u) by done.
    destruct (to_uuid mid) as [key|]; split.
    + intros [= Ha]. by exists key.
    + intros (key' & [= <-] & ->). done.
    + done.
    + by intros (key' & [=] & _).
Qed.

(** No token is refused with 4001; carol, who is not in the room, with
    4003, under either spelling of its id. *)
Lemma handshake_rejection_codes_witness :
  w_conns (step Demo.repr0 Demo.names0 Demo.tokens (Handshake Demo.A Demo.R1 None)
             Demo.w0) !! Demo.A
    = Some (rejected Demo.A Demo.R1 AnonymousUser 4001, Running)
  ∧ w_conns (step Demo.repr0 Demo.names0 Demo.tokens
               (Handshake Demo.C Demo.R1 (Some (lit "jwt-carol"))) Demo.w0) !! Demo.C
    = Some (rejected Demo.C Demo.R1 (User 5 (lit "carol")) 4003, Running)
  ∧ w_conns (step Demo.repr0 Demo.names0 Demo.tokens
               (Handshake Demo.C Demo.R1_respelled (Some (lit "jwt-carol")))
               Demo.w0) !! Demo.C
    = Some (rejected Demo.C Demo.R1_respelled (User 5 (lit "carol")) 4003, Running).
Proof.
  split; [|split].
  - apply (handshake_rejection_codes Demo.repr0 Demo.names0 Demo.tokens Demo.w0 Demo.A Demo.R1 None);
      vm_compute; reflexivity.
  - apply (handshake_rejection_codes Demo.repr0 Demo.names0 Demo.tokens Demo.w0 Demo.C Demo.R1
             (Some (lit "jwt-carol")) ltac:(vm_compute; reflexivity)
             ltac:(vm_compute; reflexivity))
      with (s := aborted Demo.C Demo.R1 (User 5 (lit "carol"))) (L := w_layer Demo.w0);
      vm_compute; reflexivity.
  - apply (handshake_rejection_codes Demo.repr0 Demo.names0 Demo.tokens Demo.w0 Demo.C
             Demo.R1_respelled (Some (lit "jwt-carol")) ltac:(vm_compute; reflexivity)
             ltac:(vm_compute; reflexivity))
      with (s := aborted Demo.C Demo.R1_respelled (User 5 (lit "carol")))
           (L := w_layer Demo.w0);
      vm_compute; reflexivity.
Defined.

(** A routed meeting id that spells no UUID: the access check of an
    identified user raises instead of refusing, and [connect] dies before any
    close code, without touching the channel layer. *)
Lemma handshake_dies_on_malformed_id py_repr valid_group_name access_token w c mid token :
  w_conns w !! c = None → routed mid = true → to_uuid mid = None →
  is_anonymous (_get_user access_token (w_db w) token) = false →
  let u := _get_user access_token (w_db w) token in
  let w' := step py_repr valid_group_name access_token (Handshake c mid token) w in
  connect py_repr (w_db w) (new_consumer c mid (Some u)) (w_layer w)
  = (Raised ValidationError, aborted c mid u, w_layer w)
  ∧ w_conns w' !! c = Some (aborted c mid u, Crashed)
  ∧ w_layer w' = w_layer w.
Proof.
  intros Hc Hr Hk Ha u w'. unfold w'. rewrite handshake_runs by done. fold u.
  rewrite connect_runs. fold u in Ha. rewrite Ha, Hk. simpl.
  by rewrite lookup_insert_eq.
Qed.

(** alice opens [ws/meeting/------------------------------------/] with her
    token: her consumer dies in [connect]. *)
Example alice_at_hyphens :
  w_conns (step Demo.repr0 Demo.names0 Demo.tokens
             (Handshake Demo.A Demo.hyphens (Some (lit "jwt-alice"))) Demo.w0) !! Demo.A
  = Some (aborted Demo.A Demo.hyphens Demo.alice, Crashed).
Proof. vm_compute. reflexivity. Qed.

(** The middleware yields no identity exactly when the token is missing or
    empty, does not validate, or names no user. *)
Lemma get_user_anonymous access_token db token :
  is_anonymous (_get_user access_token db token) = true ↔
  token = None ∨ token = Some []
  ∨ (∃ t, token = Some t ∧ access_token t = None)
  ∨ (∃ t uid, token = Some t ∧ access_token t = Some uid ∧ get_user db uid = None).
Proof.
  unfold _get_user, get_user. split.
  - destruct token as [t|]; [|by left].
    destruct t as [|ch t]; simpl; [by right; left|].
    destruct (access_token (ch :: t)) as [uid|] eqn:Ht; [|by right; right; left; eauto].
    destruct (List.find _ _) as [[? ?]|] eqn:Hf; [done|].
    intros _. right; right; right. exists (ch :: t), uid. by rewrite Hf.
  - intros [->|[->|[(t & -> & Ht)|(t & uid & -> & Ht & Hu)]]]; try done.
    + destruct t; simpl; [done|]. by rewrite Ht.
    + destruct t; simpl; [done|]. rewrite Ht.
      by destruct (List.find _ _) as [[? ?]|].
Qed.

(** C10. A connection whose handshake was refused (no valid identity, or
    an identified user whom the access check refuses: code 4001 or 4003, no
    group joined) still announces its departure when its [disconnect] runs:
    every member of the room group is sent a [participant_left] event, which
    for an unauthenticated connection carries a null [user_id] and an empty
    [username]. *)
Theorem rejected_disconnect_broadcasts_left py_repr valid_group_name access_token w c mid token code :
  w_conns w !! c = None → routed mid = true →
  is_anonymous (_get_user access_token (w_db w) token) = true
  ∨ (∃ key,
       to_uuid mid = Some key
       ∧ has_access (w_db w) key (principal_id (_get_user access_token (w_db w) token))
         = false) →
  let u := _get_user access_token (w_db w) token in
  let w1 := step py_repr valid_group_name access_token (Handshake c mid token) w in
  let w2 := step py_repr valid_group_name access_token (Disconnected c code) w1 in
  let ev := ParticipantLeft (principal_id u) (principal_username u) in
  (∃ k, conn c w1 = Some (rejected c mid u k) ∧ (k = 4001 ∨ k = 4003))
  ∧ w_layer w1 = w_layer w
  ∧ (∀ m, m ∈ members (room_group mid) (w_layer w) →
       pending m (w_layer w2) = pending m (w_layer w) ++ [ev])
  ∧ (is_anonymous u = true →
       frame_of ev = JDict [(lit "type", JStr (lit "participant_left"));
                            (lit "user_id", JNull); (lit "username", JStr [])]).
Proof.
  intros Hc Hr Hrej u w1 w2 ev. fold u in Hrej.
  assert (∃ k, w1 = mkWorld (w_db w) (w_layer w)
                      (<[c := (rejected c mid u k, Running)]> (w_conns w))
               ∧ (k = 4001 ∨ k = 4003)) as (k & Hw1 & Hk).
  { unfold w1. rewrite handshake_runs by done. fold u.
    destruct (is_anonymous u) eqn:Ha; [exists 4001; eauto|].
    destruct Hrej as [|(key & Hk & Hrej)]; [done|]. rewrite Hk, Hrej.
    exists 4003; eauto. }
  split; [|split; [|split]].
  - exists k. rewrite Hw1. unfold conn. simpl. by rewrite lookup_insert_eq.
  - by rewrite Hw1.
  - intros m Hm. unfold w2. rewrite Hw1. simpl. rewrite lookup_insert_eq.
    rewrite settle_layer.
    rewrite (disconnect_runs _ _ _ (room_group mid) u) by done. simpl.
    rewrite pending_group_discard, pending_group_send.
    by rewrite decide_True.
  - intros Ha. unfold ev. by destruct u.
Qed.

(** An anonymous connection to the demo room is refused and then announces
    its departure to alice. *)
Lemma rejected_disconnect_broadcasts_left_witness :
  pending Demo.A
    (w_layer (step Demo.repr0 Demo.names0 Demo.tokens (Disconnected Demo.C None)
                (step Demo.repr0 Demo.names0 Demo.tokens (Handshake Demo.C Demo.R1 None) Demo.w_ab)))
  = [ParticipantLeft JNull []].
Proof.
  apply (rejected_disconnect_broadcasts_left Demo.repr0 Demo.names0 Demo.tokens Demo.w_ab
           Demo.C Demo.R1 None None);
    first [vm_compute; reflexivity | left; vm_compute; reflexivity].
Defined.

(** ** Teardown *)

(** Where the invariant holds, [disconnect] of a running session returns,
    stops the consumer and leaves its channel in no group. *)
Lemma disconnect_unregisters py_repr valid_group_name access_token w c s code :
  Inv w → w_conns w !! c = Some (s, Running) →
  let w' := step py_repr valid_group_name access_token (Disconnected c code) w in
  (∃ L', disconnect code s (w_layer w) = (Returned tt, s, L') ∧ w_layer w' = L')
  ∧ w_conns w' !! c = Some (s, Stopped)
  ∧ (∀ g, c ∉ members g (w_layer w')).
Proof.
  intros [I1 I2] Hc w'.
  destruct (I1 _ _ _ Hc) as (Hcn & [g0 Hg0] & [u Hu]).
  pose proof (disconnect_runs code s (w_layer w) g0 u Hg0 Hu) as Hd.
  assert (Hw' : w' = settle w c Stopped (disconnect code s (w_layer w))).
  { unfold w'. simpl. by rewrite Hc. }
  split; [|split].
  - eexists. split; [exact Hd|]. by rewrite Hw', settle_layer, Hd.
  - rewrite Hw', settle_conns, Hd. simpl. by rewrite lookup_insert_eq.
  - intros g Hin. rewrite Hw', settle_layer, Hd in Hin. simpl in Hin.
    rewrite Hcn in Hin.
    apply members_after_leave in Hin as [Hin Hnot].
    destruct (I2 g c Hin) as (s1 & st1 & Hc1 & _ & Hg).
    simplify_eq. apply Hnot. split; [done|].
    destruct Hg as [Hg|Hg]; [left; congruence|right; congruence].
Qed.

(** C7. In every reachable state, the [disconnect] of a running session
    returns and leaves the consumer stopped, with its channel discarded from
    its room group and from its personal group, so that it is a member of no
    group at all afterwards. *)
Theorem teardown_total py_repr valid_group_name access_token db acts c s code :
  w_conns (run py_repr valid_group_name access_token acts (init db)) !! c = Some (s, Running) →
  let w := run py_repr valid_group_name access_token acts (init db) in
  let w' := step py_repr valid_group_name access_token (Disconnected c code) w in
  (∃ L', disconnect code s (w_layer w) = (Returned tt, s, L') ∧ w_layer w' = L')
  ∧ w_conns w' !! c = Some (s, Stopped)
  ∧ (∀ g, group_name s = Some g → c ∉ members g (w_layer w'))
  ∧ (∀ g, user_group s = Some g → c ∉ members g (w_layer w'))
  ∧ (∀ g, c ∉ members g (w_layer w'))
  ∧ registered_in c (w_layer w') = ∅.
Proof.
  intros Hc w w'. fold w in Hc.
  assert (HI : Inv w) by apply run_Inv, Inv_init.
  destruct (disconnect_unregisters py_repr valid_group_name access_token w c s code HI Hc)
    as (Hret & Hst & Hnone).
  fold w' in Hret, Hst, Hnone.
  split; [done|]. split; [done|]. split; [by intros g _|].
  split; [by intros g _|]. split; [done|]. by apply registered_in_empty.
Qed.

(** alice leaves the demo room: her channel is in no group afterwards. *)
Lemma teardown_total_witness :
  (Demo.A ∉ members (room_group Demo.R1)
              (w_layer (step Demo.repr0 Demo.names0 Demo.tokens (Disconnected Demo.A None) Demo.w_ab)))
  ∧ (Demo.A ∉ members (personal_group Demo.repr0 (JInt 3))
                (w_layer (step Demo.repr0 Demo.names0 Demo.tokens (Disconnected Demo.A None) Demo.w_ab)))
  ∧ registered_in Demo.A
      (w_layer (step Demo.repr0 Demo.names0 Demo.tokens (Disconnected Demo.A None) Demo.w_ab)) = ∅.
Proof.
  assert (H : w_conns (run Demo.repr0 Demo.names0 Demo.tokens
                         [Handshake Demo.A Demo.R1 (Some (lit "jwt-alice")); Deliver Demo.A;
                          Handshake Demo.B Demo.R1 (Some (lit "jwt-bob")); Deliver Demo.A;
                          Deliver Demo.B] (init Demo.db0)) !! Demo.A
              = Some (emit (Send (frame_of (ParticipantJoined (JInt 4) (lit "bob"))))
                        (emit (Send (frame_of (ParticipantJoined (JInt 3) (lit "alice"))))
                           (joined Demo.repr0 Demo.db0 Demo.A Demo.R1 Demo.alice)),
                      Running)).
  { vm_compute. reflexivity. }
  pose proof (teardown_total Demo.repr0 Demo.names0 Demo.tokens Demo.db0 _ Demo.A _ None H)
    as (_ & _ & _ & _ & Hnone & Hreg).
  split; [apply Hnone|]. split; [apply Hnone|exact Hreg].
Defined.

(** ** Joining *)

(** Membership in the snapshot sent as [room_state]. *)
Lemma active_others_spec db mid uid e :
  e ∈ active_others db mid uid ↔
  ∃ p, p ∈ participants db ∧ p_meeting_id p = mid ∧ p_is_active p = true
       ∧ eq_int (p_user_id p) uid = false ∧ participant_entry db p = Some e.
Proof.
  unfold active_others. rewrite list_elem_of_omap. split.
  - intros (p & Hp & He). exists p.
    apply list_elem_of_In, filter_In in Hp as [Hp Hf].
    apply andb_prop in Hf as [Hf Hn]. apply andb_prop in Hf as [Hm Ha].
    apply bool_decide_eq_true in Hm. apply negb_true_iff in Hn.
    rewrite list_elem_of_In. done.
  - intros (p & Hp & Hm & Ha & Hn & He). exists p. split; [|done].
    apply list_elem_of_In, filter_In. split; [by apply list_elem_of_In|].
    rewrite Ha, Hn. simpl. rewrite !andb_true_r. by apply bool_decide_eq_true.
Qed.

(** C5. After a handshake that was accepted, whatever happens next, the
    first frame the new connection has been sent is the [room_state].  It
    lists, in table order, one entry [{"user_id": i, "username": n}] for every
    active participant row of the meeting whose user [i] is not the user of the
    session, [n] being the name of the user row [i]; every frame for a
    broadcast event, its own [participant_joined] included, comes after it.
    The meeting is the one whose key the routed id spells, and the members
    listed are those of the participant table, which is what the snapshot is
    taken from. *)
Theorem room_state_first py_repr valid_group_name access_token w c mid token s1 acts :
  w_conns w !! c = None →
  conn c (step py_repr valid_group_name access_token (Handshake c mid token) w) = Some s1 →
  is_open s1 = true →
  let w1 := step py_repr valid_group_name access_token (Handshake c mid token) w in
  let u := _get_user access_token (w_db w) token in
  ∃ key i rows parts rest,
    to_uuid mid = Some key
    ∧ principal_id u = JInt i
    ∧ rows = List.filter (fun p => bool_decide (p_meeting_id p = key)
                                   && p_is_active p
                                   && negb (p_user_id p =? i))
                         (participants (w_db w))
    ∧ parts = omap (fun p =>
                      match List.find (fun r => fst r =? p_user_id p)
                                      (users (w_db w)) with
                      | Some r => Some (JDict [(lit "user_id", JInt (p_user_id p));
                                               (lit "username", JStr (snd r))])
                      | None => None
                      end) rows
    ∧ frames s1 = [JDict [(lit "type", JStr (lit "room_state"));
                          (lit "participants", JList parts)]]
    ∧ received c (run py_repr valid_group_name access_token acts w1)
      = JDict [(lit "type", JStr (lit "room_state"));
               (lit "participants", JList parts)] :: rest
    ∧ (∀ e, e ∈ parts ↔
         ∃ p r, p ∈ participants (w_db w) ∧ p_meeting_id p = key
                ∧ p_is_active p = true ∧ p_user_id p ≠ i
                ∧ List.find (fun r => fst r =? p_user_id p) (users (w_db w)) = Some r
                ∧ e = JDict [(lit "user_id", JInt (p_user_id p));
                             (lit "username", JStr (snd r))]).
Proof.
  intros Hc Hs Ho w1 u.
  destruct (handshake_open py_repr valid_group_name access_token w c mid token s1 Hc Hs Ho)
    as (Hr & Ha & (key & Hk & Hacc) & ->).
  subst u. simpl in Ha, Hacc.
  assert (Hl : w_conns w1 !! c
               = Some (joined py_repr (w_db w) c mid
                         (_get_user access_token (w_db w) token), Running)).
  { unfold w1. rewrite handshake_runs by done. simpl. rewrite Ha, Hk, Hacc. simpl.
    by rewrite lookup_insert_eq. }
  destruct (_get_user access_token (w_db w) token) as [|i n] eqn:Hu; [done|].
  exists key, i. eexists _, _.
  destruct (run_extends py_repr valid_group_name access_token acts w1 c _ _ Hl)
    as (s2 & st2 & H2 & He).
  { repeat split; simpl; eauto. }
  apply extends_frames in He as [fs Hfs].
  exists fs.
  assert (Hsnap : snapshot (w_db w) mid (JInt i)
                  = omap (fun p =>
                      match List.find (fun r => fst r =? p_user_id p)
                                      (users (w_db w)) with
                      | Some r => Some (JDict [(lit "user_id", JInt (p_user_id p));
                                               (lit "username", JStr (snd r))])
                      | None => None
                      end)
                      (List.filter (fun p => bool_decide (p_meeting_id p = key)
                                             && p_is_active p
                                             && negb (p_user_id p =? i))
                                   (participants (w_db w)))).
  { unfold snapshot. rewrite Hk. unfold active_others. simpl.
    apply list_omap_ext, Forall2_same_length_lookup. split; [done|].
    intros k p p' Hp Hp'. simplify_eq. unfold participant_entry, get_user.
    by destruct (List.find _ _) as [[i' n']|]. }
  split; [done|]. split; [done|]. split; [reflexivity|]. split; [reflexivity|].
  split; [|split].
  - unfold frames, joined. simpl. by rewrite Hsnap.
  - unfold received, conn. rewrite H2. simpl. rewrite Hfs.
    unfold frames at 1, joined. simpl. by rewrite Hsnap.
  - intros e. rewrite list_elem_of_omap. split.
    + intros (p & Hp & He). apply list_elem_of_In, filter_In in Hp as [Hp Hf].
      apply andb_prop in Hf as [Hf Hn]. apply andb_prop in Hf as [Hm Hact].
      apply bool_decide_eq_true in Hm. apply negb_true_iff, Z.eqb_neq in Hn.
      destruct (List.find _ _) as [r|] eqn:Hfind; [|done]. simplify_eq.
      exists p, r. by rewrite list_elem_of_In.
    + intros (p & r & Hp & Hm & Hact & Hn & Hfind & ->). exists p. split.
      * apply list_elem_of_In, filter_In. split; [by apply list_elem_of_In|].
        rewrite Hact. apply Z.eqb_neq in Hn. rewrite Hn. simpl.
        rewrite !andb_true_r. by apply bool_decide_eq_true.
      * by rewrite Hfind.
Qed.

(** bob joins after alice; whatever follows, his first frame is the room
    state listing alice. *)
Lemma room_state_first_witness :
  ∃ rest,
    received Demo.B
      (run Demo.repr0 Demo.names0 Demo.tokens
         [Deliver Demo.B; Frame Demo.A (Loaded (JDict Demo.chat_hi)); Deliver Demo.B]
         (step Demo.repr0 Demo.names0 Demo.tokens (Handshake Demo.B Demo.R1 (Some (lit "jwt-bob")))
            (step Demo.repr0 Demo.names0 Demo.tokens
               (Handshake Demo.A Demo.R1 (Some (lit "jwt-alice"))) Demo.w0)))
    = room_state_frame
        [JDict [(lit "user_id", JInt 3); (lit "username", JStr (lit "alice"))]]
      :: rest.
Proof.
  set (wa := step Demo.repr0 Demo.names0 Demo.tokens
               (Handshake Demo.A Demo.R1 (Some (lit "jwt-alice"))) Demo.w0).
  assert (H1 : w_conns wa !! Demo.B = None) by (vm_compute; reflexivity).
  assert (H2 : conn Demo.B (step Demo.repr0 Demo.names0 Demo.tokens
                              (Handshake Demo.B Demo.R1 (Some (lit "jwt-bob"))) wa)
               = Some (joined Demo.repr0 Demo.db0 Demo.B Demo.R1 Demo.bob))
    by (vm_compute; reflexivity).
  assert (H3 : is_open (joined Demo.repr0 Demo.db0 Demo.B Demo.R1 Demo.bob) = true)
    by reflexivity.
  destruct (room_state_first Demo.repr0 Demo.names0 Demo.tokens wa Demo.B Demo.R1
              (Some (lit "jwt-bob")) _
              [Deliver Demo.B; Frame Demo.A (Loaded (JDict Demo.chat_hi)); Deliver Demo.B]
              H1 H2 H3)
    as (key & i & rows & parts & rest & Hk & Hi & Hrows & Hparts & Hf & Hrecv & _).
  exists rest. rewrite Hrecv, Hparts, Hrows.
  assert (Hk' : to_uuid Demo.R1 = Some Demo.R1) by (vm_compute; reflexivity).
  rewrite Hk' in Hk. injection Hk as <-.
  assert (Hi' : principal_id (_get_user Demo.tokens (w_db wa) (Some (lit "jwt-bob")))
                = JInt 4) by (vm_compute; reflexivity).
  rewrite Hi' in Hi. injection Hi as <-.
  vm_compute. reflexivity.
Defined.

(** C3, as the code behaves. The [participant_joined] event of an accepted
    handshake is queued for every channel that was in the room group and
    also for the new channel itself; when the new consumer handles it, the
    new connection is sent its own [participant_joined] frame. *)
Theorem join_echoes_to_joiner py_repr valid_group_name access_token w c mid token s1 :
  w_conns w !! c = None →
  conn c (step py_repr valid_group_name access_token (Handshake c mid token) w) = Some s1 →
  is_open s1 = true →
  let w1 := step py_repr valid_group_name access_token (Handshake c mid token) w in
  let u := _get_user access_token (w_db w) token in
  let ev := ParticipantJoined (principal_id u) (principal_username u) in
  (∀ m, m ∈ members (room_group mid) (w_layer w) →
     pending m (w_layer w1) = pending m (w_layer w) ++ [ev])
  ∧ pending c (w_layer w1) = pending c (w_layer w) ++ [ev]
  ∧ (pending c (w_layer w) = [] →
     received c (step py_repr valid_group_name access_token (Deliver c) w1)
     = frames s1 ++ [frame_of ev]).
Proof.
  intros Hc Hs Ho w1 u ev.
  destruct (handshake_open py_repr valid_group_name access_token w c mid token s1 Hc Hs Ho)
    as (Hr & Ha & (key & Hk & Hacc) & ->).
  fold u in Ha, Hacc |- *.
  assert (Hw1 : w1 = mkWorld (w_db w)
        (group_send (room_group mid) ev
           (group_add (personal_group py_repr (principal_id u)) c
              (group_add (room_group mid) c (w_layer w))))
        (<[c := (joined py_repr (w_db w) c mid u, Running)]> (w_conns w))).
  { unfold w1. rewrite handshake_runs by done. fold u. by rewrite Ha, Hk, Hacc. }
  assert (Hp : ∀ m, m = c ∨ m ∈ members (room_group mid) (w_layer w) →
     pending m (w_layer w1) = pending m (w_layer w) ++ [ev]).
  { intros m Hm. rewrite Hw1. simpl. rewrite pending_group_send.
    rewrite decide_True; [done|].
    rewrite !members_group_add. repeat case_decide; set_solver. }
  split; [|split].
  - intros m Hm. apply Hp. by right.
  - apply Hp. by left.
  - intros Hq. pose proof (Hp c (or_introl eq_refl)) as Hpc.
    rewrite Hq in Hpc. simpl in Hpc.
    rewrite (deliver_runs py_repr valid_group_name access_token w1 c
               (joined py_repr (w_db w) c mid u) ev []); [|by rewrite Hw1; simpl; rewrite lookup_insert_eq|done].
    unfold received, conn. simpl. by rewrite lookup_insert_eq.
Qed.

(** bob joins the demo room and is sent his own join. *)
Lemma join_echoes_to_joiner_witness :
  received Demo.B
    (step Demo.repr0 Demo.names0 Demo.tokens (Deliver Demo.B)
       (step Demo.repr0 Demo.names0 Demo.tokens (Handshake Demo.B Demo.R1 (Some (lit "jwt-bob")))
          (run Demo.repr0 Demo.names0 Demo.tokens
             [Handshake Demo.A Demo.R1 (Some (lit "jwt-alice")); Deliver Demo.A] Demo.w0)))
  = [room_state_frame
       [JDict [(lit "user_id", JInt 3); (lit "username", JStr (lit "alice"))]];
     JDict [(lit "type", JStr (lit "participant_joined"));
            (lit "user_id", JInt 4); (lit "username", JStr (lit "bob"))]].
Proof.
  set (wa := run Demo.repr0 Demo.names0 Demo.tokens
               [Handshake Demo.A Demo.R1 (Some (lit "jwt-alice")); Deliver Demo.A] Demo.w0).
  assert (H1 : w_conns wa !! Demo.B = None) by (vm_compute; reflexivity).
  assert (H2 : conn Demo.B (step Demo.repr0 Demo.names0 Demo.tokens
                              (Handshake Demo.B Demo.R1 (Some (lit "jwt-bob"))) wa)
               = Some (joined Demo.repr0 Demo.db0 Demo.B Demo.R1 Demo.bob))
    by (vm_compute; reflexivity).
  assert (H3 : is_open (joined Demo.repr0 Demo.db0 Demo.B Demo.R1 Demo.bob) = true)
    by reflexivity.
  assert (H4 : pending Demo.B (w_layer wa) = []) by (vm_compute; reflexivity).
  destruct (join_echoes_to_joiner Demo.repr0 Demo.names0 Demo.tokens wa Demo.B Demo.R1
              (Some (lit "jwt-bob")) _ H1 H2 H3) as (_ & _ & Hecho).
  rewrite (Hecho H4). vm_compute. reflexivity.
Defined.

(** ** Stripping *)

Lemma lstrip_split s :
  ∃ pre, s = pre ++ lstrip s ∧ forallb isspace pre = true
         ∧ (∀ c s', lstrip s = c :: s' → isspace c = false).
Proof.
  induction s as [|c s (pre & Hs & Hpre & Hhd)]; simpl.
  - exists []. by repeat split.
  - destruct (isspace c) eqn:Hc.
    + exists (c :: pre). simpl. rewrite Hc, Hpre. split; [by f_equal|done].
    + exists []. split; [done|]. split; [done|]. by intros ?? [= <- _].
Qed.

Lemma rstrip_split s :
  ∃ post, s = rstrip s ++ post ∧ forallb isspace post = true
          ∧ (∀ c s', rstrip s = s' ++ [c] → isspace c = false).
Proof.
  unfold rstrip. destruct (lstrip_split (rev s)) as (pre & Hs & Hpre & Hhd).
  exists (rev pre). split; [|split].
  - rewrite <- rev_app_distr, <- Hs. by rewrite rev_involutive.
  - apply forallb_forall. intros x Hx. apply in_rev in Hx.
    by eapply forallb_forall in Hpre.
  - intros c s' Hr. apply (Hhd c (rev s')).
    rewrite <- (rev_involutive (lstrip (rev s))), Hr, rev_app_distr. done.
Qed.

Lemma strip_spec s :
  ∃ pre post, s = pre ++ strip s ++ post
              ∧ forallb isspace pre = true ∧ forallb isspace post = true
              ∧ no_space_ends (strip s).
Proof.
  unfold strip.
  destruct (lstrip_split s) as (pre & Hs & Hpre & Hhd).
  destruct (rstrip_split (lstrip s)) as (post & Hl & Hpost & Hlast).
  exists pre, post. split; [by rewrite <- Hl|]. split; [done|]. split; [done|].
  split; [|done].
  intros c s' Hc. apply (Hhd c (s' ++ post)). by rewrite Hl, Hc.
Qed.

(** ** Inbound frames *)

(** C6. A [chat] frame from an active session: the message text is the
    first 500 code points of the stripped message; when that is empty
    nothing happens at all; otherwise one [chat] event carrying that text and
    the identity of the session is queued for exactly the members of the room
    group, and the frame a member is sent carries the same text. *)
Theorem chat_trimmed_bounded_broadcast py_repr valid_group_name s L g u fields :
  group_name s = Some g → user s = Some (Some u) →
  dict_get (lit "type") JNull fields = JStr (lit "chat") →
  let raw := py_str py_repr (dict_get (lit "message") (JStr []) fields) in
  let message := chat_text py_repr fields in
  let ev := ChatMessage (principal_id u) (principal_username u) message in
  (∃ pre post, raw = pre ++ strip raw ++ post
               ∧ forallb isspace pre = true ∧ forallb isspace post = true
               ∧ no_space_ends (strip raw))
  ∧ message = firstn 500 (strip raw)
  ∧ (length message ≤ 500)%nat
  ∧ (message = [] →
       receive py_repr valid_group_name (Loaded (JDict fields)) s L = (Returned tt, s, L))
  ∧ (message ≠ [] →
       receive py_repr valid_group_name (Loaded (JDict fields)) s L
       = (Returned tt, s, group_send g ev L)
       ∧ (∀ c, c ∈ members g L →
            pending c (group_send g ev L) = pending c L ++ [ev])
       ∧ (∀ c, c ∉ members g L → pending c (group_send g ev L) = pending c L))
  ∧ (∀ s' L', dispatch ev s' L'
       = (Returned tt,
          emit (Send (JDict [(lit "type", JStr (lit "chat"));
                             (lit "user_id", principal_id u);
                             (lit "username", JStr (principal_username u));
                             (lit "message", JStr message)])) s', L')).
Proof.
  intros Hg Hu Ht raw message ev.
  assert (Hroute : route_frame py_repr g u fields
                   = match message with [] => None | _ => Some (g, ev) end).
  { unfold route_frame. rewrite Ht. simpl. unfold ev. fold message.
    by destruct message. }
  split; [apply strip_spec|]. split; [done|]. split.
  { unfold message, chat_text, slice_to. rewrite length_take. lia. }
  split; [|split].
  - intros Hm.
    rewrite (receive_dict_room _ _ _ _ _ g u), Hroute, Hm
      by first [done | by rewrite Ht].
    done.
  - intros Hm. split; [|split].
    + rewrite (receive_dict_room _ _ _ _ _ g u), Hroute
        by first [done | by rewrite Ht].
      by destruct message.
    + intros c Hc. rewrite pending_group_send. by rewrite decide_True.
    + intros c Hc. rewrite pending_group_send. by rewrite decide_False.
  - intros s' L'. by rewrite dispatch_runs.
Qed.

(** bob's chat message with blanks around it is broadcast stripped. *)
Lemma chat_trimmed_bounded_broadcast_witness :
  receive Demo.repr0 Demo.names0 (Loaded (JDict Demo.chat_hi))
          (joined Demo.repr0 Demo.db0 Demo.B Demo.R1 Demo.bob) (w_layer Demo.w_ab)
  = (Returned tt, joined Demo.repr0 Demo.db0 Demo.B Demo.R1 Demo.bob,
     group_send (room_group Demo.R1) (ChatMessage (JInt 4) (lit "bob") (lit "hi"))
                (w_layer Demo.w_ab)).
Proof.
  assert (Hg : group_name (joined Demo.repr0 Demo.db0 Demo.B Demo.R1 Demo.bob)
               = Some (room_group Demo.R1)) by reflexivity.
  assert (Hu : user (joined Demo.repr0 Demo.db0 Demo.B Demo.R1 Demo.bob)
               = Some (Some Demo.bob)) by reflexivity.
  assert (Ht : dict_get (lit "type") JNull Demo.chat_hi = JStr (lit "chat"))
    by (vm_compute; reflexivity).
  destruct (chat_trimmed_bounded_broadcast Demo.repr0 Demo.names0 _ (w_layer Demo.w_ab)
              _ _ _ Hg Hu Ht)
    as (_ & _ & _ & _ & Hsend & _).
  assert (Hne : chat_text Demo.repr0 Demo.chat_hi ≠ []) by (vm_compute; discriminate).
  destruct (Hsend Hne) as [Hrecv _]. exact Hrecv.
Defined.

(** Removing the sender fields does not change what the other keys map to. *)
Lemma lookup_without_sender_fields k d :
  k ∉ sender_fields →
  dict_lookup k (without_sender_fields d) = dict_lookup k d.
Proof.
  intros Hk. induction d as [|[k' v] d IH]; [done|]. simpl.
  destruct (bool_decide (k' ∈ sender_fields)) eqn:Hs; simpl.
  - apply bool_decide_eq_true in Hs. rewrite IH.
    destruct (decide (k' = k)) as [->|]; [done|done].
  - rewrite IH. done.
Qed.

Lemma without_sender_fields_same d d' :
  without_sender_fields d = without_sender_fields d' → same_up_to_sender d d'.
Proof.
  intros Heq k Hk.
  by rewrite <- (lookup_without_sender_fields k d),
             <- (lookup_without_sender_fields k d'), Heq.
Qed.

(** [receive] reads the keys [type], [message], [raised], [to] and [signal]
    of the decoded object and no other. *)
Lemma receive_reads_protocol_keys py_repr valid_group_name s L d d' :
  (∀ k, k ∈ [lit "type"; lit "message"; lit "raised"; lit "to"; lit "signal"] →
        dict_lookup k d = dict_lookup k d') →
  receive py_repr valid_group_name (Loaded (JDict d)) s L = receive py_repr valid_group_name (Loaded (JDict d')) s L.
Proof.
  intros H.
  assert (Hget : ∀ k def,
            k ∈ [lit "type"; lit "message"; lit "raised"; lit "to"; lit "signal"] →
            dict_get k def d = dict_get k def d').
  { intros k def Hk. unfold dict_get. by rewrite (H k Hk). }
  unfold receive, py_get. unfold mbind, M_bind, mret, M_ret. simpl.
  rewrite (Hget (lit "type")), (Hget (lit "message")), (Hget (lit "raised")),
          (Hget (lit "to")), (Hget (lit "signal")) by set_solver.
  done.
Qed.

(** C8. Two decoded frames that are equal once the sender fields are removed
    are handled identically by the same session: same result, same socket
    log, same channel layer.  A frame is either carried out, and whatever
    event is sent carries the identity of the session, or it is a signal whose
    target name the layer refuses, and nothing is sent at all. *)
Theorem sender_taken_from_session py_repr valid_group_name s L d d' :
  without_sender_fields d = without_sender_fields d' →
  receive py_repr valid_group_name (Loaded (JDict d)) s L = receive py_repr valid_group_name (Loaded (JDict d')) s L
  ∧ (∀ g u, group_name s = Some g → user s = Some (Some u) →
       ∃ sent,
         (receive py_repr valid_group_name (Loaded (JDict d)) s L
          = (Returned tt, s,
             match sent with
             | Some (target, ev) => group_send target ev L
             | None => L
             end)
          ∨ (receive py_repr valid_group_name (Loaded (JDict d)) s L
             = (Raised TypeError, s, L)
             ∧ ∃ target ev, sent = Some (target, ev)
                            ∧ valid_group_name target = false))
         ∧ ∀ target ev, sent = Some (target, ev) →
             event_sender ev = Some (principal_id u, principal_username u)).
Proof.
  intros Heq. split.
  - apply receive_reads_protocol_keys. intros k Hk.
    apply (without_sender_fields_same d d' Heq).
    unfold sender_fields. intros Hin.
    repeat (apply elem_of_cons in Hk as [->|Hk];
            [by vm_compute in Hin; repeat (apply elem_of_cons in Hin as [Hin|Hin]; [done|]);
                apply elem_of_nil in Hin|]).
    by apply elem_of_nil in Hk.
  - intros g u Hg Hu. exists (route_frame py_repr g u d).
    split.
    + rewrite (receive_dict _ _ _ _ _ g u) by done.
      destruct (route_frame py_repr g u d) as [[target ev]|]; [|by left].
      destruct (eq_str _ _ && negb (valid_group_name target)) eqn:Hv; [|by left].
      right. split; [done|]. exists target, ev. split; [done|].
      apply andb_prop in Hv as [_ Hv]. by apply negb_true_iff in Hv.
    + intros target ev. unfold route_frame.
      repeat case_match; intros ?; by simplify_eq.
Qed.

(** A forged [user_id] and [username] in bob's frame change nothing. *)
Lemma sender_taken_from_session_witness :
  receive Demo.repr0 Demo.names0 (Loaded (JDict Demo.chat_hi))
          (joined Demo.repr0 Demo.db0 Demo.B Demo.R1 Demo.bob) (w_layer Demo.w_ab)
  = receive Demo.repr0 Demo.names0 (Loaded (JDict Demo.chat_hi_forged))
          (joined Demo.repr0 Demo.db0 Demo.B Demo.R1 Demo.bob) (w_layer Demo.w_ab).
Proof.
  apply (sender_taken_from_session Demo.repr0 Demo.names0 _ _ Demo.chat_hi
           Demo.chat_hi_forged).
  vm_compute. reflexivity.
Defined.

(** C2, as the code behaves. A text frame that the decoder rejects as not
    being JSON is answered, on the session it came from, with one [error]
    frame; the channel layer is untouched and the socket is not closed.  A
    JSON object whose type tag is none of [chat], [hand_raise],
    [webrtc_signal] is ignored: no frame is sent, the channel layer is
    untouched and the socket is not closed.  (A text on which the decoder
    raises anything else is not answered: the exception leaves [receive].) *)
Theorem malformed_or_unknown_frame py_repr valid_group_name s L fields :
  recognised (dict_get (lit "type") JNull fields) = false →
  (receive py_repr valid_group_name JSONDecodeError s L
   = (Returned tt,
      emit (Send (JDict [(lit "type", JStr (lit "error"));
                         (lit "message", JStr (lit "invalid JSON"))])) s, L)
   ∧ answers_with_error s (emit (Send (error_frame (lit "invalid JSON"))) s)
   ∧ closes (emit (Send (error_frame (lit "invalid JSON"))) s) = closes s)
  ∧ receive py_repr valid_group_name (Loaded (JDict fields)) s L = (Returned tt, s, L)
  ∧ (∀ e, receive py_repr valid_group_name (LoadsRaised e) s L = (Raised e, s, L)).
Proof.
  intros Hrec. split; [split; [done|split]|split; [|done]].
  - exists (lit "invalid JSON"). unfold frames. simpl. by rewrite omap_app.
  - unfold closes. simpl. rewrite omap_app. simpl. by rewrite app_nil_r.
  - unfold recognised in Hrec.
    apply orb_false_elim in Hrec as [Hrec Hw].
    apply orb_false_elim in Hrec as [Hc Hh].
    unfold receive, py_get, mbind, M_bind, mret, M_ret. simpl.
    by rewrite Hc, Hh, Hw.
Qed.

(** bob's [ping] frame is ignored. *)
Lemma malformed_or_unknown_frame_witness :
  receive Demo.repr0 Demo.names0 (Loaded (JDict Demo.ping))
          (joined Demo.repr0 Demo.db0 Demo.B Demo.R1 Demo.bob) (w_layer Demo.w_ab)
  = (Returned tt, joined Demo.repr0 Demo.db0 Demo.B Demo.R1 Demo.bob,
     w_layer Demo.w_ab).
Proof.
  apply (malformed_or_unknown_frame Demo.repr0 Demo.names0 _ _ Demo.ping).
  vm_compute. reflexivity.
Defined.

(** C2, as stated, fails: bob's open session sends [{"type": "ping"}] and is
    not answered with an [error] frame. *)
Lemma unknown_type_not_answered :
  conn Demo.B Demo.w_ab = Some Demo.bob_session
  ∧ is_open Demo.bob_session = true
  ∧ conn Demo.B Demo.w_ping = Some Demo.bob_session
  ∧ w_layer Demo.w_ping = w_layer Demo.w_ab
  ∧ ¬ answers_with_error Demo.bob_session Demo.bob_session.
Proof.
  split; [vm_compute; reflexivity|]. split; [reflexivity|].
  split; [vm_compute; reflexivity|]. split; [vm_compute; reflexivity|].
  intros [m Hm]. vm_compute in Hm. discriminate Hm.
Qed.

(** A JSON document that is not an object makes [data.get] raise: bob's
    consumer dies on the frame [[1]] without an [error] frame and without
    running [disconnect], so its channel stays in its groups. *)
Example non_object_json_crashes_consumer :
  w_conns (step Demo.repr0 Demo.names0 Demo.tokens
             (Frame Demo.B (Loaded (JList [JInt 1]))) Demo.w_ab) !! Demo.B
  = Some (Demo.bob_session, Crashed)
  ∧ members (room_group Demo.R1)
      (w_layer (step Demo.repr0 Demo.names0 Demo.tokens
                  (Frame Demo.B (Loaded (JList [JInt 1]))) Demo.w_ab))
    = {[Demo.A; Demo.B]}.
Proof. vm_compute. split; reflexivity. Qed.

(** C4, as the code behaves. A [webrtc_signal] frame with a truthy [to]
    from an active session, when the layer accepts the name of the personal
    group made from [to], queues one relay event, carrying the identity of the
    session and the [signal] value as received, for exactly the members of
    that group; nothing is sent on the socket of the sender by the call, and a
    channel outside that group (another room member, or the sender when it is
    not itself in that group) gets nothing.  When the layer refuses the name,
    [receive] raises and nothing is queued for anybody. *)
Theorem signal_unicast py_repr valid_group_name s L g u fields :
  group_name s = Some g → user s = Some (Some u) →
  dict_get (lit "type") JNull fields = JStr (lit "webrtc_signal") →
  truthy (dict_get (lit "to") JNull fields) = true →
  let target := personal_group py_repr (dict_get (lit "to") JNull fields) in
  let ev := WebrtcRelay (principal_id u) (principal_username u)
                        (dict_get (lit "signal") JNull fields) in
  (valid_group_name target = true →
     receive py_repr valid_group_name (Loaded (JDict fields)) s L
     = (Returned tt, s, group_send target ev L)
     ∧ (∀ c, c ∈ members target L →
          pending c (group_send target ev L) = pending c L ++ [ev])
     ∧ (∀ c, c ∉ members target L →
          pending c (group_send target ev L) = pending c L))
  ∧ (valid_group_name target = false →
     receive py_repr valid_group_name (Loaded (JDict fields)) s L
     = (Raised TypeError, s, L))
  ∧ (∀ s' L', dispatch ev s' L'
       = (Returned tt,
          emit (Send (JDict [(lit "type", JStr (lit "webrtc_signal"));
                             (lit "from", principal_id u);
                             (lit "from_username", JStr (principal_username u));
                             (lit "signal", dict_get (lit "signal") JNull fields)])) s',
          L')).
Proof.
  intros Hg Hu Ht Hto target ev.
  pose proof (receive_dict_signal py_repr valid_group_name fields s L g u Hg Hu Ht Hto)
    as Hrecv.
  fold target ev in Hrecv.
  split; [|split].
  - intros Hv. rewrite Hv in Hrecv. split; [done|]. split.
    + intros c Hc. rewrite pending_group_send. by rewrite decide_True.
    + intros c Hc. rewrite pending_group_send. by rewrite decide_False.
  - intros Hv. by rewrite Hv in Hrecv.
  - intros s' L'. by rewrite dispatch_runs.
Qed.

(** bob's offer to alice is queued for alice's channel and not for his. *)
Lemma signal_unicast_witness :
  pending Demo.A
    (receive Demo.repr0 Demo.names0 (Loaded (JDict (Demo.signal_to 3)))
       (joined Demo.repr0 Demo.db0 Demo.B Demo.R1 Demo.bob) (w_layer Demo.w_ab)).2
  = [WebrtcRelay (JInt 4) (lit "bob") Demo.offer]
  ∧ pending Demo.B
      (receive Demo.repr0 Demo.names0 (Loaded (JDict (Demo.signal_to 3)))
         (joined Demo.repr0 Demo.db0 Demo.B Demo.R1 Demo.bob) (w_layer Demo.w_ab)).2
    = [].
Proof.
  assert (Hg : group_name (joined Demo.repr0 Demo.db0 Demo.B Demo.R1 Demo.bob)
               = Some (room_group Demo.R1)) by reflexivity.
  assert (Hu : user (joined Demo.repr0 Demo.db0 Demo.B Demo.R1 Demo.bob)
               = Some (Some Demo.bob)) by reflexivity.
  assert (Ht : dict_get (lit "type") JNull (Demo.signal_to 3)
               = JStr (lit "webrtc_signal")) by (vm_compute; reflexivity).
  assert (Hto : truthy (dict_get (lit "to") JNull (Demo.signal_to 3)) = true)
    by (vm_compute; reflexivity).
  assert (Hv : Demo.names0
                 (personal_group Demo.repr0
                    (dict_get (lit "to") JNull (Demo.signal_to 3))) = true)
    by (vm_compute; reflexivity).
  destruct (signal_unicast Demo.repr0 Demo.names0 _ (w_layer Demo.w_ab) _ _ _
              Hg Hu Ht Hto) as (Hok & _ & _).
  destruct (Hok Hv) as (Hrecv & Hin & Hout).
  rewrite Hrecv. simpl. split.
  - rewrite Hin; vm_compute; reflexivity.
  - rewrite Hout; [vm_compute; reflexivity|].
    vm_compute. intros H. inversion H.
Defined.

(** bob addresses a signal to the name [a b]: the layer of the examples
    refuses the group name [user_a b], [receive] raises and bob's consumer is
    dead, with nothing sent or queued and his channel still in its groups. *)
Example signal_to_refused_name_kills_consumer :
  w_conns (step Demo.repr0 Demo.names0 Demo.tokens
             (Frame Demo.B (Loaded (JDict [(lit "type", JStr (lit "webrtc_signal"));
                                           (lit "to", JStr (lit "a b"));
                                           (lit "signal", Demo.offer)])))
             Demo.w_ab) !! Demo.B
  = Some (Demo.bob_session, Crashed)
  ∧ w_layer (step Demo.repr0 Demo.names0 Demo.tokens
               (Frame Demo.B (Loaded (JDict [(lit "type", JStr (lit "webrtc_signal"));
                                             (lit "to", JStr (lit "a b"));
                                             (lit "signal", Demo.offer)])))
               Demo.w_ab)
    = w_layer Demo.w_ab.
Proof. vm_compute. split; reflexivity. Qed.

(** The scenario of the specification: bob (4) sends an offer to alice (3);
    alice's connection is sent exactly the relayed frame and bob's nothing. *)
Example offer_from_bob_reaches_alice_only :
  received Demo.A
    (run Demo.repr0 Demo.names0 Demo.tokens
       [Frame Demo.B (Loaded (JDict (Demo.signal_to 3))); Deliver Demo.A; Deliver Demo.B]
       Demo.w_ab)
  = received Demo.A Demo.w_ab
    ++ [JDict [(lit "type", JStr (lit "webrtc_signal"));
               (lit "from", JInt 4);
               (lit "from_username", JStr (lit "bob"));
               (lit "signal", Demo.offer)]]
  ∧ received Demo.B
      (run Demo.repr0 Demo.names0 Demo.tokens
         [Frame Demo.B (Loaded (JDict (Demo.signal_to 3))); Deliver Demo.A; Deliver Demo.B]
         Demo.w_ab)
    = received Demo.B Demo.w_ab.
Proof. vm_compute. split; reflexivity. Qed.

(** C4, as stated, fails: bob addresses a signal to his own identity, and
    his own connection is sent the relayed frame. *)
Lemma signal_to_self_reaches_sender :
  ¬ gets_nothing Demo.B Demo.w_ab
      (step Demo.repr0 Demo.names0 Demo.tokens (Deliver Demo.B) Demo.w_self)
  ∧ pending Demo.B (w_layer Demo.w_self)
    = [WebrtcRelay (JInt 4) (lit "bob") Demo.offer]
  ∧ received Demo.B (step Demo.repr0 Demo.names0 Demo.tokens (Deliver Demo.B) Demo.w_self)
    = received Demo.B Demo.w_ab
      ++ [JDict [(lit "type", JStr (lit "webrtc_signal"));
                 (lit "from", JInt 4);
                 (lit "from_username", JStr (lit "bob"));
                 (lit "signal", Demo.offer)]].
Proof.
  split; [|split].
  - intros [_ Hr]. vm_compute in Hr. discriminate Hr.
  - vm_compute. reflexivity.
  - vm_compute. reflexivity.
Qed.

(** ** Ending a meeting *)

(** The end-meeting view touches the database only. *)
Lemma end_meeting_touches_database_only py_repr valid_group_name access_token w ru mid
    now1 now2 :
  let w' := step py_repr valid_group_name access_token (EndMeeting ru mid now1 now2) w in
  w_layer w' = w_layer w ∧ w_conns w' = w_conns w.
Proof. done. Qed.

(** What a consumer would do with a [meeting.ended] event. *)
Lemma meeting_ended_runs s L :
  dispatch MeetingEndedEvent s L
  = (Returned tt, emit (Close None) (emit (Send meeting_ended_frame) s), L).
Proof. reflexivity. Qed.

(** Had a [meeting.ended] event been sent to the room group, a running
    session handling it would send [meeting_ended] once and close, and the
    teardown that follows would unregister it. *)
Lemma meeting_ended_event_closes_session py_repr valid_group_name access_token w c s rest :
  Inv w → w_conns w !! c = Some (s, Running) →
  pending c (w_layer w) = MeetingEndedEvent :: rest →
  let w1 := step py_repr valid_group_name access_token (Deliver c) w in
  let w2 := step py_repr valid_group_name access_token (Disconnected c None) w1 in
  received c w2 = frames s ++ [meeting_ended_frame]
  ∧ (closes <$> conn c w2) = Some (closes s ++ [None])
  ∧ (∀ g, c ∉ members g (w_layer w2)).
Proof.
  intros HI Hc Hp w1 w2.
  assert (HI1 : Inv w1) by by apply step_Inv.
  assert (Hc1 : w_conns w1 !! c
                = Some (emit (Close None) (emit (Send meeting_ended_frame) s), Running)).
  { unfold w1. rewrite (deliver_runs _ _ _ w c s MeetingEndedEvent rest) by done.
    simpl. by rewrite lookup_insert_eq. }
  destruct (disconnect_unregisters py_repr valid_group_name access_token w1 c _ None HI1 Hc1)
    as (_ & Hst & Hnone).
  fold w2 in Hst, Hnone. split; [|split; [|done]].
  - unfold received, conn. rewrite Hst. simpl. unfold frames. simpl.
    rewrite !omap_app. simpl. by rewrite app_nil_r.
  - unfold conn. rewrite Hst. simpl. unfold closes. simpl.
    rewrite !omap_app. simpl. by rewrite app_nil_r.
Qed.

(** C1, evaluated on the code. alice, the host, ends the active meeting
    while she and bob are connected: the view answers that the meeting is
    ended and marks it inactive, yet no [meeting_ended] event is queued for any
    channel, no frame is sent to either client, no socket is closed and both
    sessions stay registered in the room group and in their personal groups. *)
Theorem end_meeting_leaves_sessions_connected :
  fst (MeetingEndView_post 3 Demo.R1 1700000000 1700000001 (w_db Demo.w_ab))
    = Response 200 [(lit "status", lit "ended")]
  ∧ meetings (w_db Demo.w_ended) = [mkMeeting Demo.R1 3 false (Some 1700000000)]
  ∧ pending Demo.A (w_layer Demo.w_ended) = [] ∧ pending Demo.B (w_layer Demo.w_ended) = []
  ∧ received Demo.A Demo.w_ended = received Demo.A Demo.w_ab
  ∧ received Demo.B Demo.w_ended = received Demo.B Demo.w_ab
  ∧ (closes <$> conn Demo.A Demo.w_ended) = Some [] ∧ (closes <$> conn Demo.B Demo.w_ended) = Some []
  ∧ members (room_group Demo.R1) (w_layer Demo.w_ended) = {[Demo.A; Demo.B]}
  ∧ members (personal_group Demo.repr0 (JInt 3)) (w_layer Demo.w_ended) = {[Demo.A]}
  ∧ members (personal_group Demo.repr0 (JInt 4)) (w_layer Demo.w_ended) = {[Demo.B]}.
Proof. vm_compute. repeat split. Qed.

(** ** Group names *)

Lemma lit_inj s1 s2 : lit s1 = lit s2 → s1 = s2.
Proof.
  unfold lit. intros H.
  rewrite <- (string_of_list_ascii_of_string s1), <- (string_of_list_ascii_of_string s2).
  f_equal. revert H. generalize (list_ascii_of_string s1) (list_ascii_of_string s2).
  induction l as [|a l IH]; intros [|b l']; simpl; try done.
  intros [= Hab Hl]. f_equal; [|by apply IH].
  by rewrite <- (ascii_N_embedding a), <- (ascii_N_embedding b), Hab.
Qed.

Lemma to_int_not_nil z : Z.to_int z ≠ Decimal.Pos Decimal.Nil ∧ Z.to_int z ≠ Decimal.Neg Decimal.Nil.
Proof.
  destruct z as [|p|p]; simpl; split; try done;
    intros [= H]; by apply DecimalPos.Unsigned.to_uint_nonnil in H.
Qed.

Lemma str_of_int_inj i j : str_of_int i = str_of_int j → i = j.
Proof.
  unfold str_of_int. intros H. apply lit_inj in H.
  apply DecimalZ.to_int_inj.
  destruct (to_int_not_nil i) as [Hi1 Hi2], (to_int_not_nil j) as [Hj1 Hj2].
  pose proof (NilZero.isi _ Hi1 Hi2) as Ei. pose proof (NilZero.isi _ Hj1 Hj2) as Ej.
  rewrite H in Ei. congruence.
Qed.

(** ** Sessions in every reachable state *)

Lemma room_group_inj m1 m2 : room_group m1 = room_group m2 → m1 = m2.
Proof. unfold room_group. apply app_inv_head. Qed.

Lemma room_not_personal py_repr mid v : room_group mid ≠ personal_group py_repr v.
Proof. unfold room_group, personal_group. by vm_compute (lit _). Qed.

Lemma personal_group_int_inj py_repr i j :
  personal_group py_repr (JInt i) = personal_group py_repr (JInt j) → i = j.
Proof.
  unfold personal_group. intros H. apply app_inv_head in H.
  by apply str_of_int_inj.
Qed.

Lemma refused_not_open s : refused s → is_open s = false.
Proof. intros (_ & k & Hs & _). unfold is_open. by rewrite Hs. Qed.

Lemma died_not_open s : died_in_connect s → is_open s = false.
Proof. intros (_ & Hs). unfold is_open. by rewrite Hs. Qed.

Lemma refused_not_accepted py_repr i s : refused s → accepted_as py_repr i s → False.
Proof. intros [Hu _] (_ & Hg & _). congruence. Qed.

Lemma session_ok_wf py_repr c s : session_ok py_repr c s → wf_conn c s.
Proof. intros (Hc & _ & _ & Hg & Hu & _). repeat split; eauto. Qed.

Lemma accepted_extends py_repr i s s' :
  extends s s' → accepted_as py_repr i s → accepted_as py_repr i s'.
Proof.
  intros (_&_&_&_&_&Hu&Hug&ops'&Hs) ((n & Hn) & Hg & ops & Ho).
  split; [exists n; congruence|]. split; [congruence|].
  exists (ops ++ ops'). by rewrite Hs, Ho.
Qed.

Lemma session_ok_extends py_repr c i s s' :
  extends s s' → accepted_as py_repr i s → session_ok py_repr c s →
  session_ok py_repr c s'.
Proof.
  intros He Ha (Hc & Hr & Hm & Hg & [u Hu] & _).
  pose proof He as (E1&E2&E3&E4&E5&E6&E7&_).
  unfold session_ok. rewrite E1, E2, E4, E5, E6.
  repeat split; eauto. right. right. exists i. by eapply accepted_extends.
Qed.

(** The effect of [receive] on the channel layer, for a consumer that went
    through [connect]: nothing, or one [group_send]. *)
Lemma receive_layer py_repr valid_group_name text s L c :
  wf_conn c s →
  ∃ sent, (receive py_repr valid_group_name text s L).2
          = match sent with
            | Some (target, ev) => group_send target ev L
            | None => L
            end.
Proof.
  intros (_ & [g Hg] & [u Hu]). destruct text as [|e|data].
  - by exists None.
  - by exists None.
  - destruct data; try (exists None; by rewrite receive_not_dict).
    rewrite (receive_dict _ _ _ _ _ g u) by done.
    destruct (route_frame _ _ _ _) as [[target ev]|]; [|by exists None].
    destruct (_ && _); [by exists None|by exists (Some (target, ev))].
Qed.

Lemma Inv_sessions_init py_repr db : Inv_sessions py_repr (init db).
Proof.
  split; [|split].
  - intros c s st H. simpl in H. by rewrite lookup_empty in H.
  - intros g c H. unfold members, init, empty_layer in H. simpl in H.
    rewrite lookup_empty in H. set_solver.
  - intros c H. unfold pending, init, empty_layer in H. simpl in H.
    by rewrite lookup_empty in H.
Qed.

(** Updating the entry of an accepted session by a handler run that only
    extends its socket log and queues at most one event for a group. *)
Lemma Inv_sessions_update py_repr w c0 s0 st0 i0 s' st' L' db' :
  Inv_sessions py_repr w → w_conns w !! c0 = Some (s0, st0) →
  accepted_as py_repr i0 s0 → extends s0 s' → st' ≠ Stopped →
  groups L' = groups (w_layer w) →
  (∀ c, pending c L' ≠ [] →
        pending c (w_layer w) ≠ [] ∨ ∃ g, c ∈ members g (w_layer w)) →
  Inv_sessions py_repr (mkWorld db' L' (<[c0 := (s', st')]> (w_conns w))).
Proof.
  intros (J1 & J2 & J3) H0 Ha He Hst HL Hq.
  assert (Hlook : ∀ c s st i, w_conns w !! c = Some (s, st) → accepted_as py_repr i s →
            ∃ s1 st1, <[c0 := (s', st')]> (w_conns w) !! c = Some (s1, st1)
                      ∧ accepted_as py_repr i s1
                      ∧ group_name s1 = group_name s ∧ user_group s1 = user_group s
                      ∧ (st ≠ Stopped → st1 ≠ Stopped)).
  { intros c s st i Hc Hacc. destruct (decide (c0 = c)) as [->|Hne].
    - rewrite lookup_insert_eq. simplify_eq. exists s', st'.
      split; [done|]. split; [by eapply accepted_extends|].
      destruct He as (_&_&_&_&Hg&_&Hug&_). done.
    - rewrite lookup_insert_ne by done. exists s, st. done. }
  split; [|split]; simpl.
  - intros c s st Hc. destruct (decide (c0 = c)) as [->|Hne].
    + rewrite lookup_insert_eq in Hc. simplify_eq.
      eapply session_ok_extends; [done|done|]. by eapply J1.
    + rewrite lookup_insert_ne in Hc by done. by eapply J1.
  - intros g c Hin. rewrite (members_groups _ _ _ HL) in Hin.
    destruct (J2 g c Hin) as (s & st & i & Hc & Hns & Hacc & Hg).
    destruct (Hlook c s st i Hc Hacc) as (s1 & st1 & H1 & Ha1 & Hg1 & Hu1 & Hs1).
    exists s1, st1, i. rewrite Hg1, Hu1. eauto.
  - intros c Hp. destruct (Hq c Hp) as [Hold|[g Hin]].
    + destruct (J3 c Hold) as (s & st & i & Hc & Hacc).
      destruct (Hlook c s st i Hc Hacc) as (s1 & st1 & H1 & Ha1 & _).
      by exists s1, st1, i.
    + destruct (J2 g c Hin) as (s & st & i & Hc & Hns & Hacc & Hg).
      destruct (Hlook c s st i Hc Hacc) as (s1 & st1 & H1 & Ha1 & _).
      by exists s1, st1, i.
Qed.

Lemma Inv_sessions_fresh py_repr w c0 s' st' db' :
  Inv_sessions py_repr w → w_conns w !! c0 = None → session_ok py_repr c0 s' →
  Inv_sessions py_repr (mkWorld db' (w_layer w) (<[c0 := (s', st')]> (w_conns w))).
Proof.
  intros (J1 & J2 & J3) H0 Hok. split; [|split]; simpl.
  - intros c s st Hc. destruct (decide (c0 = c)) as [->|Hne].
    + rewrite lookup_insert_eq in Hc. by simplify_eq.
    + rewrite lookup_insert_ne in Hc by done. by eapply J1.
  - intros g c Hin. destruct (J2 g c Hin) as (s & st & i & Hc & Hrest).
    exists s, st, i. rewrite lookup_insert_ne by congruence. done.
  - intros c Hp. destruct (J3 c Hp) as (s & st & i & Hc & Hrest).
    exists s, st, i. rewrite lookup_insert_ne by congruence. done.
Qed.

Lemma pending_after_send c g ev L :
  pending c (group_send g ev L) ≠ [] → pending c L ≠ [] ∨ c ∈ members g L.
Proof.
  rewrite pending_group_send. destruct (decide (c ∈ members g L)); eauto.
Qed.

Section SessionSteps.
Variable py_repr : json → pystr.
Variable valid_group_name : pystr → bool.
Variable access_token : pystr → option Z.

Lemma step_Inv_sessions a w :
  Inv_sessions py_repr w → Inv_sessions py_repr (step py_repr valid_group_name access_token a w).
Proof.
  intros HI. pose proof HI as (J1 & J2 & J3).
  destruct a as [c0 mid tok|c0 text|c0|c0 code|ru mid now1 now2|db']; simpl.
  - destruct (w_conns w !! c0) eqn:H0; [done|].
    destruct (routed mid) eqn:Hr; [|done].
    rewrite settle_eq, connect_runs.
    set (u := _get_user access_token (w_db w) tok).
    destruct (is_anonymous u) eqn:Hanon; simpl.
    { apply Inv_sessions_fresh; try done.
      repeat split; simpl; eauto. left. split; [done|]. exists 4001. eauto. }
    destruct (to_uuid mid) as [key|]; simpl.
    2:{ apply Inv_sessions_fresh; try done.
        repeat split; simpl; eauto. right. left. by split. }
    destruct (has_access _ _ _); simpl.
    2:{ apply Inv_sessions_fresh; try done.
        repeat split; simpl; eauto. left. split; [done|]. exists 4003. eauto. }
    destruct u as [|i n] eqn:Hu; [done|]. simpl.
    assert (Hacc : accepted_as py_repr i (joined py_repr (w_db w) c0 mid (User i n))).
    { split; [by exists n|]. split; [done|]. by eexists. }
    split; [|split]; simpl.
    + intros c s st Hc. destruct (decide (c0 = c)) as [->|Hne].
      * rewrite lookup_insert_eq in Hc. simplify_eq.
        repeat split; simpl; eauto.
      * rewrite lookup_insert_ne in Hc by done. by eapply J1.
    + intros g c Hin. apply members_after_join in Hin as [[-> Hg]|Hin].
      * eexists _, _, i. rewrite lookup_insert_eq. split; [done|]. split; [done|].
        split; [done|]. simpl. destruct Hg as [->| ->]; eauto.
      * destruct (J2 g c Hin) as (s & st & j & Hc & Hrest).
        exists s, st, j. rewrite lookup_insert_ne by congruence. done.
    + intros c Hp. apply pending_after_send in Hp as [Hp|Hin].
      * rewrite !pending_group_add in Hp.
        destruct (J3 c Hp) as (s & st & j & Hc & Hrest).
        exists s, st, j. rewrite lookup_insert_ne by congruence. done.
      * rewrite !members_group_add in Hin.
        assert (c = c0 ∨ c ∈ members (room_group mid) (w_layer w)) as [->|Hin'].
        { repeat case_decide; set_solver. }
        -- eexists _, _, i. rewrite lookup_insert_eq. done.
        -- destruct (J2 _ c Hin') as (s & st & j & Hc & _ & Ha & _).
           exists s, st, j. rewrite lookup_insert_ne by congruence. done.
  - destruct (w_conns w !! c0) as [[s0 []]|] eqn:H0; try done.
    destruct (is_open s0) eqn:Ho; [|done].
    rewrite settle_eq.
    pose proof (J1 _ _ _ H0) as Hok.
    destruct Hok as (Hok1 & Hok2 & Hok3 & Hok4 & Hok5 & [Hrf|[Hd|[i Hacc]]]).
    { apply refused_not_open in Hrf. congruence. }
    { apply died_not_open in Hd. congruence. }
    assert (Hwf : wf_conn c0 s0) by (repeat split; eauto).
    destruct (receive_wf py_repr valid_group_name text s0 (w_layer w) c0 Hwf)
      as [He Hg].
    destruct (receive_layer py_repr valid_group_name text s0 (w_layer w) c0 Hwf)
      as [sent Hsent].
    eapply Inv_sessions_update; try done.
    + by destruct (_.1.1).
    + intros c Hp. rewrite Hsent in Hp. destruct sent as [[target ev]|]; [|by left].
      apply pending_after_send in Hp as [|]; eauto.
  - destruct (w_conns w !! c0) as [[s0 []]|] eqn:H0; try done.
    destruct (pending c0 (w_layer w)) as [|ev rest] eqn:Hq; [done|].
    rewrite settle_eq.
    destruct (J3 c0) as (s1 & st1 & i & Hc1 & Hacc); [by rewrite Hq|].
    simplify_eq.
    match goal with |- context [dispatch ev s0 ?L] =>
      destruct (dispatch_extends ev s0 L) as [He HL] end.
    eapply Inv_sessions_update; try done.
    + by destruct (_.1.1).
    + by rewrite HL.
    + intros c Hp. rewrite HL in Hp. unfold pending in Hp. simpl in Hp.
      destruct (decide (c0 = c)) as [->|Hne].
      * left. by rewrite Hq.
      * rewrite lookup_insert_ne in Hp by done. by left.
  - destruct (w_conns w !! c0) as [[s0 []]|] eqn:H0; try done.
    rewrite settle_eq.
    pose proof (J1 _ _ _ H0) as Hok.
    destruct (session_ok_wf _ _ _ Hok) as (Hcn & [g0 Hg0] & [u Hu]).
    rewrite (disconnect_runs _ _ _ g0 u) by done. simpl. rewrite Hcn.
    split; [|split]; simpl.
    + intros c s st Hc. destruct (decide (c0 = c)) as [->|Hne].
      * rewrite lookup_insert_eq in Hc. simplify_eq. by eapply J1.
      * rewrite lookup_insert_ne in Hc by done. by eapply J1.
    + intros g c Hin. apply members_after_leave in Hin as [Hin Hnot].
      destruct (J2 g c Hin) as (s & st & i & Hc & Hns & Hacc & Hg).
      destruct (decide (c0 = c)) as [->|Hne].
      * exfalso. apply Hnot. split; [done|]. simplify_eq.
        destruct Hg as [Hg|Hg]; [left; congruence|right; congruence].
      * exists s, st, i. by rewrite lookup_insert_ne.
    + intros c Hp.
      assert (Hp' : pending c (group_send g0
                       (ParticipantLeft (principal_id u) (principal_username u))
                       (w_layer w)) ≠ []).
      { destruct (user_group s0); by rewrite !pending_group_discard in Hp. }
      assert (∃ s st i, w_conns w !! c = Some (s, st) ∧ accepted_as py_repr i s)
        as (s & st & i & Hc & Hacc).
      { apply pending_after_send in Hp' as [Hold|Hin]; [by apply J3|].
        destruct (J2 _ _ Hin) as (s & st & i & Hc & _ & Hacc & _). eauto. }
      destruct (decide (c0 = c)) as [->|Hne].
      * simplify_eq. eexists _, Stopped, i. by rewrite lookup_insert_eq.
      * exists s, st, i. by rewrite lookup_insert_ne.
  - done.
  - done.
Qed.

Lemma run_Inv_sessions acts w :
  Inv_sessions py_repr w → Inv_sessions py_repr (run py_repr valid_group_name access_token acts w).
Proof.
  revert w. induction acts as [|a acts IH]; intros w HI; [done|].
  rewrite run_cons. by apply IH, step_Inv_sessions.
Qed.

Lemma reachable_Inv_sessions db acts :
  Inv_sessions py_repr (run py_repr valid_group_name access_token acts (init db)).
Proof. apply run_Inv_sessions, Inv_sessions_init. Qed.

End SessionSteps.

(** ** Who can be reached *)

Lemma room_type_not_signal v :
  eq_str v (lit "chat") || eq_str v (lit "hand_raise") = true →
  eq_str v (lit "webrtc_signal") = false.
Proof.
  destruct v as [| | | |t| |]; try done. unfold eq_str. intros H.
  apply orb_true_iff in H as [H|H]; apply bool_decide_eq_true in H; by subst.
Qed.

(** X1. In every reachable state, a [chat] or [hand_raise] frame of a
    running, open session queues events only on channels of sessions that
    were accepted into the same meeting and have not completed their
    teardown. *)
Theorem broadcast_confined_to_room py_repr valid_group_name access_token db acts c0 s0 fields c :
  w_conns (run py_repr valid_group_name access_token acts (init db)) !! c0 = Some (s0, Running) →
  is_open s0 = true →
  eq_str (dict_get (lit "type") JNull fields) (lit "chat")
  || eq_str (dict_get (lit "type") JNull fields) (lit "hand_raise") = true →
  let w := run py_repr valid_group_name access_token acts (init db) in
  let w' := step py_repr valid_group_name access_token (Frame c0 (Loaded (JDict fields))) w in
  pending c (w_layer w') ≠ pending c (w_layer w) →
  ∃ s st i,
    w_conns w !! c = Some (s, st) ∧ st ≠ Stopped
    ∧ accepted_as py_repr i s
    ∧ scope_meeting_id s = scope_meeting_id s0.
Proof.
  intros Hc0 Ho Ht w w' Hp. fold w in Hc0.
  destruct (reachable_Inv_sessions py_repr valid_group_name access_token db acts) as (J1 & J2 & J3).
  fold w in J1, J2, J3.
  pose proof (J1 _ _ _ Hc0) as (_ & _ & _ & Hg0 & [u Hu] & _).
  unfold w' in Hp. rewrite (frame_runs _ _ _ w c0 s0) in Hp by done.
  rewrite settle_layer, (receive_dict_room _ _ _ _ _ _ u Hg0 Hu) in Hp
    by by apply room_type_not_signal.
  simpl in Hp.
  assert (Hroute : route_frame py_repr (room_group (scope_meeting_id s0)) u fields
                   = None
                   ∨ ∃ ev, route_frame py_repr (room_group (scope_meeting_id s0)) u fields
                           = Some (room_group (scope_meeting_id s0), ev)).
  { unfold route_frame.
    destruct (eq_str _ (lit "chat")).
    - destruct (chat_text _ _); eauto.
    - simpl in Ht. rewrite Ht. eauto. }
  destruct Hroute as [Hr|[ev Hr]]; rewrite Hr in Hp; [done|].
  rewrite pending_group_send in Hp.
  destruct (decide (c ∈ members _ _)) as [Hin|]; [|done].
  destruct (J2 _ _ Hin) as (s & st & i & Hc & Hst & Hacc & Hg).
  exists s, st, i. split; [done|]. split; [done|]. split; [done|].
  pose proof (J1 _ _ _ Hc) as (_ & _ & _ & Hgs & _).
  destruct Hg as [Hg|Hg].
  - apply room_group_inj. congruence.
  - destruct Hacc as (_ & Hug & _).
    destruct (room_not_personal py_repr (scope_meeting_id s0) (JInt i)). congruence.
Qed.

(** bob's chat in the demo room is queued for alice, who is in that room. *)
Lemma broadcast_confined_to_room_witness :
  ∃ s st i,
    w_conns Demo.w_ab !! Demo.A = Some (s, st) ∧ st ≠ Stopped
    ∧ accepted_as Demo.repr0 i s
    ∧ scope_meeting_id s = scope_meeting_id Demo.bob_session.
Proof.
  assert (H0 : w_conns (run Demo.repr0 Demo.names0 Demo.tokens
                  [Handshake Demo.A Demo.R1 (Some (lit "jwt-alice")); Deliver Demo.A;
                   Handshake Demo.B Demo.R1 (Some (lit "jwt-bob")); Deliver Demo.A;
                   Deliver Demo.B] (init Demo.db0)) !! Demo.B
               = Some (Demo.bob_session, Running)) by (vm_compute; reflexivity).
  assert (Ho : is_open Demo.bob_session = true) by reflexivity.
  assert (Ht : eq_str (dict_get (lit "type") JNull Demo.chat_hi) (lit "chat")
               || eq_str (dict_get (lit "type") JNull Demo.chat_hi) (lit "hand_raise")
               = true) by (vm_compute; reflexivity).
  apply (broadcast_confined_to_room Demo.repr0 Demo.names0 Demo.tokens Demo.db0 _ Demo.B _
           Demo.chat_hi Demo.A H0 Ho Ht).
  vm_compute. discriminate.
Defined.

(** X2. In every reachable state, a [webrtc_signal] frame addressed to the
    integer [i] queues events only on channels of sessions that were accepted
    for the user whose id is [i]. *)
Theorem signal_confined_to_identity py_repr valid_group_name access_token db acts c0 s0 fields i c :
  w_conns (run py_repr valid_group_name access_token acts (init db)) !! c0 = Some (s0, Running) →
  is_open s0 = true →
  dict_get (lit "type") JNull fields = JStr (lit "webrtc_signal") →
  dict_get (lit "to") JNull fields = JInt i →
  let w := run py_repr valid_group_name access_token acts (init db) in
  let w' := step py_repr valid_group_name access_token (Frame c0 (Loaded (JDict fields))) w in
  pending c (w_layer w') ≠ pending c (w_layer w) →
  ∃ s st n,
    w_conns w !! c = Some (s, st) ∧ st ≠ Stopped
    ∧ user s = Some (Some (User i n))
    ∧ ∃ ops, socket s = Accept :: ops.
Proof.
  intros Hc0 Ho Ht Hto w w' Hp. fold w in Hc0.
  destruct (reachable_Inv_sessions py_repr valid_group_name access_token db acts) as (J1 & J2 & J3).
  fold w in J1, J2, J3.
  pose proof (J1 _ _ _ Hc0) as (_ & _ & _ & Hg0 & [u Hu] & _).
  unfold w' in Hp. rewrite (frame_runs _ _ _ w c0 s0) in Hp by done.
  rewrite settle_layer, (receive_dict _ _ _ _ _ _ u Hg0 Hu) in Hp.
  unfold route_frame in Hp. rewrite Ht, Hto in Hp. simpl in Hp.
  destruct (negb (i =? 0)); [|done].
  destruct (valid_group_name _); simpl in Hp; [|done].
  rewrite pending_group_send in Hp.
  destruct (decide (c ∈ members _ _)) as [Hin|]; [|done].
  destruct (J2 _ _ Hin) as (s & st & j & Hc & Hst & Hacc & Hg).
  pose proof (J1 _ _ _ Hc) as (_ & _ & _ & Hgs & _).
  destruct Hg as [Hg|Hg].
  - destruct (room_not_personal py_repr (scope_meeting_id s) (JInt i)). congruence.
  - pose proof Hacc as ((n & Hn) & Hug & Hsock).
    assert (j = i) as -> by (apply (personal_group_int_inj py_repr); congruence).
    exists s, st, n. done.
Qed.

(** bob's offer to 3 in the demo room is queued for alice, whose id is 3. *)
Lemma signal_confined_to_identity_witness :
  ∃ s st n,
    w_conns Demo.w_ab !! Demo.A = Some (s, st) ∧ st ≠ Stopped
    ∧ user s = Some (Some (User 3 n))
    ∧ ∃ ops, socket s = Accept :: ops.
Proof.
  assert (H0 : w_conns (run Demo.repr0 Demo.names0 Demo.tokens
                  [Handshake Demo.A Demo.R1 (Some (lit "jwt-alice")); Deliver Demo.A;
                   Handshake Demo.B Demo.R1 (Some (lit "jwt-bob")); Deliver Demo.A;
                   Deliver Demo.B] (init Demo.db0)) !! Demo.B
               = Some (Demo.bob_session, Running)) by (vm_compute; reflexivity).
  assert (Ho : is_open Demo.bob_session = true) by reflexivity.
  assert (Ht : dict_get (lit "type") JNull (Demo.signal_to 3)
               = JStr (lit "webrtc_signal")) by (vm_compute; reflexivity).
  assert (Hto : dict_get (lit "to") JNull (Demo.signal_to 3) = JInt 3)
    by (vm_compute; reflexivity).
  apply (signal_confined_to_identity Demo.repr0 Demo.names0 Demo.tokens Demo.db0 _ Demo.B _
           (Demo.signal_to 3) 3 Demo.A H0 Ho Ht Hto).
  vm_compute. discriminate.
Defined.

(** X3. In every reachable state, a connection whose handshake was not
    accepted has either done nothing on its socket but close it with 4001 or
    4003, or done nothing on it at all (its consumer died in the access
    check); it has been sent no frame, it is a member of no group and no event
    is queued for it. *)
Theorem refused_connection_is_isolated py_repr valid_group_name access_token db acts c s st :
  w_conns (run py_repr valid_group_name access_token acts (init db)) !! c = Some (s, st) →
  existsb is_accept (socket s) = false →
  let w := run py_repr valid_group_name access_token acts (init db) in
  ((∃ k, socket s = [Close (Some k)] ∧ (k = 4001 ∨ k = 4003)) ∨ socket s = [])
  ∧ received c w = []
  ∧ (∀ g, c ∉ members g (w_layer w))
  ∧ pending c (w_layer w) = [].
Proof.
  intros Hc Hna w. fold w in Hc.
  destruct (reachable_Inv_sessions py_repr valid_group_name access_token db acts) as (J1 & J2 & J3).
  fold w in J1, J2, J3.
  assert (Hno : ∀ i, ¬ accepted_as py_repr i s).
  { intros i (_ & _ & ops & Hs). rewrite Hs in Hna. done. }
  assert (Hsock : (∃ k, socket s = [Close (Some k)] ∧ (k = 4001 ∨ k = 4003))
                  ∨ socket s = []).
  { pose proof (J1 _ _ _ Hc) as (_ & _ & _ & _ & _ & [Hrf|[Hd|[i Hacc]]]).
    - left. by destruct Hrf as (_ & k & Hs & Hk); eauto.
    - right. by destruct Hd.
    - by destruct (Hno i). }
  split; [done|]. split; [|split].
  - unfold received, conn. rewrite Hc. simpl. unfold frames.
    by destruct Hsock as [(k & -> & _)| ->].
  - intros g Hin. destruct (J2 _ _ Hin) as (s1 & st1 & i & Hc1 & _ & Hacc & _).
    simplify_eq. by destruct (Hno i).
  - destruct (pending c (w_layer w)) eqn:Hp; [done|].
    destruct (J3 c) as (s1 & st1 & i & Hc1 & Hacc); [by rewrite Hp|].
    simplify_eq. by destruct (Hno i).
Qed.

(** carol, refused in the demo room, has been sent nothing. *)
Lemma refused_connection_is_isolated_witness :
  received Demo.C
    (run Demo.repr0 Demo.names0 Demo.tokens
       [Handshake Demo.A Demo.R1 (Some (lit "jwt-alice"));
        Handshake Demo.C Demo.R1 (Some (lit "jwt-carol"));
        Frame Demo.A (Loaded (JDict Demo.chat_hi)); Deliver Demo.C]
       (init Demo.db0)) = [].
Proof.
  assert (Hc : w_conns (run Demo.repr0 Demo.names0 Demo.tokens
       [Handshake Demo.A Demo.R1 (Some (lit "jwt-alice"));
        Handshake Demo.C Demo.R1 (Some (lit "jwt-carol"));
        Frame Demo.A (Loaded (JDict Demo.chat_hi)); Deliver Demo.C]
       (init Demo.db0)) !! Demo.C
       = Some (rejected Demo.C Demo.R1 (User 5 (lit "carol")) 4003, Running))
    by (vm_compute; reflexivity).
  assert (Hn : existsb is_accept
                 (socket (rejected Demo.C Demo.R1 (User 5 (lit "carol")) 4003)) = false)
    by reflexivity.
  exact (proj1 (proj2 (refused_connection_is_isolated Demo.repr0 Demo.names0 Demo.tokens Demo.db0
                         _ Demo.C _ _ Hc Hn))).
Defined.

(** ** Joining and leaving *)

Lemma get_user_sound db i u :
  get_user db i = Some u → ∃ n, u = User i n ∧ (i, n) ∈ users db.
Proof.
  unfold get_user. destruct (List.find _ _) as [[i' n]|] eqn:Hf; [|done].
  intros [= <-]. apply find_some in Hf as [Hin Heq]. simpl in Heq.
  apply Z.eqb_eq in Heq. subst i'. exists n. split; [done|].
  by apply list_elem_of_In.
Qed.

(** X4. A handshake is accepted only for a routed meeting id that spells
    a UUID and a token that validates to the id of an existing user who has
    access to the meeting with that key; the session is then a member of the
    room group named after the routed id and of the personal group of that
    user. *)
Theorem accept_needs_token_and_access py_repr valid_group_name access_token w c mid token s1 :
  w_conns w !! c = None →
  conn c (step py_repr valid_group_name access_token (Handshake c mid token) w) = Some s1 →
  is_open s1 = true →
  let w1 := step py_repr valid_group_name access_token (Handshake c mid token) w in
  ∃ t i n key,
    token = Some t ∧ t ≠ []
    ∧ access_token t = Some i
    ∧ (i, n) ∈ users (w_db w)
    ∧ user s1 = Some (Some (User i n))
    ∧ routed mid = true
    ∧ to_uuid mid = Some key
    ∧ has_access (w_db w) key (JInt i) = true
    ∧ c ∈ members (room_group mid) (w_layer w1)
    ∧ c ∈ members (personal_group py_repr (JInt i)) (w_layer w1).
Proof.
  intros Hc Hs Ho w1.
  destruct (handshake_open py_repr valid_group_name access_token w c mid token s1 Hc Hs Ho)
    as (Hr & Ha & (key & Hk & Hacc) & ->).
  assert (Hw1 : w_layer w1 =
        group_send (room_group mid)
           (ParticipantJoined (principal_id (_get_user access_token (w_db w) token))
              (principal_username (_get_user access_token (w_db w) token)))
           (group_add (personal_group py_repr
                         (principal_id (_get_user access_token (w_db w) token))) c
              (group_add (room_group mid) c (w_layer w)))).
  { unfold w1. rewrite handshake_runs by done. simpl. by rewrite Ha, Hk, Hacc. }
  revert Ha Hacc Hw1. simpl. unfold _get_user.
  destruct token as [t|]; [|done].
  destruct (truthy (JStr t)) eqn:Ht; [|done]. simpl.
  destruct (access_token t) as [i|] eqn:Hi; [|done].
  destruct (get_user (w_db w) i) as [u|] eqn:Hu; [|done].
  apply get_user_sound in Hu as (n & -> & Hin).
  intros _ Hacc Hw1. exists t, i, n, key.
  split; [done|]. split; [by destruct t|]. split; [done|]. split; [done|].
  split; [done|]. split; [done|]. split; [done|]. split; [done|].
  rewrite Hw1, !members_group_send, !members_group_add. simpl.
  split; repeat case_decide; set_solver.
Qed.

(** bob is accepted in the demo room with his own token, under either
    spelling of its id. *)
Lemma accept_needs_token_and_access_witness :
  ∃ t i n key,
    Some (lit "jwt-bob") = Some t ∧ t ≠ []
    ∧ Demo.tokens t = Some i
    ∧ (i, n) ∈ users Demo.db0
    ∧ user (joined Demo.repr0 Demo.db0 Demo.B Demo.R1_respelled Demo.bob)
      = Some (Some (User i n))
    ∧ routed Demo.R1_respelled = true
    ∧ to_uuid Demo.R1_respelled = Some key
    ∧ has_access Demo.db0 key (JInt i) = true
    ∧ Demo.B ∈ members (room_group Demo.R1_respelled)
        (w_layer (step Demo.repr0 Demo.names0 Demo.tokens
                    (Handshake Demo.B Demo.R1_respelled (Some (lit "jwt-bob")))
                    Demo.w0))
    ∧ Demo.B ∈ members (personal_group Demo.repr0 (JInt i))
        (w_layer (step Demo.repr0 Demo.names0 Demo.tokens
                    (Handshake Demo.B Demo.R1_respelled (Some (lit "jwt-bob")))
                    Demo.w0)).
Proof.
  assert (H1 : w_conns Demo.w0 !! Demo.B = None) by (vm_compute; reflexivity).
  assert (H2 : conn Demo.B (step Demo.repr0 Demo.names0 Demo.tokens
                              (Handshake Demo.B Demo.R1_respelled
                                         (Some (lit "jwt-bob"))) Demo.w0)
               = Some (joined Demo.repr0 Demo.db0 Demo.B Demo.R1_respelled Demo.bob))
    by (vm_compute; reflexivity).
  assert (H3 : is_open (joined Demo.repr0 Demo.db0 Demo.B Demo.R1_respelled Demo.bob)
               = true) by reflexivity.
  exact (accept_needs_token_and_access Demo.repr0 Demo.names0 Demo.tokens Demo.w0 Demo.B
           Demo.R1_respelled (Some (lit "jwt-bob")) _ H1 H2 H3).
Defined.

Section Membership.
Variable py_repr : json → pystr.
Variable valid_group_name : pystr → bool.
Variable access_token : pystr → option Z.

Lemma step_keeps_member a w c g :
  Inv w →
  match a with Disconnected c' _ => c' ≠ c | _ => True end →
  c ∈ members g (w_layer w) →
  c ∈ members g (w_layer (step py_repr valid_group_name access_token a w)).
Proof.
  intros [I1 I2] Ha Hin.
  destruct a as [c0 mid tok|c0 text|c0|c0 code|ru mid now1 now2|db']; simpl; try done.
  - destruct (w_conns w !! c0) eqn:H0; [done|].
    destruct (routed mid); [|done].
    rewrite settle_layer, connect_runs.
    destruct (is_anonymous _); [done|]. destruct (to_uuid mid); [|done].
    destruct (has_access _ _ _); [|done].
    simpl. rewrite members_group_send, !members_group_add.
    repeat case_decide; set_solver.
  - destruct (w_conns w !! c0) as [[s0 []]|] eqn:H0; try done.
    destruct (is_open s0); [|done].
    rewrite settle_layer.
    destruct (receive_wf py_repr valid_group_name text s0 (w_layer w) c0)
      as [_ Hg]; [by eapply I1|].
    by rewrite (members_groups _ _ _ Hg).
  - destruct (w_conns w !! c0) as [[s0 []]|] eqn:H0; try done.
    destruct (pending c0 (w_layer w)) as [|ev rest]; [done|].
    rewrite settle_layer.
    match goal with |- context [dispatch ev s0 ?L] =>
      destruct (dispatch_extends ev s0 L) as [_ HL] end.
    by rewrite HL.
  - destruct (w_conns w !! c0) as [[s0 []]|] eqn:H0; try done.
    rewrite settle_layer.
    destruct (I1 _ _ _ H0) as (Hcn & [g0 Hg0] & [u Hu]).
    rewrite (disconnect_runs _ _ _ g0 u) by done. simpl. rewrite Hcn.
    destruct (user_group s0); rewrite !members_group_discard, ?members_group_send;
      repeat case_decide; set_solver.
Qed.

End Membership.

(** X5. In every reachable state, a channel that is a member of a group
    stays a member of it through every schedule that does not tear down its
    own consumer: no frame, delivery, handshake, teardown of another session or
    REST call removes it. *)
Theorem member_until_own_teardown py_repr valid_group_name access_token db acts acts' c g :
  c ∈ members g (w_layer (run py_repr valid_group_name access_token acts (init db))) →
  keeps_open c acts' = true →
  c ∈ members g (w_layer (run py_repr valid_group_name access_token acts'
                            (run py_repr valid_group_name access_token acts (init db)))).
Proof.
  assert (Hgen : ∀ w, Inv w → c ∈ members g (w_layer w) → keeps_open c acts' = true →
                      c ∈ members g (w_layer (run py_repr valid_group_name access_token acts' w))).
  { induction acts' as [|a acts' IH]; intros w HI Hin Hk; [done|].
    rewrite run_cons. simpl in Hk. apply andb_prop in Hk as [Ha Hk].
    apply IH; [by apply step_Inv| |done].
    apply step_keeps_member; [done| |done].
    destruct a; try done. apply negb_true_iff, bool_decide_eq_false in Ha. done. }
  intros Hin Hk. apply Hgen; [apply run_Inv, Inv_init|done|done].
Qed.

(** alice stays in the demo room while bob chats and leaves. *)
Lemma member_until_own_teardown_witness :
  Demo.A ∈ members (room_group Demo.R1)
    (w_layer (run Demo.repr0 Demo.names0 Demo.tokens
                [Frame Demo.B (Loaded (JDict Demo.chat_hi)); Deliver Demo.A;
                 Disconnected Demo.B None]
                Demo.w_ab)).
Proof.
  assert (H1 : Demo.A ∈ members (room_group Demo.R1)
                 (w_layer (run Demo.repr0 Demo.names0 Demo.tokens
                    [Handshake Demo.A Demo.R1 (Some (lit "jwt-alice")); Deliver Demo.A;
                     Handshake Demo.B Demo.R1 (Some (lit "jwt-bob")); Deliver Demo.A;
                     Deliver Demo.B] (init Demo.db0)))).
  { vm_compute. reflexivity. }
  assert (H2 : keeps_open Demo.A
                 [Frame Demo.B (Loaded (JDict Demo.chat_hi)); Deliver Demo.A;
                  Disconnected Demo.B None] = true) by (vm_compute; reflexivity).
  exact (member_until_own_teardown Demo.repr0 Demo.names0 Demo.tokens Demo.db0 _ _ Demo.A _ H1 H2).
Defined.

(** X6. In every reachable state, the teardown of a running session queues
    one [participant_left] event carrying the identity of that session for
    every channel that is then in its room group (the leaving channel
    included, when it had been accepted), and for no other channel. *)
Theorem teardown_notifies_room py_repr valid_group_name access_token db acts c s code m :
  w_conns (run py_repr valid_group_name access_token acts (init db)) !! c = Some (s, Running) →
  let w := run py_repr valid_group_name access_token acts (init db) in
  let w' := step py_repr valid_group_name access_token (Disconnected c code) w in
  ∃ u, user s = Some (Some u)
       ∧ pending m (w_layer w')
         = if decide (m ∈ members (room_group (scope_meeting_id s)) (w_layer w))
           then pending m (w_layer w)
                ++ [ParticipantLeft (principal_id u) (principal_username u)]
           else pending m (w_layer w).
Proof.
  intros Hc w w'. fold w in Hc.
  destruct (reachable_Inv_sessions py_repr valid_group_name access_token db acts) as (J1 & _ & _).
  fold w in J1.
  pose proof (J1 _ _ _ Hc) as (_ & _ & _ & Hg & [u Hu] & _).
  exists u. split; [done|].
  unfold w'. simpl. rewrite Hc, settle_layer.
  rewrite (disconnect_runs _ _ _ _ u Hg Hu). simpl.
  destruct (user_group s); by rewrite !pending_group_discard, pending_group_send.
Qed.

(** bob leaves the demo room: alice's channel gets his [participant_left]. *)
Lemma teardown_notifies_room_witness :
  pending Demo.A (w_layer (step Demo.repr0 Demo.names0 Demo.tokens (Disconnected Demo.B None) Demo.w_ab))
  = [ParticipantLeft (JInt 4) (lit "bob")].
Proof.
  assert (H0 : w_conns (run Demo.repr0 Demo.names0 Demo.tokens
                  [Handshake Demo.A Demo.R1 (Some (lit "jwt-alice")); Deliver Demo.A;
                   Handshake Demo.B Demo.R1 (Some (lit "jwt-bob")); Deliver Demo.A;
                   Deliver Demo.B] (init Demo.db0)) !! Demo.B
               = Some (Demo.bob_session, Running)) by (vm_compute; reflexivity).
  destruct (teardown_notifies_room Demo.repr0 Demo.names0 Demo.tokens Demo.db0 _ Demo.B _ None
              Demo.A H0) as (u & Hu & Hp).
  refine (eq_trans Hp _).
  vm_compute in Hu. injection Hu as <-. vm_compute. reflexivity.
Defined.

(** X7. A routed meeting id gives a room group name of 44 code points, all
    of them lower-case letters, digits, hyphens or underscores. *)
Theorem routed_room_group_name mid :
  routed mid = true →
  length (room_group mid) = 44%nat ∧ forallb name_char (room_group mid) = true.
Proof.
  unfold routed, room_group. intros H. apply andb_prop in H as [Hl Hc].
  apply bool_decide_eq_true in Hl. split.
  - rewrite length_app, Hl. reflexivity.
  - rewrite forallb_app. apply andb_true_intro. split; [by vm_compute|].
    apply forallb_forall. intros x Hx.
    eapply forallb_forall in Hc; [|done].
    unfold route_char in Hc. unfold name_char.
    apply orb_prop in Hc as [Hc|Hc]; [apply orb_prop in Hc as [Hc|Hc]|].
    + by rewrite Hc.
    + apply andb_prop in Hc as [H1 H2]. apply N.leb_le in H1, H2.
      assert ((97 <=? x)%N && (x <=? 122)%N = true) as ->.
      { apply andb_true_intro. split; apply N.leb_le; lia. }
      by rewrite orb_true_r.
    + rewrite Hc. by rewrite orb_true_r.
Qed.

(** The demo meeting id is routed, and its room group name is well formed. *)
Lemma routed_room_group_name_witness :
  length (room_group Demo.R1) = 44%nat
  ∧ forallb name_char (room_group Demo.R1) = true.
Proof.
  apply routed_room_group_name. vm_compute. reflexivity.
Defined.

(** ** More on inbound frames *)

Lemma receive_groups_any py_repr valid_group_name text s L :
  groups (receive py_repr valid_group_name text s L).2 = groups L
  ∧ extends s (receive py_repr valid_group_name text s L).1.2.
Proof.
  destruct text as [|e|data].
  - rewrite receive_invalid_json. simpl. split; [done|apply extends_emit].
  - rewrite receive_loads_raised. simpl. split; [done|apply extends_refl].
  - destruct data;
      try (rewrite receive_not_dict by done; simpl; split; [done|apply extends_refl]).
    destruct s as [c smid su mid gn us ug sock].
    unfold receive. run_handler.
    destruct (eq_str _ (lit "chat")); simpl.
    { destruct (slice_to _ _); simpl; [split; [done|apply extends_refl]|].
      destruct gn; simpl; [|split; [done|apply extends_refl]].
      destruct us as [[u|]|]; simpl; split; try done; apply extends_refl. }
    destruct (eq_str _ (lit "hand_raise")); simpl.
    { destruct gn; simpl; [|split; [done|apply extends_refl]].
      destruct us as [[u|]|]; simpl; split; try done; apply extends_refl. }
    destruct (eq_str _ (lit "webrtc_signal")); simpl;
      [|split; [done|apply extends_refl]].
    destruct (truthy _); simpl; [|split; [done|apply extends_refl]].
    destruct us as [[u|]|]; simpl; try (split; [done|apply extends_refl]).
    destruct (valid_group_name _); simpl; split; try done; apply extends_refl.
Qed.

(** X8. Whatever the state of the system, a text frame, the delivery of a
    queued event or a REST call leaves the group registry as it was: only a
    handshake and a teardown change who is a member of which group. *)
Theorem only_handshake_and_teardown_change_groups py_repr valid_group_name access_token a w :
  match a with Handshake _ _ _ | Disconnected _ _ => False | _ => True end →
  groups (w_layer (step py_repr valid_group_name access_token a w)) = groups (w_layer w).
Proof.
  intros Ha. destruct a as [c0 mid tok|c0 text|c0|c0 code|ru mid now1 now2|db']; simpl;
    try done.
  - destruct (w_conns w !! c0) as [[s0 []]|]; try done.
    destruct (is_open s0); [|done].
    rewrite settle_layer. apply receive_groups_any.
  - destruct (w_conns w !! c0) as [[s0 []]|]; try done.
    destruct (pending c0 (w_layer w)) as [|ev rest]; [done|].
    rewrite settle_layer.
    match goal with |- context [dispatch ev s0 ?L] =>
      destruct (dispatch_extends ev s0 L) as [_ HL] end.
    by rewrite HL.
Qed.

(** bob's chat leaves the registry of the demo room as it was. *)
Lemma only_handshake_and_teardown_change_groups_witness :
  groups (w_layer (step Demo.repr0 Demo.names0 Demo.tokens
                     (Frame Demo.B (Loaded (JDict Demo.chat_hi))) Demo.w_ab))
  = groups (w_layer Demo.w_ab).
Proof.
  apply (only_handshake_and_teardown_change_groups Demo.repr0 Demo.names0 Demo.tokens
           (Frame Demo.B (Loaded (JDict Demo.chat_hi))) Demo.w_ab).
  exact I.
Defined.

(** X9. A [hand_raise] frame from an active session queues, for exactly the
    members of its room group, one event with the identity of the session and
    the truth value of [raised] ([False] when the key is missing); a second
    identical frame queues a second identical event. *)
Theorem hand_raise_broadcast py_repr valid_group_name s L g u fields :
  group_name s = Some g → user s = Some (Some u) →
  dict_get (lit "type") JNull fields = JStr (lit "hand_raise") →
  let ev := HandRaise (principal_id u) (principal_username u)
                      (truthy (dict_get (lit "raised") (JBool false) fields)) in
  let L1 := (receive py_repr valid_group_name (Loaded (JDict fields)) s L).2 in
  let L2 := (receive py_repr valid_group_name (Loaded (JDict fields)) s L1).2 in
  receive py_repr valid_group_name (Loaded (JDict fields)) s L = (Returned tt, s, group_send g ev L)
  ∧ (dict_lookup (lit "raised") fields = None →
       ev = HandRaise (principal_id u) (principal_username u) false)
  ∧ (∀ c, c ∈ members g L →
       pending c L1 = pending c L ++ [ev] ∧ pending c L2 = pending c L ++ [ev; ev])
  ∧ (∀ c, c ∉ members g L → pending c L1 = pending c L ∧ pending c L2 = pending c L)
  ∧ (∀ s' L', dispatch ev s' L'
       = (Returned tt,
          emit (Send (JDict [(lit "type", JStr (lit "hand_raise"));
                             (lit "user_id", principal_id u);
                             (lit "username", JStr (principal_username u));
                             (lit "raised",
                              JBool (truthy (dict_get (lit "raised") (JBool false) fields)))]))
               s', L')).
Proof.
  intros Hg Hu Ht ev L1 L2.
  assert (Hrecv : ∀ L0, receive py_repr valid_group_name (Loaded (JDict fields)) s L0
                        = (Returned tt, s, group_send g ev L0)).
  { intros L0.
    rewrite (receive_dict_room _ _ _ _ _ g u) by first [done | by rewrite Ht].
    unfold route_frame.
    rewrite Ht. reflexivity. }
  assert (HL1 : L1 = group_send g ev L) by (unfold L1; by rewrite Hrecv).
  assert (HL2 : L2 = group_send g ev (group_send g ev L))
    by (unfold L2; by rewrite HL1, Hrecv).
  split; [apply Hrecv|]. split; [|split; [|split]].
  - intros Hn. unfold ev, dict_get. by rewrite Hn.
  - intros c Hc. rewrite HL2, HL1, !pending_group_send, !members_group_send.
    rewrite !decide_True by done. split; [done|]. by rewrite <- app_assoc.
  - intros c Hc. rewrite HL2, HL1, !pending_group_send, !members_group_send.
    by rewrite !decide_False.
  - intros s' L'. by rewrite dispatch_runs.
Qed.

(** X10. A [webrtc_signal] frame whose [to] is missing or falsy (null,
    false, 0, a zero float, or an empty string, list or object) is dropped:
    [receive] returns with nothing sent and nothing queued, whatever the state
    of the consumer. *)
Theorem signal_without_target_dropped py_repr valid_group_name s L fields :
  dict_get (lit "type") JNull fields = JStr (lit "webrtc_signal") →
  truthy (dict_get (lit "to") JNull fields) = false →
  receive py_repr valid_group_name (Loaded (JDict fields)) s L = (Returned tt, s, L)
  ∧ (∀ v, truthy v = false ↔
          v = JNull ∨ v = JBool false ∨ v = JInt 0
          ∨ (∃ sign, v = JFloat (S754_zero sign))
          ∨ v = JStr [] ∨ v = JList [] ∨ v = JDict []).
Proof.
  intros Ht Hto. split.
  - unfold receive, py_get, mbind, M_bind, mret, M_ret. simpl.
    rewrite Ht. simpl. by rewrite Hto.
  - intros v. split.
    + destruct v as [|[]|i|f|m|l|d]; simpl; try done; eauto 10.
      * intros Hi. apply negb_false_iff, Z.eqb_eq in Hi. subst. eauto.
      * destruct f; try done. eauto 10.
      * destruct m; try done. eauto 10.
      * destruct l; try done. eauto 10.
      * destruct d; try done. eauto 10.
    + intros [->|[->|[->|[[sg ->]|[->|[->| ->]]]]]]; done.
Qed.

Lemma lstrip_all_space m : forallb isspace m = true → lstrip m = [].
Proof.
  induction m as [|c m IH]; [done|]. simpl. intros H.
  apply andb_prop in H as [Hc Hm]. rewrite Hc. by apply IH.
Qed.

(** X11. A [chat] frame whose message is missing, empty or made of
    whitespace only is dropped: [receive] returns with nothing sent and
    nothing queued, whatever the state of the consumer. *)
Theorem blank_chat_dropped py_repr valid_group_name s L fields :
  dict_get (lit "type") JNull fields = JStr (lit "chat") →
  dict_lookup (lit "message") fields = None
  ∨ (∃ m, dict_lookup (lit "message") fields = Some (JStr m)
          ∧ forallb isspace m = true) →
  chat_text py_repr fields = []
  ∧ receive py_repr valid_group_name (Loaded (JDict fields)) s L = (Returned tt, s, L).
Proof.
  intros Ht Hm.
  assert (Hc : chat_text py_repr fields = []).
  { unfold chat_text, dict_get.
    destruct Hm as [->|(m & -> & Hsp)]; simpl; [done|].
    unfold strip. by rewrite (lstrip_all_space m Hsp). }
  split; [done|].
  unfold receive, py_get, mbind, M_bind, mret, M_ret. simpl.
  rewrite Ht. simpl. unfold chat_text in Hc. by rewrite Hc.
Qed.

(** X12. A [chat] frame whose message is JSON [null], [true] or [false] is
    not rejected: the text [None], [True] or [False] is broadcast to the room
    group under the identity of the session. *)
Theorem non_string_chat_stringified py_repr valid_group_name s L g u fields v :
  group_name s = Some g → user s = Some (Some u) →
  dict_get (lit "type") JNull fields = JStr (lit "chat") →
  dict_lookup (lit "message") fields = Some v →
  v = JNull ∨ (∃ b, v = JBool b) →
  let text := match v with
              | JBool true => lit "True"
              | JBool false => lit "False"
              | _ => lit "None"
              end in
  receive py_repr valid_group_name (Loaded (JDict fields)) s L
  = (Returned tt, s,
     group_send g (ChatMessage (principal_id u) (principal_username u) text) L).
Proof.
  intros Hg Hu Ht Hm Hv text.
  rewrite (receive_dict_room _ _ _ _ _ g u) by first [done | by rewrite Ht].
  unfold route_frame, chat_text, dict_get. rewrite Hm.
  unfold dict_get in Ht. destruct (dict_lookup (lit "type") fields) eqn:Hty;
    [|done]. subst j. simpl.
  destruct Hv as [->|[[] ->]]; vm_compute; reflexivity.
Qed.

(** bob raises his hand in the demo room. *)
Lemma hand_raise_broadcast_witness :
  receive Demo.repr0 Demo.names0 (Loaded (JDict Frames.raise_hand)) Demo.bob_session
          (w_layer Demo.w_ab)
  = (Returned tt, Demo.bob_session,
     group_send (room_group Demo.R1) (HandRaise (JInt 4) (lit "bob") true)
                (w_layer Demo.w_ab)).
Proof.
  assert (Hg : group_name Demo.bob_session = Some (room_group Demo.R1)) by reflexivity.
  assert (Hu : user Demo.bob_session = Some (Some Demo.bob)) by reflexivity.
  assert (Ht : dict_get (lit "type") JNull Frames.raise_hand = JStr (lit "hand_raise"))
    by (vm_compute; reflexivity).
  exact (proj1 (hand_raise_broadcast Demo.repr0 Demo.names0 _ (w_layer Demo.w_ab) _ _ _ Hg Hu Ht)).
Defined.

(** bob's signal to the id 0 goes nowhere. *)
Lemma signal_without_target_dropped_witness :
  receive Demo.repr0 Demo.names0 (Loaded (JDict Frames.signal_to_zero)) Demo.bob_session
          (w_layer Demo.w_ab)
  = (Returned tt, Demo.bob_session, w_layer Demo.w_ab).
Proof.
  assert (Ht : dict_get (lit "type") JNull Frames.signal_to_zero
               = JStr (lit "webrtc_signal")) by (vm_compute; reflexivity).
  assert (Hto : truthy (dict_get (lit "to") JNull Frames.signal_to_zero) = false)
    by (vm_compute; reflexivity).
  exact (proj1 (signal_without_target_dropped Demo.repr0 Demo.names0 Demo.bob_session
                  (w_layer Demo.w_ab) _ Ht Hto)).
Defined.

(** bob's chat of blanks goes nowhere. *)
Lemma blank_chat_dropped_witness :
  receive Demo.repr0 Demo.names0 (Loaded (JDict Frames.chat_blank)) Demo.bob_session
          (w_layer Demo.w_ab)
  = (Returned tt, Demo.bob_session, w_layer Demo.w_ab).
Proof.
  assert (Ht : dict_get (lit "type") JNull Frames.chat_blank = JStr (lit "chat"))
    by (vm_compute; reflexivity).
  assert (Hm : dict_lookup (lit "message") Frames.chat_blank = None
               ∨ (∃ m, dict_lookup (lit "message") Frames.chat_blank = Some (JStr m)
                       ∧ forallb isspace m = true)).
  { right. exists [32; 9; 10]%N. split; vm_compute; reflexivity. }
  exact (proj2 (blank_chat_dropped Demo.repr0 Demo.names0 Demo.bob_session
                  (w_layer Demo.w_ab) _ Ht Hm)).
Defined.

(** bob's chat of [null] is broadcast as the text [None]. *)
Lemma non_string_chat_stringified_witness :
  receive Demo.repr0 Demo.names0 (Loaded (JDict Frames.chat_null)) Demo.bob_session
          (w_layer Demo.w_ab)
  = (Returned tt, Demo.bob_session,
     group_send (room_group Demo.R1) (ChatMessage (JInt 4) (lit "bob") (lit "None"))
                (w_layer Demo.w_ab)).
Proof.
  assert (Hg : group_name Demo.bob_session = Some (room_group Demo.R1)) by reflexivity.
  assert (Hu : user Demo.bob_session = Some (Some Demo.bob)) by reflexivity.
  assert (Ht : dict_get (lit "type") JNull Frames.chat_null = JStr (lit "chat"))
    by (vm_compute; reflexivity).
  assert (Hm : dict_lookup (lit "message") Frames.chat_null = Some JNull)
    by (vm_compute; reflexivity).
  exact (non_string_chat_stringified Demo.repr0 Demo.names0 _ (w_layer Demo.w_ab) _ _ _ JNull
           Hg Hu Ht Hm (or_introl eq_refl)).
Defined.

(** X13. A text frame holding a JSON document that is not an object makes
    [receive] raise before anything is sent or queued: the consumer is dead,
    its socket log and the channel layer are as before (no [error] frame, no
    teardown), and a later teardown step does not run [disconnect]. *)
Theorem non_object_frame_kills_consumer py_repr valid_group_name access_token w c s data code :
  w_conns w !! c = Some (s, Running) → is_open s = true →
  (∀ fields, data ≠ JDict fields) →
  let w' := step py_repr valid_group_name access_token (Frame c (Loaded data)) w in
  receive py_repr valid_group_name (Loaded data) s (w_layer w) = (Raised AttributeError, s, w_layer w)
  ∧ w_conns w' !! c = Some (s, Crashed)
  ∧ w_layer w' = w_layer w
  ∧ step py_repr valid_group_name access_token (Disconnected c code) w' = w'.
Proof.
  intros Hc Ho Hd w'.
  assert (Hr : receive py_repr valid_group_name (Loaded data) s (w_layer w)
               = (Raised AttributeError, s, w_layer w)) by by apply receive_not_dict.
  assert (Hw' : w' = mkWorld (w_db w) (w_layer w) (<[c := (s, Crashed)]> (w_conns w))).
  { unfold w'. rewrite (frame_runs _ _ _ w c s) by done. by rewrite settle_eq, Hr. }
  split; [done|]. rewrite Hw'. simpl. rewrite lookup_insert_eq. done.
Qed.

(** bob sends the frame [[1]] in the demo room. *)
Lemma non_object_frame_kills_consumer_witness :
  w_conns (step Demo.repr0 Demo.names0 Demo.tokens
             (Frame Demo.B (Loaded (JList [JInt 1]))) Demo.w_ab) !! Demo.B
  = Some (Demo.bob_session, Crashed).
Proof.
  assert (Hc : w_conns Demo.w_ab !! Demo.B = Some (Demo.bob_session, Running))
    by (vm_compute; reflexivity).
  assert (Ho : is_open Demo.bob_session = true) by reflexivity.
  assert (Hd : ∀ fields, JList [JInt 1] ≠ JDict fields) by done.
  exact (proj1 (proj2 (non_object_frame_kills_consumer Demo.repr0 Demo.names0 Demo.tokens
                         Demo.w_ab Demo.B _ _ None Hc Ho Hd))).
Defined.

(** ** Ending a meeting, seen from the consumer *)

Lemma find_map {A B : Type} (f : A → B) (p : B → bool) (l : list A) :
  List.find p (List.map f l) = f <$> List.find (fun x => p (f x)) l.
Proof. induction l as [|x l IH]; [done|]. simpl. by destruct (p (f x)). Qed.

Lemma find_ext_in {A : Type} (p q : A → bool) (l : list A) :
  (∀ x, In x l → p x = q x) → List.find p l = List.find q l.
Proof.
  induction l as [|x l IH]; [done|]. intros H. simpl.
  rewrite (H x) by (by left). destruct (q x); [done|].
  apply IH. intros y Hy. apply H. by right.
Qed.

Lemma existsb_map {A B : Type} (f : A → B) (p : B → bool) (l : list A) :
  existsb p (List.map f l) = existsb (fun x => p (f x)) l.
Proof. induction l as [|x l IH]; [done|]. simpl. by rewrite IH. Qed.

Lemma existsb_ext_in {A : Type} (p q : A → bool) (l : list A) :
  (∀ x, In x l → p x = q x) → existsb p l = existsb q l.
Proof.
  induction l as [|x l IH]; [done|]. intros H. simpl.
  rewrite (H x) by (by left). f_equal. apply IH. intros y Hy. apply H. by right.
Qed.

Lemma filter_map_comm {A B : Type} (f : A → B) (p : B → bool) (l : list A) :
  List.filter p (List.map f l) = List.map f (List.filter (fun x => p (f x)) l).
Proof.
  induction l as [|x l IH]; [done|]. simpl. destruct (p (f x)); simpl; by rewrite IH.
Qed.

Lemma filter_ext_in {A : Type} (p q : A → bool) (l : list A) :
  (∀ x, In x l → p x = q x) → List.filter p l = List.filter q l.
Proof.
  induction l as [|x l IH]; [done|]. intros H. simpl.
  rewrite (H x) by (by left). rewrite IH; [done|]. intros y Hy. apply H. by right.
Qed.

Lemma end_meeting_row_id now mid host m :
  m_id (end_meeting_row now mid host m) = m_id m
  ∧ m_host_id (end_meeting_row now mid host m) = m_host_id m.
Proof. unfold end_meeting_row. by destruct (_ && _). Qed.

Lemma leave_row_keys now mid p :
  p_meeting_id (leave_row now mid p) = p_meeting_id p
  ∧ p_user_id (leave_row now mid p) = p_user_id p.
Proof. unfold leave_row. by destruct (_ && _). Qed.

Lemma end_view_success ru mid now1 now2 db :
  (MeetingEndView_post ru mid now1 now2 db).1 = Response 200 [(lit "status", lit "ended")] →
  (∃ m, m ∈ meetings db ∧ m_id m = mid ∧ m_host_id m = ru ∧ m_is_active m = true)
  ∧ (MeetingEndView_post ru mid now1 now2 db).2
    = mkDatabase (users db)
        (List.map (end_meeting_row now1 mid ru) (meetings db))
        (List.map (leave_row now2 mid) (participants db)).
Proof.
  unfold MeetingEndView_post.
  destruct (List.find _ _) as [m|] eqn:Hf; [|done].
  destruct (m_is_active m) eqn:Ha; simpl; [|done].
  intros _. split; [|done]. apply find_some in Hf as [Hin Hp].
  apply andb_prop in Hp as [Hid Hh]. apply bool_decide_eq_true in Hid.
  apply Z.eqb_eq in Hh. exists m. split; [by apply list_elem_of_In|done].
Qed.

Lemma NoDup_ids_eq (l : list Meeting) m1 m2 :
  NoDup (List.map m_id l) → In m1 l → In m2 l → m_id m1 = m_id m2 → m1 = m2.
Proof.
  induction l as [|x l IH]; [done|]. simpl. intros Hnd H1 H2 Heq.
  apply NoDup_cons in Hnd as [Hx Hnd].
  destruct H1 as [->|H1], H2 as [->|H2]; try done.
  - exfalso. apply Hx. rewrite Heq. apply list_elem_of_In, in_map, H2.
  - exfalso. apply Hx. rewrite <- Heq. apply list_elem_of_In, in_map, H1.
  - by apply IH.
Qed.

(** After a successful end no active meeting row carries that id. *)
Lemma ended_meeting_inactive ru mid now1 now2 db :
  NoDup (List.map m_id (meetings db)) →
  (MeetingEndView_post ru mid now1 now2 db).1 = Response 200 [(lit "status", lit "ended")] →
  ∀ m, In m (meetings (MeetingEndView_post ru mid now1 now2 db).2) → m_id m = mid →
       m_is_active m = false.
Proof.
  intros Hnd Hok. destruct (end_view_success _ _ _ _ _ Hok) as [(m0 & Hin0 & Hid0 & Hh0 & _) ->].
  simpl. intros m Hm Hid. apply in_map_iff in Hm as (m1 & <- & Hin1).
  destruct (end_meeting_row_id now1 mid ru m1) as [Hid1 _]. rewrite Hid1 in Hid.
  assert (m1 = m0) as ->.
  { apply (NoDup_ids_eq (meetings db)); try done; [by apply list_elem_of_In|congruence]. }
  unfold end_meeting_row. rewrite Hid0, Hh0, bool_decide_true, Z.eqb_refl by done. done.
Qed.

(** X14. Once the host has ended a meeting, the consumer's access check
    fails for every user, the host included, and every later handshake for
    that meeting, under whatever spelling of its key the route lets through,
    is refused without joining any group. *)
Theorem ended_meeting_refuses_handshakes py_repr valid_group_name access_token w ru key
    now1 now2 c mid token :
  NoDup (List.map m_id (meetings (w_db w))) →
  (MeetingEndView_post ru key now1 now2 (w_db w)).1
  = Response 200 [(lit "status", lit "ended")] →
  w_conns w !! c = None → routed mid = true → to_uuid mid = Some key →
  let w1 := step py_repr valid_group_name access_token (EndMeeting ru key now1 now2) w in
  let w2 := step py_repr valid_group_name access_token (Handshake c mid token) w1 in
  (∀ uid, has_access (w_db w1) key uid = false)
  ∧ (∃ u k, conn c w2 = Some (rejected c mid u k) ∧ (k = 4001 ∨ k = 4003))
  ∧ w_layer w2 = w_layer w.
Proof.
  intros Hnd Hok Hc Hr Hk w1 w2.
  assert (Hacc : ∀ uid, has_access (w_db w1) key uid = false).
  { intros uid. unfold w1. simpl. unfold has_access.
    destruct (List.find _ _) as [m|] eqn:Hf; [|done].
    apply find_some in Hf as [Hin Hp]. apply andb_prop in Hp as [Hid Ha].
    apply bool_decide_eq_true in Hid.
    rewrite (ended_meeting_inactive ru key now1 now2 (w_db w) Hnd Hok m Hin Hid) in Ha.
    done. }
  split; [done|].
  assert (Hc1 : w_conns w1 !! c = None) by done.
  unfold w2. rewrite handshake_runs by done.
  destruct (is_anonymous _) eqn:Ha.
  - split; [|done]. eexists _, 4001. unfold conn. simpl.
    rewrite lookup_insert_eq. eauto.
  - rewrite Hk, Hacc. split; [|done]. eexists _, 4003. unfold conn. simpl.
    rewrite lookup_insert_eq. eauto.
Qed.

(** alice ends the demo meeting; bob's next handshake is refused, also when
    he spells the id differently. *)
Lemma ended_meeting_refuses_handshakes_witness :
  ∃ u k, conn Demo.B
           (step Demo.repr0 Demo.names0 Demo.tokens
              (Handshake Demo.B Demo.R1_respelled (Some (lit "jwt-bob")))
              (step Demo.repr0 Demo.names0 Demo.tokens
                 (EndMeeting 3 Demo.R1 1700000000 1700000001) Demo.w0))
         = Some (rejected Demo.B Demo.R1_respelled u k) ∧ (k = 4001 ∨ k = 4003).
Proof.
  assert (H1 : NoDup (List.map m_id (meetings (w_db Demo.w0)))).
  { vm_compute. apply NoDup_cons. split; [apply not_elem_of_nil|apply NoDup_nil_2]. }
  assert (H2 : (MeetingEndView_post 3 Demo.R1 1700000000 1700000001 (w_db Demo.w0)).1
               = Response 200 [(lit "status", lit "ended")]) by (vm_compute; reflexivity).
  assert (H3 : w_conns Demo.w0 !! Demo.B = None) by (vm_compute; reflexivity).
  assert (H4 : routed Demo.R1_respelled = true) by (vm_compute; reflexivity).
  assert (H5 : to_uuid Demo.R1_respelled = Some Demo.R1) by (vm_compute; reflexivity).
  exact (proj1 (proj2 (ended_meeting_refuses_handshakes Demo.repr0 Demo.names0 Demo.tokens
                         Demo.w0 3 Demo.R1 1700000000 1700000001 Demo.B
                         Demo.R1_respelled (Some (lit "jwt-bob")) H1 H2 H3 H4 H5))).
Defined.

(** X15. Ending a meeting is not repeatable: after a successful end, the
    same request by the host is answered 400 and a request by anyone else 404,
    and neither changes the database. *)
Theorem end_meeting_once ru ru' mid now1 now2 now1' now2' db :
  NoDup (List.map m_id (meetings db)) →
  (MeetingEndView_post ru mid now1 now2 db).1 = Response 200 [(lit "status", lit "ended")] →
  let db1 := (MeetingEndView_post ru mid now1 now2 db).2 in
  (MeetingEndView_post ru' mid now1' now2' db1).2 = db1
  ∧ (MeetingEndView_post ru' mid now1' now2' db1).1
    = if ru' =? ru
      then Response 400 [(lit "error", lit "meeting already ended")]
      else Response 404 [(lit "error", lit "not found or not your meeting")].
Proof.
  intros Hnd Hok db1.
  pose proof (ended_meeting_inactive ru mid now1 now2 db Hnd Hok) as Hin.
  destruct (end_view_success _ _ _ _ _ Hok) as [(m0 & Hin0 & Hid0 & Hh0 & Ha0) Hdb].
  fold db1 in Hin, Hdb.
  unfold MeetingEndView_post at 1 2.
  destruct (List.find _ (meetings db1)) as [m|] eqn:Hf.
  - pose proof Hf as Hf'. apply find_some in Hf' as [Hm Hp].
    apply andb_prop in Hp as [Hid Hh]. apply bool_decide_eq_true in Hid.
    apply Z.eqb_eq in Hh. rewrite (Hin m Hm Hid). simpl. split; [done|].
    rewrite Hdb in Hm. simpl in Hm. apply in_map_iff in Hm as (m1 & <- & Hin1).
    destruct (end_meeting_row_id now1 mid ru m1) as [Hid1 Hh1].
    rewrite Hid1 in Hid. rewrite Hh1 in Hh.
    assert (m1 = m0) as ->.
    { apply (NoDup_ids_eq (meetings db)); try done; [by apply list_elem_of_In|congruence]. }
    subst ru'. rewrite Hh0. by rewrite Z.eqb_refl.
  - simpl. split; [done|]. destruct (ru' =? ru) eqn:He; [|done].
    apply Z.eqb_eq in He. subst ru'. exfalso.
    apply list_elem_of_In in Hin0.
    assert (Hx : In (end_meeting_row now1 mid ru m0) (meetings db1)).
    { rewrite Hdb. simpl. by apply in_map. }
    pose proof (find_none _ _ Hf _ Hx) as Hn. simpl in Hn.
    destruct (end_meeting_row_id now1 mid ru m0) as [E1 E2].
    rewrite E1, E2, Hid0, Hh0, bool_decide_true, Z.eqb_refl in Hn by done. done.
Qed.

(** alice ends the demo meeting twice. *)
Lemma end_meeting_once_witness :
  (MeetingEndView_post 3 Demo.R1 1700000010 1700000011
     (MeetingEndView_post 3 Demo.R1 1700000000 1700000001 Demo.db0).2).1
  = Response 400 [(lit "error", lit "meeting already ended")].
Proof.
  assert (H1 : NoDup (List.map m_id (meetings Demo.db0))).
  { vm_compute. apply NoDup_cons. split; [apply not_elem_of_nil|apply NoDup_nil_2]. }
  assert (H2 : (MeetingEndView_post 3 Demo.R1 1700000000 1700000001 Demo.db0).1
               = Response 200 [(lit "status", lit "ended")]) by (vm_compute; reflexivity).
  exact (proj2 (end_meeting_once 3 3 Demo.R1 1700000000 1700000001 1700000010
                  1700000011 Demo.db0 H1 H2)).
Defined.

(** X16. Ending one meeting leaves every other meeting as the consumer sees
    it: for a different meeting id, the access check and the [room_state]
    snapshot give the same answers after the call as before, whoever asks and
    whatever the answer of the view. *)
Theorem end_meeting_spares_other_meetings ru mid now1 now2 db mid' uid :
  mid' ≠ mid →
  let db1 := (MeetingEndView_post ru mid now1 now2 db).2 in
  has_access db1 mid' uid = has_access db mid' uid
  ∧ active_others db1 mid' uid = active_others db mid' uid
  ∧ users db1 = users db.
Proof.
  intros Hne db1.
  assert (Hdb : db1 = db ∨ db1 = mkDatabase (users db)
                  (List.map (end_meeting_row now1 mid ru) (meetings db))
                  (List.map (leave_row now2 mid) (participants db))).
  { unfold db1, MeetingEndView_post. destruct (List.find _ _) as [m|]; [|by left].
    destruct (m_is_active m); simpl; eauto. }
  destruct Hdb as [->| ->]; [done|].
  assert (Hrow : ∀ m, m_id m = mid' → end_meeting_row now1 mid ru m = m).
  { intros m Hm. unfold end_meeting_row.
    rewrite bool_decide_false by congruence. done. }
  assert (Hp : ∀ p, p_meeting_id p = mid' → leave_row now2 mid p = p).
  { intros p Hm. unfold leave_row. rewrite bool_decide_false by congruence. done. }
  assert (Hpk : ∀ p, bool_decide (p_meeting_id (leave_row now2 mid p) = mid')
                     = bool_decide (p_meeting_id p = mid')).
  { intros p. by destruct (leave_row_keys now2 mid p) as [-> _]. }
  split; [|split; [|done]].
  - unfold has_access. simpl. rewrite find_map.
    rewrite (find_ext_in _ (λ m, bool_decide (m_id m = mid') && m_is_active m)).
    2:{ intros m _. destruct (end_meeting_row_id now1 mid ru m) as [-> _].
        destruct (decide (m_id m = mid')) as [Hm|Hm].
        - by rewrite (Hrow m Hm).
        - by rewrite !bool_decide_false. }
    destruct (List.find _ (meetings db)) as [m|] eqn:Hf; simpl; [|done].
    apply find_some in Hf as [_ Hm]. apply andb_prop in Hm as [Hm _].
    apply bool_decide_eq_true in Hm. rewrite (Hrow m Hm). f_equal.
    rewrite existsb_map. apply existsb_ext_in. intros p _.
    destruct (decide (p_meeting_id p = mid')) as [Hpm|Hpm].
    + by rewrite (Hp p Hpm).
    + destruct (leave_row_keys now2 mid p) as [-> _].
      rewrite !bool_decide_false by congruence. done.
  - unfold active_others. simpl. rewrite filter_map_comm.
    rewrite (filter_ext_in _ (λ p, bool_decide (p_meeting_id p = mid') && p_is_active p
                                   && negb (eq_int (p_user_id p) uid))).
    2:{ intros p _. destruct (decide (p_meeting_id p = mid')) as [Hpm|Hpm].
        - by rewrite (Hp p Hpm).
        - rewrite Hpk. by rewrite !bool_decide_false. }
    match goal with |- omap _ (List.map _ ?l) = _ => set (rows := l) end.
    assert (Hrows : List.map (leave_row now2 mid) rows = rows).
    { rewrite <- (map_id rows) at 2. apply map_ext_in. intros p Hin.
      apply Hp. apply filter_In in Hin as [_ Hf].
      apply andb_prop in Hf as [Hf _]. apply andb_prop in Hf as [Hf _].
      by apply bool_decide_eq_true in Hf. }
    rewrite Hrows. reflexivity.
Qed.

(** Ending another meeting does not change who may enter the demo room. *)
Lemma end_meeting_spares_other_meetings_witness :
  has_access (MeetingEndView_post 3 (lit "another-meeting") 1700000000 1700000001
                Demo.db0).2
             Demo.R1 (JInt 4)
  = has_access Demo.db0 Demo.R1 (JInt 4).
Proof.
  assert (Hne : Demo.R1 ≠ lit "another-meeting") by (vm_compute; discriminate).
  exact (proj1 (end_meeting_spares_other_meetings 3 (lit "another-meeting") 1700000000
                  1700000001
                  Demo.db0 Demo.R1 (JInt 4) Hne)).
Defined.

(** ** The REST views *)

Lemma find_filter_head {A : Type} (p : A → bool) (l : list A) :
  List.find p l = head (List.filter p l).
Proof. induction l as [|x l IH]; [done|]. simpl. by destruct (p x). Qed.

Lemma objects_get_one {A : Type} (p : A → bool) (rows : list A) (r : A) :
  objects_get p rows = GotOne r →
  List.filter p rows = [r] ∧ In r rows ∧ p r = true
  ∧ ∀ r', In r' rows → p r' = true → r' = r.
Proof.
  unfold objects_get. destruct (List.filter p rows) as [|r0 [|r1 l]] eqn:Hf; try done.
  intros [= ->]. split; [done|].
  assert (Hin : In r (List.filter p rows)) by (rewrite Hf; by left).
  apply filter_In in Hin as [Hin Hp]. split; [done|]. split; [done|].
  intros r' Hr' Hp'. assert (H : In r' (List.filter p rows)) by by apply filter_In.
  rewrite Hf in H. by destruct H as [->|[]].
Qed.

Lemma objects_get_none {A : Type} (p : A → bool) (rows : list A) :
  objects_get p rows = DoesNotExist → ∀ r, In r rows → p r = false.
Proof.
  unfold objects_get. destruct (List.filter p rows) as [|r0 [|r1 l]] eqn:Hf; try done.
  intros _ r Hr. destruct (p r) eqn:Hp; [|done].
  assert (H : In r (List.filter p rows)) by by apply filter_In.
  by rewrite Hf in H.
Qed.

Lemma update_where_id {A : Type} (p : A → bool) (f : A → A) (l : list A) :
  (∀ x, In x l → p x = false) → update_where p f l = l.
Proof.
  intros H. unfold update_where. rewrite <- (map_id l) at 2.
  apply map_ext_in. intros x Hx. by rewrite (H x Hx).
Qed.

Lemma filter_update_where_other {A : Type} (p q : A → bool) (f : A → A) (l : list A) :
  (∀ x, p x = true → q (f x) = false ∧ q x = false) →
  List.filter q (update_where p f l) = List.filter q l.
Proof.
  intros H. induction l as [|x l IH]; [done|]. simpl.
  destruct (p x) eqn:Hp.
  - destruct (H x Hp) as [-> ->]. apply IH.
  - destruct (q x); by rewrite IH.
Qed.

Lemma length_update_where {A : Type} (p : A → bool) (f : A → A) (l : list A) :
  length (update_where p f l) = length l.
Proof. unfold update_where. apply length_map. Qed.

(** The meeting the consumer's access check looks at is the active meeting
    row the views fetch. *)
Lemma has_access_of_row st mid meeting uid :
  List.filter (fun m => bool_decide (m_id (mr_base m) = mid) && m_is_active (mr_base m))
              (st_meetings st) = [meeting] →
  has_access (db_of st) mid uid
  = eq_int (m_host_id (mr_base meeting)) uid
    || existsb (fun p => bool_decide (p_meeting_id (pr_base p) = mid)
                         && eq_int (p_user_id (pr_base p)) uid
                         && p_is_active (pr_base p))
               (st_participants st).
Proof.
  intros Hf. unfold has_access, db_of. simpl.
  rewrite find_map, find_filter_head, Hf. simpl.
  assert (Hid : m_id (mr_base meeting) = mid).
  { assert (Hin : In meeting (List.filter
       (fun m => bool_decide (m_id (mr_base m) = mid) && m_is_active (mr_base m))
       (st_meetings st))) by (rewrite Hf; by left).
    apply filter_In in Hin as [_ Hp]. apply andb_prop in Hp as [Hp _].
    by apply bool_decide_eq_true in Hp. }
  rewrite existsb_map, Hid. done.
Qed.

Lemma has_access_no_row st mid uid :
  List.filter (fun m => bool_decide (m_id (mr_base m) = mid) && m_is_active (mr_base m))
              (st_meetings st) = [] →
  has_access (db_of st) mid uid = false.
Proof.
  intros Hf. unfold has_access, db_of. simpl.
  by rewrite find_map, find_filter_head, Hf.
Qed.

Section RestFacts.
Variable KEY SECRET URL : pystr.
Variable to_jwt : AccessToken → pystr.

(** X17. A user the join view answers with 200 passes the access check of
    the consumer for that meeting: the meeting is active and the user is its
    host or now has an active participant row. *)
Theorem join_grants_access uid uname mid now st :
  status_of (MeetingJoinView_post KEY SECRET URL to_jwt uid uname mid now st) = Some 200 →
  has_access (db_of (tables (MeetingJoinView_post KEY SECRET URL to_jwt uid uname mid now st)))
             mid (JInt uid) = true.
Proof.
  unfold MeetingJoinView_post.
  destruct (objects_get _ (st_meetings st)) as [meeting| |] eqn:Hm; try done.
  apply objects_get_one in Hm as (Hf & Hin & Hp & _).
  apply andb_prop in Hp as [Hid _]. apply bool_decide_eq_true in Hid.
  destruct (negb _ && _); [done|].
  destruct (objects_get _ (st_participants st)) as [row| |] eqn:Hr; try done;
    intros _; simpl.
  - apply objects_get_one in Hr as (_ & Hrin & Hrp & _).
    rewrite (has_access_of_row _ mid meeting) by done. simpl.
    apply orb_true_intro. right. apply existsb_exists.
    exists (mark_rejoined now row). split.
    + unfold update_where. apply in_map_iff. exists row. by rewrite Hrp.
    + unfold is_row_of, in_meeting in Hrp. apply andb_prop in Hrp as [H1 H2].
      apply bool_decide_eq_true in H1. simpl.
      rewrite Hid in H1. rewrite bool_decide_true by done. by rewrite H2.
  - rewrite (has_access_of_row _ mid meeting) by done. simpl.
    apply orb_true_intro. right. rewrite existsb_app. apply orb_true_intro. right.
    simpl. rewrite bool_decide_true by done. by rewrite Z.eqb_refl.
Qed.

(** X18. The join view writes at most the row of its user in that meeting:
    users, meetings and every other participant row are as before, and no
    second row is made for a pair of meeting and user. *)
Theorem join_writes_one_row uid uname mid now st :
  let st' := tables (MeetingJoinView_post KEY SECRET URL to_jwt uid uname mid now st) in
  st_users st' = st_users st
  ∧ st_meetings st' = st_meetings st
  ∧ List.filter (fun p => negb (is_row_of mid uid p)) (st_participants st')
    = List.filter (fun p => negb (is_row_of mid uid p)) (st_participants st)
  ∧ (NoDup (List.map (fun p => (p_meeting_id (pr_base p), p_user_id (pr_base p)))
                     (st_participants st)) →
     NoDup (List.map (fun p => (p_meeting_id (pr_base p), p_user_id (pr_base p)))
                     (st_participants st'))).
Proof.
  unfold MeetingJoinView_post.
  destruct (objects_get _ (st_meetings st)) as [meeting| |] eqn:Hm; try done.
  apply objects_get_one in Hm as (Hf & Hin & Hp & _).
  apply andb_prop in Hp as [Hid _]. apply bool_decide_eq_true in Hid.
  rewrite Hid.
  destruct (negb _ && _); [done|].
  destruct (objects_get _ (st_participants st)) as [row| |] eqn:Hr; try done; simpl.
  - split; [done|]. split; [done|]. split.
    + apply filter_update_where_other. intros p Hp.
      assert (is_row_of mid uid (mark_rejoined now p) = true) as -> by done.
      by rewrite Hp.
    + intros Hnd. unfold update_where. rewrite List.map_map.
      erewrite List.map_ext; [exact Hnd|]. intros p. simpl. by destruct (is_row_of mid uid p).
  - pose proof (objects_get_none _ _ Hr) as Hnone.
    split; [done|]. split; [done|]. split.
    + rewrite List.filter_app. simpl. unfold is_row_of at 2, in_meeting. simpl.
      rewrite bool_decide_true, Z.eqb_refl by done. simpl. by rewrite app_nil_r.
    + intros Hnd. rewrite List.map_app. simpl. apply NoDup_app. split; [done|].
      split; [|apply NoDup_singleton].
      intros key Hk Hk'. apply list_elem_of_singleton in Hk'. subst key.
      apply list_elem_of_In, in_map_iff in Hk as (p & Hkey & Hpin).
      injection Hkey as Hk1 Hk2.
      pose proof (Hnone p Hpin) as Hfalse. unfold is_row_of, in_meeting in Hfalse.
      rewrite bool_decide_true, Hk2, Z.eqb_refl in Hfalse by done. done.
Qed.

(** X19. A join the view answers with 200 for a user who is not the host
    never leaves more active participant rows in the meeting than its
    [max_participants] allows. *)
Theorem join_respects_capacity uid uname mid now st meeting :
  objects_get (fun m => bool_decide (m_id (mr_base m) = mid) && m_is_active (mr_base m))
              (st_meetings st) = GotOne meeting →
  m_host_id (mr_base meeting) ≠ uid →
  status_of (MeetingJoinView_post KEY SECRET URL to_jwt uid uname mid now st) = Some 200 →
  let st' := tables (MeetingJoinView_post KEY SECRET URL to_jwt uid uname mid now st) in
  (Z.of_nat (length (List.filter (fun p => in_meeting mid p && row_active p)
                                 (st_participants st')))
   <= mr_max_participants meeting).
Proof.
  intros Hm Hhost. unfold MeetingJoinView_post. rewrite Hm.
  apply objects_get_one in Hm as (Hf & Hin & Hp & _).
  apply andb_prop in Hp as [Hid _]. apply bool_decide_eq_true in Hid.
  rewrite Hid.
  assert ((m_host_id (mr_base meeting) =? uid) = false) as -> by by apply Z.eqb_neq.
  simpl.
  destruct (_ <=? _) eqn:Hcap; [done|]. apply Z.leb_gt in Hcap.
  destruct (objects_get _ (st_participants st)) as [row| |] eqn:Hr; try done;
    intros _; simpl.
  - apply objects_get_one in Hr as (Hrf & _ & _ & _).
    assert (Hlen : (length (List.filter (fun p => in_meeting mid p && row_active p)
                     (update_where (is_row_of mid uid) (mark_rejoined now)
                                   (st_participants st)))
                    ≤ length (List.filter (fun p => in_meeting mid p && row_active p)
                                (st_participants st))
                      + length (List.filter (is_row_of mid uid) (st_participants st)))%nat).
    { clear. induction (st_participants st) as [|p l IH]; [done|]. simpl.
      destruct (is_row_of mid uid p) eqn:Hp; simpl.
      - destruct (in_meeting mid (mark_rejoined now p) && row_active (mark_rejoined now p)),
                 (in_meeting mid p && row_active p); simpl; lia.
      - destruct (in_meeting mid p && row_active p); simpl; lia. }
    rewrite Hrf in Hlen. simpl in Hlen. lia.
  - rewrite List.filter_app, length_app. simpl.
    destruct (in_meeting mid _ && row_active _); simpl; lia.
Qed.

End RestFacts.

(** carol joins the demo room when it has room for three. *)
Lemma join_grants_access_witness :
  has_access (db_of (tables (RestDemo.join 5 (lit "carol") 1700000000 RestDemo.store1)))
             Demo.R1 (JInt 5) = true.
Proof.
  apply (join_grants_access (lit "key") (lit "secret") (lit "wss://sfu") RestDemo.sign0).
  vm_compute. reflexivity.
Defined.

(** carol's join adds her row and keeps the pairs unique. *)
Lemma join_writes_one_row_witness :
  NoDup (List.map (fun p => (p_meeting_id (pr_base p), p_user_id (pr_base p)))
           (st_participants
              (tables (RestDemo.join 5 (lit "carol") 1700000000 RestDemo.store1)))).
Proof.
  apply (join_writes_one_row (lit "key") (lit "secret") (lit "wss://sfu") RestDemo.sign0).
  apply (bool_decide_unpack _). vm_compute. exact I.
Defined.

(** carol's join fills the demo room of three and no more. *)
Lemma join_respects_capacity_witness :
  (Z.of_nat (length (List.filter (fun p => in_meeting Demo.R1 p && row_active p)
                       (st_participants
                          (tables (RestDemo.join 5 (lit "carol") 1700000000
                                     RestDemo.store1)))))
   <= 3).
Proof.
  apply (join_respects_capacity (lit "key") (lit "secret") (lit "wss://sfu")
           RestDemo.sign0 5 (lit "carol") Demo.R1 1700000000 RestDemo.store1
           (mkMeetingRow (mkMeeting Demo.R1 3 true None) (lit "Standup") 1699990000 3)).
  - vm_compute. reflexivity.
  - discriminate.
  - vm_compute. reflexivity.
Defined.

(** ** Leaving *)

Lemma mark_left_inactive now p : row_active (mark_left now p) = false.
Proof. reflexivity. Qed.

(** X20. After a user who is not the host has left a meeting, the access
    check of the consumer fails for that user, and it answers for every other
    user as it did before. *)
Theorem leave_revokes_access uid mid now1 now2 now3 st meeting uid' :
  objects_get (fun m => bool_decide (m_id (mr_base m) = mid)) (st_meetings st)
  = GotOne meeting →
  m_host_id (mr_base meeting) ≠ uid →
  let o := MeetingLeaveView_post uid mid now1 now2 now3 st in
  o = Answered 200 (JDict [(lit "status", JStr (lit "left"))]) (tables o)
  ∧ has_access (db_of (tables o)) mid (JInt uid) = false
  ∧ (uid' ≠ uid →
     has_access (db_of (tables o)) mid (JInt uid') = has_access (db_of st) mid (JInt uid')).
Proof.
  intros Hm Hhost o. unfold o, MeetingLeaveView_post. rewrite Hm.
  apply objects_get_one in Hm as (Hf & Hin & Hp & Huniq).
  apply bool_decide_eq_true in Hp. rewrite Hp.
  assert ((m_host_id (mr_base meeting) =? uid) = false) as -> by by apply Z.eqb_neq.
  simpl. split; [done|].
  set (parts1 := update_where _ _ _).
  destruct (List.filter (fun m => bool_decide (m_id (mr_base m) = mid)
                                  && m_is_active (mr_base m)) (st_meetings st))
    as [|m0 l] eqn:Hact.
  { split; [by apply has_access_no_row|].
    intros _. by rewrite !has_access_no_row. }
  assert (Hm0 : m0 = meeting ∧ l = []).
  { assert (Hsub : ∀ m, In m (m0 :: l) → m = meeting).
    { intros m Hmin. rewrite <- Hact in Hmin. apply filter_In in Hmin as [Hmin Hpm].
      apply andb_prop in Hpm as [Hpm _]. by apply Huniq. }
    assert (Hnd : List.filter (fun m => m_is_active (mr_base m))
                    (List.filter (fun m => bool_decide (m_id (mr_base m) = mid))
                                 (st_meetings st)) = m0 :: l).
    { rewrite <- Hact. clear. induction (st_meetings st) as [|m l IH]; [done|].
      simpl. destruct (bool_decide _); simpl; [|done].
      destruct (m_is_active _); simpl; by rewrite IH. }
    rewrite Hf in Hnd. simpl in Hnd.
    destruct (m_is_active (mr_base meeting)); by simplify_eq. }
  destruct Hm0 as [-> ->].
  split.
  - rewrite (has_access_of_row _ mid meeting) by done. simpl.
    assert ((m_host_id (mr_base meeting) =? uid) = false) as -> by by apply Z.eqb_neq.
    simpl. apply not_true_is_false. intros Hex. apply existsb_exists in Hex as (p & Hpin & Hpp).
    unfold parts1, update_where in Hpin. apply in_map_iff in Hpin as (p0 & <- & _).
    destruct (is_row_of mid uid p0 && row_active p0) eqn:Hc.
    + simpl in Hpp. by rewrite andb_false_r in Hpp.
    + apply andb_prop in Hpp as [Hpp Ha]. apply andb_prop in Hpp as [H1 H2].
      unfold is_row_of, in_meeting, row_active in Hc. rewrite H1, H2, Ha in Hc. done.
  - intros Hne. rewrite !(has_access_of_row _ mid meeting) by done. simpl. f_equal.
    unfold parts1, update_where. rewrite existsb_map. apply existsb_ext_in.
    intros p _. destruct (is_row_of mid uid p && row_active p) eqn:Hc; [|done].
    apply andb_prop in Hc as [Hc _]. unfold is_row_of in Hc.
    apply andb_prop in Hc as [_ Hu]. apply Z.eqb_eq in Hu. simpl. rewrite Hu.
    assert ((uid =? uid') = false) as -> by (apply Z.eqb_neq; congruence).
    by rewrite !andb_false_r.
Qed.

(** bob leaves the demo room. *)
Lemma leave_revokes_access_witness :
  has_access (db_of (tables (MeetingLeaveView_post 4 Demo.R1 1700000000 1700000001
                               1700000002 RestDemo.store0)))
             Demo.R1 (JInt 4) = false.
Proof.
  assert (Hm : objects_get (fun m => bool_decide (m_id (mr_base m) = Demo.R1))
                 (st_meetings RestDemo.store0)
               = GotOne (mkMeetingRow (mkMeeting Demo.R1 3 true None) (lit "Standup")
                           1699990000 2)) by (vm_compute; reflexivity).
  assert (Hh : m_host_id (mr_base (mkMeetingRow (mkMeeting Demo.R1 3 true None)
                                     (lit "Standup") 1699990000 2)) ≠ 4) by discriminate.
  exact (proj1 (proj2 (leave_revokes_access 4 Demo.R1 1700000000 1700000001 1700000002
                         RestDemo.store0 _ 3 Hm Hh))).
Defined.

(** X21. When the host leaves, the view answers that the meeting is ended;
    afterwards the access check of the consumer fails for every user and no
    participant row of the meeting is active. *)
Theorem host_leave_ends_meeting uid mid now1 now2 now3 st meeting :
  objects_get (fun m => bool_decide (m_id (mr_base m) = mid)) (st_meetings st)
  = GotOne meeting →
  m_host_id (mr_base meeting) = uid →
  let o := MeetingLeaveView_post uid mid now1 now2 now3 st in
  o = Answered 200 (JDict [(lit "status", JStr (lit "meeting ended"))]) (tables o)
  ∧ (∀ u, has_access (db_of (tables o)) mid u = false)
  ∧ (∀ p, In p (st_participants (tables o)) → in_meeting mid p = true →
          row_active p = false).
Proof.
  intros Hm Hhost o. unfold o, MeetingLeaveView_post. rewrite Hm.
  apply objects_get_one in Hm as (Hf & Hin & Hp & Huniq).
  apply bool_decide_eq_true in Hp. rewrite Hp, Hhost, Z.eqb_refl. simpl.
  split; [done|]. split.
  - intros u. apply has_access_no_row. simpl.
    unfold update_where. rewrite filter_map_comm.
    rewrite (filter_ext_in _ (fun _ => false)).
    + clear. by induction (st_meetings st).
    + intros m _. destruct (bool_decide (m_id (mr_base m) = mid)) eqn:Hb; simpl.
      * by rewrite Hb, andb_false_r.
      * by rewrite Hb.
  - intros p Hpin Hmeet. unfold update_where in Hpin.
    apply in_map_iff in Hpin as (p0 & <- & _).
    destruct (in_meeting mid p0 && row_active p0) eqn:Hc; [done|].
    unfold in_meeting in Hmeet, Hc. rewrite Hmeet in Hc. done.
Qed.

(** alice, the host, leaves the demo room. *)
Lemma host_leave_ends_meeting_witness :
  has_access (db_of (tables (MeetingLeaveView_post 3 Demo.R1 1700000000 1700000001
                               1700000002 RestDemo.store0)))
             Demo.R1 (JInt 4) = false.
Proof.
  assert (Hm : objects_get (fun m => bool_decide (m_id (mr_base m) = Demo.R1))
                 (st_meetings RestDemo.store0)
               = GotOne (mkMeetingRow (mkMeeting Demo.R1 3 true None) (lit "Standup")
                           1699990000 2)) by (vm_compute; reflexivity).
  exact (proj1 (proj2 (host_leave_ends_meeting 3 Demo.R1 1700000000 1700000001
                         1700000002 RestDemo.store0 _ Hm eq_refl)) (JInt 4)).
Defined.

(** X22. Leaving is idempotent for a user who is not the host: a second
    leave, whenever it happens, changes nothing, and so does a leave by a user
    without an active row in the meeting. *)
Theorem leave_twice_is_leave_once uid mid now1 now2 now3 now1' now2' now3' st meeting :
  objects_get (fun m => bool_decide (m_id (mr_base m) = mid)) (st_meetings st)
  = GotOne meeting →
  m_host_id (mr_base meeting) ≠ uid →
  let st1 := tables (MeetingLeaveView_post uid mid now1 now2 now3 st) in
  tables (MeetingLeaveView_post uid mid now1' now2' now3' st1) = st1
  ∧ ((∀ p, In p (st_participants st) → is_row_of mid uid p = true →
           row_active p = false) → st1 = st).
Proof.
  intros Hm Hhost st1.
  assert (Hid : m_id (mr_base meeting) = mid).
  { apply objects_get_one in Hm as (_ & _ & Hp & _). by apply bool_decide_eq_true in Hp. }
  assert (Hneq : (m_host_id (mr_base meeting) =? uid) = false) by by apply Z.eqb_neq.
  assert (Hst1 : st1 = mkStore (st_users st) (st_meetings st)
                   (update_where (fun p => is_row_of mid uid p && row_active p)
                                 (mark_left now1) (st_participants st))).
  { unfold st1, MeetingLeaveView_post. by rewrite Hm, Hid, Hneq. }
  split.
  - unfold MeetingLeaveView_post. rewrite Hst1. simpl. rewrite Hm, Hid, Hneq. simpl.
    f_equal. apply update_where_id. intros p Hpin.
    unfold update_where in Hpin. apply in_map_iff in Hpin as (p0 & <- & _).
    destruct (is_row_of mid uid p0 && row_active p0) eqn:Hc; [|done].
    simpl. by rewrite andb_false_r.
  - intros Hnone. rewrite Hst1. destruct st as [us ms ps]. simpl in *. f_equal.
    apply update_where_id. intros p Hpin.
    destruct (is_row_of mid uid p) eqn:Hr; [|done]. simpl. by apply Hnone.
Qed.

(** bob leaves the demo room twice. *)
Lemma leave_twice_is_leave_once_witness :
  tables (MeetingLeaveView_post 4 Demo.R1 1700000010 1700000011 1700000012
            (tables (MeetingLeaveView_post 4 Demo.R1 1700000000 1700000001 1700000002
                       RestDemo.store0)))
  = tables (MeetingLeaveView_post 4 Demo.R1 1700000000 1700000001 1700000002
              RestDemo.store0).
Proof.
  assert (Hm : objects_get (fun m => bool_decide (m_id (mr_base m) = Demo.R1))
                 (st_meetings RestDemo.store0)
               = GotOne (mkMeetingRow (mkMeeting Demo.R1 3 true None) (lit "Standup")
                           1699990000 2)) by (vm_compute; reflexivity).
  assert (Hh : m_host_id (mr_base (mkMeetingRow (mkMeeting Demo.R1 3 true None)
                                     (lit "Standup") 1699990000 2)) ≠ 4) by discriminate.
  exact (proj1 (leave_twice_is_leave_once 4 Demo.R1 1700000000 1700000001 1700000002
                  1700000010 1700000011 1700000012 RestDemo.store0 _ Hm Hh)).
Defined.

(** ** Listing participants *)

Lemma filter_andb {A : Type} (p q : A → bool) (l : list A) :
  List.filter (fun x => p x && q x) l = List.filter q (List.filter p l).
Proof.
  induction l as [|x l IH]; [done|]. simpl.
  destruct (p x); simpl; [|done]. destruct (q x); by rewrite IH.
Qed.

Lemma omap_map {A B C : Type} (f : B → option C) (g : A → B) (l : list A) :
  omap f (List.map g l) = omap (fun x => f (g x)) l.
Proof. induction l as [|x l IH]; [done|]. csimpl. by rewrite IH. Qed.

(** X23. For an active meeting the participants view lets in exactly the
    users the consumer's access check lets in; for an ended meeting the
    consumer lets in nobody.  The view never writes, and the snapshot the
    consumer sends as [room_state] is made of the rows the view lists, without
    those of the asking user. *)
Theorem participants_view_matches_consumer uid mid st meeting :
  objects_get (fun m => bool_decide (m_id (mr_base m) = mid)) (st_meetings st)
  = GotOne meeting →
  let o := MeetingParticipantsView_get uid mid st in
  tables o = st
  ∧ (m_is_active (mr_base meeting) = true →
     (status_of o = Some 200 ↔ has_access (db_of st) mid (JInt uid) = true))
  ∧ (m_is_active (mr_base meeting) = false →
     has_access (db_of st) mid (JInt uid) = false)
  ∧ (status_of o = Some 200 →
     ∃ rows,
       o = Answered 200 (JList (omap (participant_info st) rows)) st
       ∧ active_others (db_of st) mid (JInt uid)
         = omap (fun p => participant_entry (db_of st) (pr_base p))
                (List.filter (fun p => negb (p_user_id (pr_base p) =? uid)) rows)).
Proof.
  intros Hm o. unfold o, MeetingParticipantsView_get. rewrite Hm.
  apply objects_get_one in Hm as (Hf & Hin & Hp & Huniq).
  apply bool_decide_eq_true in Hp. rewrite Hp.
  assert (Hact : List.filter (fun m => bool_decide (m_id (mr_base m) = mid)
                                       && m_is_active (mr_base m)) (st_meetings st)
                 = if m_is_active (mr_base meeting) then [meeting] else []).
  { rewrite (filter_andb (fun m => bool_decide (m_id (mr_base m) = mid))
                         (fun m => m_is_active (mr_base m))), Hf. simpl.
    by destruct (m_is_active (mr_base meeting)). }
  split; [by destruct (negb _ && negb _)|]. split; [|split].
  - intros Ha. rewrite Ha in Hact.
    rewrite (has_access_of_row _ mid meeting _ Hact). simpl.
    unfold is_row_of, in_meeting, row_active.
    destruct (m_host_id (mr_base meeting) =? uid), (existsb _ _); simpl; split; done.
  - intros Ha. rewrite Ha in Hact. by apply has_access_no_row.
  - destruct (negb _ && negb _); [done|]. intros _. simpl.
    eexists. split; [reflexivity|].
    unfold active_others, db_of. simpl.
    rewrite filter_map_comm.
    rewrite (filter_andb (fun p => in_meeting mid p && row_active p)
                         (fun p => negb (p_user_id (pr_base p) =? uid))).
    match goal with |- omap _ (List.map _ ?l) = omap _ ?l' =>
      replace l with l'; [|by apply filter_ext_in] end.
    apply omap_map.
Qed.

(** carol may not list the demo room, and the consumer refuses her too. *)
Lemma participants_view_matches_consumer_witness :
  status_of (MeetingParticipantsView_get 5 Demo.R1 RestDemo.store0) = Some 200
  ↔ has_access (db_of RestDemo.store0) Demo.R1 (JInt 5) = true.
Proof.
  assert (Hm : objects_get (fun m => bool_decide (m_id (mr_base m) = Demo.R1))
                 (st_meetings RestDemo.store0)
               = GotOne (mkMeetingRow (mkMeeting Demo.R1 3 true None) (lit "Standup")
                           1699990000 2)) by (vm_compute; reflexivity).
  exact (proj1 (proj2 (participants_view_matches_consumer 5 Demo.R1 RestDemo.store0 _ Hm))
           eq_refl).
Defined.

Section TokenFacts.
Variable KEY SECRET URL : pystr.
Variable to_jwt : AccessToken → pystr.

(** X24. The media token a successful join hands out is the signature of a
    token for the room named by the meeting id and the identity written as the
    decimal user id, and it carries the [room_admin] grant exactly when the
    answer says [is_host], which is exactly when the user hosts the meeting. *)
Theorem join_token_for_room_and_user uid uname mid now st :
  status_of (MeetingJoinView_post KEY SECRET URL to_jwt uid uname mid now st) = Some 200 →
  ∃ meeting body st',
    MeetingJoinView_post KEY SECRET URL to_jwt uid uname mid now st
    = Answered 200 (JDict body) st'
    ∧ objects_get (fun m => bool_decide (m_id (mr_base m) = mid) && m_is_active (mr_base m))
                  (st_meetings st) = GotOne meeting
    ∧ dict_lookup (lit "is_host") body
      = Some (JBool (m_host_id (mr_base meeting) =? uid))
    ∧ dict_lookup (lit "sfu_token") body
      = Some (JStr (to_jwt
           (mkAccessToken KEY SECRET (str_of_int uid) uname
              (mkVideoGrants true mid true true true
                             (m_host_id (mr_base meeting) =? uid)))))
    ∧ dict_lookup (lit "sfu_url") body = Some (JStr URL).
Proof.
  unfold MeetingJoinView_post.
  destruct (objects_get _ (st_meetings st)) as [meeting| |] eqn:Hm; try done.
  pose proof (objects_get_one _ _ _ Hm) as (_ & _ & Hp & _).
  apply andb_prop in Hp as [Hid _]. apply bool_decide_eq_true in Hid.
  destruct (negb _ && _); [done|].
  destruct (objects_get _ (st_participants st)) as [row| |] eqn:Hr; try done;
    intros _; exists meeting; eexists _, _; (split; [reflexivity|]);
    (split; [done|]); rewrite Hid; repeat split.
Qed.

End TokenFacts.

(** carol's token for the demo room is not an admin token. *)
Lemma join_token_for_room_and_user_witness :
  ∃ meeting body st',
    RestDemo.join 5 (lit "carol") 1700000000 RestDemo.store1 = Answered 200 (JDict body) st'
    ∧ objects_get (fun m => bool_decide (m_id (mr_base m) = Demo.R1)
                            && m_is_active (mr_base m))
                  (st_meetings RestDemo.store1) = GotOne meeting
    ∧ dict_lookup (lit "is_host") body = Some (JBool (m_host_id (mr_base meeting) =? 5))
    ∧ dict_lookup (lit "sfu_token") body
      = Some (JStr (RestDemo.sign0
           (mkAccessToken (lit "key") (lit "secret") (str_of_int 5) (lit "carol")
              (mkVideoGrants true Demo.R1 true true true
                             (m_host_id (mr_base meeting) =? 5)))))
    ∧ dict_lookup (lit "sfu_url") body = Some (JStr (lit "wss://sfu")).
Proof.
  apply (join_token_for_room_and_user (lit "key") (lit "secret") (lit "wss://sfu")
           RestDemo.sign0 5 (lit "carol") Demo.R1 1700000000 RestDemo.store1).
  vm_compute. reflexivity.
Defined.

(** ** Text for the PDF *)

Section PdfFacts.
Import Pdf.

Lemma replace_char_app old new s1 s2 :
  replace_char old new (s1 ++ s2) = replace_char old new s1 ++ replace_char old new s2.
Proof. unfold replace_char. apply flat_map_app. Qed.

Lemma replace_all_app table s1 s2 :
  replace_all table (s1 ++ s2) = replace_all table s1 ++ replace_all table s2.
Proof.
  revert s1 s2. induction table as [|r table IH]; intros s1 s2; [done|].
  unfold replace_all in *. simpl. by rewrite replace_char_app, IH.
Qed.

Lemma replace_all_nil table : replace_all table [] = [].
Proof. by induction table as [|r table IH]. Qed.

Lemma replace_char_absent old new s :
  forallb (fun c => negb (c =? old)%N) s = true → replace_char old new s = s.
Proof.
  induction s as [|c s IH]; [done|]. simpl. intros H.
  apply andb_prop in H as [Hc Hs]. apply negb_true_iff in Hc. rewrite Hc.
  simpl. f_equal. by apply IH.
Qed.

Lemma not_replaced_cons r table c :
  replaced_by (r :: table) c = false →
  (c =? fst r)%N = false ∧ replaced_by table c = false.
Proof.
  unfold replaced_by. simpl. intros H. apply orb_false_elim in H as [H1 H2].
  split; [|done]. by rewrite N.eqb_sym.
Qed.

(** A text without replaced code points goes through the chain unchanged. *)
Lemma replace_all_absent table s :
  forallb (fun c => negb (replaced_by table c)) s = true → replace_all table s = s.
Proof.
  induction table as [|r table IH]; [done|]. intros H.
  unfold replace_all in *. simpl. rewrite replace_char_absent.
  - apply IH. apply forallb_forall. intros c Hc.
    eapply forallb_forall in H; [|done]. apply negb_true_iff in H.
    apply not_replaced_cons in H as [_ ->]. done.
  - apply forallb_forall. intros c Hc.
    eapply forallb_forall in H; [|done]. apply negb_true_iff in H.
    apply not_replaced_cons in H as [-> _]. done.
Qed.

Lemma closed_tail r table :
  closed (r :: table) = true →
  closed table = true
  ∧ forallb (fun c => negb (replaced_by table c)) (snd r) = true.
Proof.
  unfold closed. simpl. intros H. apply andb_prop in H as [Hr Ht].
  assert (Hweak : ∀ s, forallb (fun c => negb (replaced_by (r :: table) c)) s = true →
                       forallb (fun c => negb (replaced_by table c)) s = true).
  { intros s Hs. apply forallb_forall. intros c Hc.
    eapply forallb_forall in Hs; [|done]. apply negb_true_iff in Hs.
    apply not_replaced_cons in Hs as [_ ->]. done. }
  split; [|by apply Hweak].
  apply forallb_forall. intros r' Hr'. eapply forallb_forall in Ht; [|done].
  by apply Hweak.
Qed.

(** What the chain makes of one code point: the text of the first
    replacement for it, or the code point itself. *)
Lemma replace_all_char table c :
  closed table = true →
  replace_all table [c]
  = match List.find (fun r => (fst r =? c)%N) table with
    | Some r => snd r
    | None => [c]
    end.
Proof.
  induction table as [|r table IH]; [done|]. intros Hcl.
  apply closed_tail in Hcl as [Hcl Hr].
  unfold replace_all in *. simpl. rewrite (N.eqb_sym (fst r) c).
  destruct (c =? fst r)%N; simpl.
  - rewrite app_nil_r. by apply replace_all_absent.
  - by apply IH.
Qed.

Lemma replace_all_chars table s :
  replace_all table s = flat_map (fun c => replace_all table [c]) s.
Proof.
  induction s as [|c s IH]; [apply replace_all_nil|].
  change (c :: s) with ([c] ++ s). rewrite replace_all_app, IH. done.
Qed.

Lemma closed_replacements : closed replacements = true.
Proof. vm_compute. reflexivity. Qed.

Lemma find_replacement_clean table c r :
  closed table = true → List.find (fun r => (fst r =? c)%N) table = Some r →
  forallb (fun c => negb (replaced_by table c)) (snd r) = true.
Proof.
  unfold closed. intros Hcl Hf. apply find_some in Hf as [Hin _].
  by eapply forallb_forall in Hcl.
Qed.

Lemma find_none_not_replaced table c :
  List.find (fun r => (fst r =? c)%N) table = None → replaced_by table c = false.
Proof.
  intros Hf. unfold replaced_by. apply not_true_is_false. intros Hex.
  apply existsb_exists in Hex as (r & Hin & Hr).
  by rewrite (find_none _ _ Hf r Hin) in Hr.
Qed.

Lemma S_clean s : forallb (fun c => negb (replaced_by replacements c)) (S s) = true.
Proof.
  unfold S. rewrite replace_all_chars. induction s as [|c s IH]; [done|].
  cbn [flat_map]. rewrite forallb_app, IH, andb_true_r.
  rewrite (replace_all_char _ c closed_replacements).
  destruct (List.find _ _) as [r|] eqn:Hf.
  - by eapply find_replacement_clean.
  - cbn [forallb]. by rewrite (find_none_not_replaced _ _ Hf).
Qed.

End PdfFacts.

(** X25. [S] removes every code point it has a replacement for, so that
    applying it twice is the same as applying it once, and it leaves a text
    without such code points unchanged. *)
Theorem S_removes_what_it_replaces s :
  forallb (fun c => negb (Pdf.replaced_by Pdf.replacements c)) (Pdf.S s) = true
  ∧ Pdf.S (Pdf.S s) = Pdf.S s
  ∧ (forallb (fun c => negb (Pdf.replaced_by Pdf.replacements c)) s = true →
     Pdf.S s = s).
Proof.
  split; [apply S_clean|]. split.
  - apply replace_all_absent, S_clean.
  - apply replace_all_absent.
Qed.

(** X26. When every code point of a text is in latin-1 or is one [S] has a
    replacement for, every code point of [S(text)] is in latin-1, as the core
    fonts of the PDF library require. *)
Theorem S_output_is_latin1 s :
  forallb (fun c => Pdf.latin1 c || Pdf.replaced_by Pdf.replacements c) s = true →
  forallb Pdf.latin1 (Pdf.S s) = true.
Proof.
  intros H. unfold Pdf.S. rewrite replace_all_chars.
  induction s as [|c s IH]; [done|]. cbn [forallb flat_map] in *.
  apply andb_prop in H as [Hc Hs]. rewrite forallb_app, (IH Hs), andb_true_r.
  rewrite (replace_all_char _ c closed_replacements).
  destruct (List.find _ _) as [r|] eqn:Hf.
  - apply find_some in Hf as [Hin _].
    assert (Hall : forallb (fun r => forallb Pdf.latin1 (snd r)) Pdf.replacements = true)
      by (vm_compute; reflexivity).
    by eapply forallb_forall in Hall.
  - cbn [forallb]. rewrite (find_none_not_replaced _ _ Hf), orb_false_r in Hc.
    by rewrite Hc.
Qed.

(** An arrow, a dash and a no-break space among ASCII text. *)
Lemma S_output_is_latin1_witness :
  forallb Pdf.latin1 (Pdf.S ([97; 8594; 98; 8212; 160; 99]%N)) = true.
Proof.
  apply S_output_is_latin1. vm_compute. reflexivity.
Defined.

(** ** Creating a meeting *)

Lemma filter_none {A : Type} (p : A → bool) (l : list A) :
  (∀ x, In x l → p x = false) → List.filter p l = [].
Proof.
  intros H. induction l as [|x l IH]; [done|]. simpl.
  rewrite (H x) by (by left). apply IH. intros y Hy. apply H. by right.
Qed.

Lemma existsb_false {A : Type} (p : A → bool) (l : list A) :
  existsb p l = false → ∀ x, In x l → p x = false.
Proof.
  intros H x Hx. apply not_true_is_false. intros Hp.
  assert (existsb p l = true) by (apply existsb_exists; by exists x). congruence.
Qed.

(** A successful create: the body was an object with a string (or no) title
    that the driver could write, the key was new, and one row was appended. *)
Lemma create_success writable uid data new_id now st :
  status_of (MeetingListCreateView_post writable uid data new_id now st) = Some 201 →
  ∃ title,
    (length title ≤ 255)%nat
    ∧ existsb (fun m => bool_decide (m_id (mr_base m) = new_id)) (st_meetings st) = false
    ∧ MeetingListCreateView_post writable uid data new_id now st
      = Answered 201 (JDict [(lit "id", JStr new_id); (lit "title", JStr title)])
          (mkStore (st_users st)
             (st_meetings st
              ++ [mkMeetingRow (mkMeeting new_id uid true None) title now 20])
             (st_participants st)).
Proof.
  unfold MeetingListCreateView_post. destruct data as [| | | | | |fields]; try done.
  destruct (dict_get _ _ fields) as [| | | |t| |]; try done.
  destruct (writable _); [|done].
  destruct (existsb _ _) eqn:Hex; [done|]. intros _.
  exists (slice_to 255 (strip t)). split; [|done].
  unfold slice_to. rewrite length_firstn. lia.
Qed.

Lemma created_meeting_found new_id uid title now ms :
  existsb (fun m => bool_decide (m_id (mr_base m) = new_id)) ms = false →
  List.filter (fun m => bool_decide (m_id (mr_base m) = new_id) && m_is_active (mr_base m))
              (ms ++ [mkMeetingRow (mkMeeting new_id uid true None) title now 20])
  = [mkMeetingRow (mkMeeting new_id uid true None) title now 20].
Proof.
  intros Hex. rewrite List.filter_app, filter_none.
  - simpl. by rewrite bool_decide_true.
  - intros m Hm. by rewrite (existsb_false _ _ Hex m Hm).
Qed.

Lemma other_meeting_kept mid new_id row ms :
  mid ≠ new_id → m_id (mr_base row) = new_id →
  List.filter (fun m => bool_decide (m_id (mr_base m) = mid) && m_is_active (mr_base m))
              (ms ++ [row])
  = List.filter (fun m => bool_decide (m_id (mr_base m) = mid) && m_is_active (mr_base m)) ms.
Proof.
  intros Hne Hid. rewrite List.filter_app. simpl.
  rewrite bool_decide_false by congruence. simpl. apply app_nil_r.
Qed.

(** X27. A create request either answers 201 and appends one meeting row --
    active, hosted by the caller, with room for 20 and a title of at most 255
    code points, the one of the answer -- or an exception leaves the view and
    no table has changed.  It answers 201 exactly when the body is an object
    whose title is a string or missing, the database driver can write the
    title as it is stored, and the key is new. *)
Theorem create_adds_one_meeting_or_nothing writable uid data new_id now st :
  ((∃ title,
      (length title ≤ 255)%nat
      ∧ MeetingListCreateView_post writable uid data new_id now st
        = Answered 201 (JDict [(lit "id", JStr new_id); (lit "title", JStr title)])
            (mkStore (st_users st)
               (st_meetings st
                ++ [mkMeetingRow (mkMeeting new_id uid true None) title now 20])
               (st_participants st)))
   ∨ MeetingListCreateView_post writable uid data new_id now st = Unhandled st)
  ∧ (status_of (MeetingListCreateView_post writable uid data new_id now st) = Some 201
     ↔ ∃ fields t,
         data = JDict fields
         ∧ (dict_lookup (lit "title") fields = None ∧ t = lit "Untitled Meeting"
            ∨ dict_lookup (lit "title") fields = Some (JStr t))
         ∧ writable (firstn 255 (strip t)) = true
         ∧ existsb (fun m => bool_decide (m_id (mr_base m) = new_id)) (st_meetings st)
           = false).
Proof.
  split.
  - destruct (status_of (MeetingListCreateView_post writable uid data new_id now st))
      as [s|] eqn:Hs.
    + left. assert (s = 201) as ->.
      { revert Hs. unfold MeetingListCreateView_post.
        destruct data as [| | | | | |fields]; try done.
        destruct (dict_get _ _ fields); try done.
        destruct (writable _); [|done].
        destruct (existsb _ _); [done|]. by intros [= <-]. }
      destruct (create_success _ _ _ _ _ _ Hs) as (title & Hlen & _ & Heq).
      by exists title.
    + right. revert Hs. unfold MeetingListCreateView_post.
      destruct data as [| | | | | |fields]; try done.
      destruct (dict_get _ _ fields); try done.
      destruct (writable _); [|done].
      by destruct (existsb _ _).
  - unfold MeetingListCreateView_post, dict_get, slice_to. split.
    + destruct data as [| | | | | |fields]; try done.
      destruct (dict_lookup _ fields) as [v|] eqn:Hv.
      * destruct v as [| | | |t| |]; try done.
        destruct (writable _) eqn:Hw; [|done].
        destruct (existsb _ _) eqn:Hex; [done|]. intros _.
        exists fields, t. split; [done|]. split; [by right|]. done.
      * destruct (writable _) eqn:Hw; [|done].
        destruct (existsb _ _) eqn:Hex; [done|]. intros _.
        exists fields, (lit "Untitled Meeting"). split; [done|]. split; [by left|].
        done.
    + intros (fields & t & -> & [[Hv ->]|Hv] & Hw & Hex); by rewrite Hv, Hw, Hex.
Qed.

(** X28. After a successful create for a key no participant row refers to,
    the consumer's access check for the new meeting passes for the creator
    and for nobody else, and the check for every other meeting answers as
    before. *)
Theorem created_meeting_admits_only_its_host writable uid data new_id now st :
  status_of (MeetingListCreateView_post writable uid data new_id now st) = Some 201 →
  existsb (in_meeting new_id) (st_participants st) = false →
  (∀ uid', has_access (db_of (tables (MeetingListCreateView_post writable uid data new_id now st)))
                      new_id (JInt uid') = (uid =? uid'))
  ∧ (∀ mid i, mid ≠ new_id →
       has_access (db_of (tables (MeetingListCreateView_post writable uid data new_id now st))) mid i
       = has_access (db_of st) mid i).
Proof.
  intros Hs Hfresh. destruct (create_success _ _ _ _ _ _ Hs) as (title & _ & Hex & ->).
  simpl. split.
  - intros uid'.
    rewrite (has_access_of_row _ new_id
               (mkMeetingRow (mkMeeting new_id uid true None) title now 20))
      by (by apply created_meeting_found).
    simpl. replace (existsb _ (st_participants st)) with false; [apply orb_false_r|].
    symmetry. apply not_true_is_false. intros H.
    apply existsb_exists in H as (p & Hp & Hq).
    apply andb_prop in Hq as [Hq _]. apply andb_prop in Hq as [Hq _].
    pose proof (existsb_false _ _ Hfresh p Hp) as Hn. unfold in_meeting in Hn. congruence.
  - intros mid i Hne. unfold has_access, db_of. simpl.
    rewrite !find_map, !find_filter_head.
    rewrite (other_meeting_kept mid new_id) by done. done.
Qed.

(** carol creates a meeting next to the demo room: she may enter it, alice
    may not. *)
Lemma created_meeting_admits_only_its_host_witness :
  has_access
    (db_of (tables (MeetingListCreateView_post RestDemo.writes0 5
                      (JDict [(lit "title", JStr (lit " Retro "))])
                      (lit "r2") 1700000000 RestDemo.store0)))
    (lit "r2") (JInt 5) = true
  ∧ has_access
      (db_of (tables (MeetingListCreateView_post RestDemo.writes0 5
                        (JDict [(lit "title", JStr (lit " Retro "))])
                        (lit "r2") 1700000000 RestDemo.store0)))
      (lit "r2") (JInt 3) = false.
Proof.
  assert (H1 : status_of (MeetingListCreateView_post RestDemo.writes0 5
                 (JDict [(lit "title", JStr (lit " Retro "))])
                 (lit "r2") 1700000000 RestDemo.store0) = Some 201)
    by (vm_compute; reflexivity).
  assert (H2 : existsb (in_meeting (lit "r2")) (st_participants RestDemo.store0) = false)
    by (vm_compute; reflexivity).
  destruct (created_meeting_admits_only_its_host _ _ _ _ _ _ H1 H2) as [H _].
  split; [exact (H 5)|exact (H 3)].
Defined.

Section CreateFacts.
Variable KEY SECRET URL : pystr.
Variable to_jwt : AccessToken → pystr.

(** X29. After a successful create for a key no participant row refers to,
    a join request of any user for the new meeting answers 200, and it tells
    the creator, and only the creator, that they are the host. *)
Theorem created_meeting_can_be_joined writable uid data new_id now st uid' uname' now' :
  status_of (MeetingListCreateView_post writable uid data new_id now st) = Some 201 →
  existsb (in_meeting new_id) (st_participants st) = false →
  ∃ body st'',
    MeetingJoinView_post KEY SECRET URL to_jwt uid' uname' new_id now'
      (tables (MeetingListCreateView_post writable uid data new_id now st))
    = Answered 200 body st''
    ∧ dict_lookup (lit "is_host") match body with JDict d => d | _ => [] end
      = Some (JBool (uid =? uid'))
    ∧ has_access (db_of st'') new_id (JInt uid') = true.
Proof.
  intros Hs Hfresh. destruct (create_success _ _ _ _ _ _ Hs) as (title & _ & Hex & ->).
  simpl. unfold MeetingJoinView_post, objects_get. simpl.
  rewrite (created_meeting_found _ _ _ _ _ Hex). simpl.
  rewrite (filter_none (fun p => in_meeting new_id p && row_active p)).
  2:{ intros p Hp. by rewrite (existsb_false _ _ Hfresh p Hp). }
  rewrite (filter_none (is_row_of new_id uid')).
  2:{ intros p Hp. unfold is_row_of. by rewrite (existsb_false _ _ Hfresh p Hp). }
  simpl. rewrite andb_false_r. eexists _, _. split; [reflexivity|]. split.
  - vm_compute dict_lookup. done.
  - rewrite (has_access_of_row _ new_id
               (mkMeetingRow (mkMeeting new_id uid true None) title now 20))
      by (by apply created_meeting_found).
    simpl. rewrite existsb_app. simpl.
    rewrite bool_decide_true by done. rewrite Z.eqb_refl. simpl.
    by rewrite !orb_true_r.
Qed.

End CreateFacts.

(** bob joins the meeting carol created without a title. *)
Lemma created_meeting_can_be_joined_witness :
  ∃ body st'',
    MeetingJoinView_post (lit "key") (lit "secret") (lit "wss://sfu") RestDemo.sign0
      4 (lit "bob") (lit "r2") 1700000100
      (tables (MeetingListCreateView_post RestDemo.writes0 5 (JDict []) (lit "r2") 1700000000
                 RestDemo.store0))
    = Answered 200 body st''
    ∧ dict_lookup (lit "is_host") match body with JDict d => d | _ => [] end
      = Some (JBool (5 =? 4))
    ∧ has_access (db_of st'') (lit "r2") (JInt 4) = true.
Proof.
  assert (H1 : status_of (MeetingListCreateView_post RestDemo.writes0 5 (JDict []) (lit "r2") 1700000000
                            RestDemo.store0) = Some 201)
    by (vm_compute; reflexivity).
  assert (H2 : existsb (in_meeting (lit "r2")) (st_participants RestDemo.store0) = false)
    by (vm_compute; reflexivity).
  exact (created_meeting_can_be_joined (lit "key") (lit "secret") (lit "wss://sfu")
           RestDemo.sign0 RestDemo.writes0 5 (JDict []) (lit "r2") 1700000000
           RestDemo.store0
           4 (lit "bob") 1700000100 H1 H2).
Defined.
